(** * PyFunceble process manager: the pool orchestration layer

    A shallow embedding of [PyFunceble/ext/process_manager/core.py]
    (class [ProcessManagerCore]) together with the properties of its
    specification.

    The manager is a Python object that is mutated in place and whose
    methods may raise.  It is embedded as a record [Manager] threaded
    through a state-and-exception monad [M].  Worker objects live in a
    store indexed by references ([wid]); the two cohorts
    [created_workers] and [running_workers] hold references, so a worker
    that sits in both lists is one object.

    The worker class itself ([WORKER_CLASS], normally [WorkerCore]) is an
    external collaborator of [core.py]: it is taken as a parameter through
    the interface [WorkerClass].  The [DummyWorker] of the test suite is
    one instance; [SpecWorker], which follows the worker states of the
    specification, is another. *)

From Stdlib Require Import ZArith.
From stdpp Require Import base option list sets strings pretty.

Local Open Scope string_scope.
Local Open Scope list_scope.
Local Open Scope Z_scope.

(** ** Python values *)

(** The payloads and the loosely typed arguments the manager handles. *)
Inductive value :=
| VNone
| VBool (b : bool)
| VInt (z : Z)
| VStr (s : string).

#[global] Instance value_eq_dec : EqDecision value.
Proof. solve_decision. Defined.

(** Truth value testing, as used by [or] and [not]. *)
Definition truthy (v : value) : bool :=
  match v with
  | VNone => false
  | VBool b => b
  | VInt z => negb (Z.eqb z 0)
  | VStr s => negb (String.eqb s "")
  end.

(** [x or y]. *)
Definition py_or (x y : value) : value := if truthy x then x else y.

(** [isinstance(v, int)]; [bool] is a subclass of [int]. *)
Definition isinstance_int (v : value) : bool :=
  match v with
  | VInt _ | VBool _ => true
  | _ => false
  end.

(** The integer a value stands for in arithmetic, comparisons and
    [range]; [None] when the operation raises [TypeError]. *)
Definition as_int (v : value) : option Z :=
  match v with
  | VInt z => Some z
  | VBool b => Some (Z.b2z b)
  | _ => None
  end.

(** [x or d] for [x : Optional[bool]] and a boolean default. *)
Definition or_bool (x : option bool) (d : bool) : bool :=
  match x with
  | Some true => true
  | _ => d
  end.

(** [x or d] for [x : Optional[str]]. *)
Definition or_str (x : option string) (d : string) : string :=
  match x with
  | Some s => if String.eqb s "" then d else s
  | None => d
  end.

(** ** Exceptions *)

Inductive exn :=
| TypeError
| ValueError
| AttributeError
| RuntimeError (msg : string).

#[global] Instance exn_eq_dec : EqDecision exn.
Proof. solve_decision. Defined.

Inductive outcome (A : Type) :=
| Return (a : A)
| Raise (e : exn).
Arguments Return {A} a.
Arguments Raise {A} e.

(** ** Workers *)

(** Handles of the inter-process queues.  A queue is an object with an
    identity: either one the caller made and handed over, or the [n]-th
    queue created by the [multiprocessing.Manager()] that [__init__] starts
    when it is given no manager.  The queues of that manager are new
    objects, distinct from each other and from every object of the
    caller. *)
Inductive queue :=
| GivenQueue (id : nat)
| ManagerQueue (n : nat).

#[global] Instance queue_eq_dec : EqDecision queue.
Proof. solve_decision. Defined.

(** References to worker objects. *)
Abbreviation wid := nat (only parsing).

Module Worker.

(** The keyword arguments [spawn_worker] gives to [WORKER_CLASS]. *)
Record kwargs := {
  k_name : string;
  k_input_queue : option queue;
  k_output_queues : option (list queue);
  k_configuration_queue : option queue;
  k_daemon : bool;
  k_spread_stop_signal : bool;
  k_spread_wait_signal : bool;
  k_targeted_processing : bool;
  k_delay_message_sharing : bool;
  k_delay_shutdown : bool;
  k_raise_exception : bool;
  k_sharing_delay : value;
  k_shutdown_delay : value;
  k_fetch_delay : value;
  k_extra_args : list (string * value)
}.

(** The methods of a worker the manager calls. *)
Inductive method :=
| start
| terminate
| join
| global_exit_event_set  (* [worker.global_exit_event.set()] *)
| push_to_input_queue
    (data : value) (source_worker : string) (destination_worker : option string)
| push_to_output_queues
    (data : value) (source_worker : string) (destination_worker : option string)
| push_to_configuration_queue
    (data : value) (source_worker : string) (destination_worker : option string).

#[global] Instance method_eq_dec : EqDecision method.
Proof. solve_decision. Defined.

(** A worker object as the manager sees it: the [name] it was built
    with, the [concurrent_workers_names] attribute the manager writes,
    and the state [proc] private to the worker class. *)
Record obj (W : Type) := {
  name : string;
  concurrent_workers_names : list string;
  proc : W
}.
Arguments name {W} _.
Arguments concurrent_workers_names {W} _.
Arguments proc {W} _.

End Worker.

(** The interface [core.py] expects of [WORKER_CLASS]. *)
Class WorkerClass (W : Type) := {
  (** [WORKER_CLASS(name=..., ...)] *)
  wc_new : Worker.kwargs -> W;
  (** the effect of a method call on the worker's own state *)
  wc_call : Worker.method -> W -> W;
  (** [worker.is_alive()] *)
  wc_is_alive : W -> bool;
  (** [worker.exception]: [None] or [(error, trace)] *)
  wc_exception : W -> option (exn * string)
}.

(** The worker of [tests/test_process_core.py]: every method is a mock
    that records its calls, [is_alive] always answers [True] and
    [exception] is a plain attribute, [None] at construction. *)
Record DummyWorker := {
  d_name : string;
  d_exception : option (exn * string);
  d_calls : list Worker.method
}.

#[global] Instance DummyWorker_class : WorkerClass DummyWorker := {
  wc_new kw := {| d_name := Worker.k_name kw; d_exception := None; d_calls := [] |};
  wc_call c w :=
    {| d_name := d_name w; d_exception := d_exception w; d_calls := d_calls w ++ [c] |};
  wc_is_alive _ := true;
  wc_exception w := d_exception w
}.

(** The worker of [test_terminate_no_running_workers], as far as
    [terminate] uses it: a mock whose [is_alive] answers [False] and whose
    other methods record their calls. *)
Record IdleMock := {
  i_calls : list Worker.method
}.

Definition IdleMock_class : WorkerClass IdleMock := {|
  wc_new _ := {| i_calls := [] |};
  wc_call c w := {| i_calls := i_calls w ++ [c] |};
  wc_is_alive _ := false;
  wc_exception _ := None
|}.

(** Modelled from the spec: the worker class of the package,
    [WorkerCore], whose module is not among these sources.  The
    specification (worker state) gives a worker four states: created,
    running, waiting and terminated.  A created worker runs once it is
    started; a running worker waits once it receives the [wait] token and
    runs again with the next other item; any worker is terminated by the
    [stop] token, by the exit event and by a forced termination.  A worker
    is alive while it runs or waits.  The receipt of an item is placed at
    the push that addresses it to the worker by name; only a worker that
    runs or waits reads its queue. *)
Inductive worker_state :=
| Created
| Running
| Waiting
| Terminated.

Record SpecWorker := {
  s_name : string;
  s_state : worker_state
}.

Definition spec_receive (payload : value) (s : worker_state) : worker_state :=
  match s with
  | Running | Waiting =>
      if bool_decide (payload = VStr "stop") then Terminated
      else if bool_decide (payload = VStr "wait") then Waiting
      else Running
  | Created => Created
  | Terminated => Terminated
  end.

Definition spec_call (c : Worker.method) (w : SpecWorker) : SpecWorker := {|
  s_name := s_name w;
  s_state :=
    match c with
    | Worker.start =>
        match s_state w with
        | Created => Running
        | s => s
        end
    | Worker.terminate | Worker.global_exit_event_set => Terminated
    | Worker.push_to_input_queue data _ (Some destination_worker) =>
        if String.eqb destination_worker (s_name w)
        then spec_receive data (s_state w)
        else s_state w
    | _ => s_state w
    end |}.

#[global] Instance SpecWorker_class : WorkerClass SpecWorker := {
  wc_new kw := {| s_name := Worker.k_name kw; s_state := Created |};
  wc_call := spec_call;
  wc_is_alive w :=
    match s_state w with
    | Running | Waiting => true
    | _ => false
    end;
  wc_exception _ := None
}.

(** ** The manager object *)

(** The class attribute [WORKER_CLASS].  [ProcessManagerCore] only
    annotates it ([WORKER_CLASS: WorkerCore]), which assigns nothing: the
    attribute is [Unassigned] until a subclass or a test assigns it.  What
    is assigned is a worker class ([Assigned true], also written [true])
    or [None] ([Assigned false]). *)
Inductive class_binding :=
| Unassigned
| Assigned (is_class : bool).

Coercion Assigned : bool >-> class_binding.

(** Class-level attributes of [ProcessManagerCore] (a subclass or a test
    overrides them). [AVAILABLE_CPU_COUNT] is [os.cpu_count()]. *)
Record ClassAttrs := {
  STD_NAME : string;
  WORKER_CLASS : class_binding;
  AVAILABLE_CPU_COUNT : Z;
  input_datasets : list value;
  output_datasets : list value;
  configuration_datasets : list value
}.

(** A [SyncManager], as far as [__init__] uses it: the object that the
    [n]-th call of [Queue()] made by [__init__] returns (its [Event()] is
    called once, for the exit event, which the manager only hands on).  A
    manager of the caller may be any object with these methods, a mock
    that returns one and the same queue included. *)
Definition sync_manager : Type := nat -> queue.

(** [multiprocessing.Manager()] *)
Definition multiprocessing_Manager : sync_manager := ManagerQueue.

(** Instance attributes written once by [__init__]. *)
Record Options := {
  manager : option sync_manager;
  input_queue : option queue;
  output_queues : option (list queue);
  configuration_queue : option queue;
  daemon : bool;
  spread_stop_signal : bool;
  spread_wait_signal : bool;
  targeted_processing : bool;
  delay_message_sharing : bool;
  delay_shutdown : bool;
  raise_exception : bool;
  sharing_delay : value;
  shutdown_delay : value;
  fetch_delay : value;
  _extra_args : list (string * value)
}.

(** What [__init__] accepts for [output_queue]: nothing, one queue, or a
    list of queues. *)
Inductive queue_arg :=
| QNone
| QOne (q : queue)
| QList (qs : list queue).

Definition queue_arg_truthy (a : queue_arg) : bool :=
  match a with
  | QNone => false
  | QOne _ => true
  | QList qs => negb (bool_decide (qs = []))
  end.

(** The parameters of [__init__]. *)
Record init_args := {
  a_max_workers : value;
  a_manager : option sync_manager;
  a_input_queue : option queue;
  a_generate_input_queue : bool;
  a_output_queue : queue_arg;
  a_output_queue_count : Z;
  a_generate_output_queue : bool;
  a_configuration_queue : option queue;
  a_generate_configuration_queue : bool;
  a_daemon : option bool;
  a_spread_stop_signal : option bool;
  a_spread_wait_signal : option bool;
  a_delay_message_sharing : option bool;
  a_delay_shutdown : option bool;
  a_raise_exception : option bool;
  a_targeted_processing : option bool;
  a_sharing_delay : value;
  a_shutdown_delay : value;
  a_fetch_delay : value;
  a_kwargs : list (string * value)
}.

(** The defaults of the signature of [__init__]. *)
Definition default_args : init_args := {|
  a_max_workers := VNone;
  a_manager := None;
  a_input_queue := None;
  a_generate_input_queue := true;
  a_output_queue := QNone;
  a_output_queue_count := 1;
  a_generate_output_queue := true;
  a_configuration_queue := None;
  a_generate_configuration_queue := true;
  a_daemon := None;
  a_spread_stop_signal := None;
  a_spread_wait_signal := None;
  a_delay_message_sharing := None;
  a_delay_shutdown := None;
  a_raise_exception := None;
  a_targeted_processing := None;
  a_sharing_delay := VNone;
  a_shutdown_delay := VNone;
  a_fetch_delay := VNone;
  a_kwargs := []
|}.

Definition with_max_workers (v : value) (a : init_args) : init_args := {|
  a_max_workers := v;
  a_manager := a_manager a;
  a_input_queue := a_input_queue a;
  a_generate_input_queue := a_generate_input_queue a;
  a_output_queue := a_output_queue a;
  a_output_queue_count := a_output_queue_count a;
  a_generate_output_queue := a_generate_output_queue a;
  a_configuration_queue := a_configuration_queue a;
  a_generate_configuration_queue := a_generate_configuration_queue a;
  a_daemon := a_daemon a;
  a_spread_stop_signal := a_spread_stop_signal a;
  a_spread_wait_signal := a_spread_wait_signal a;
  a_delay_message_sharing := a_delay_message_sharing a;
  a_delay_shutdown := a_delay_shutdown a;
  a_raise_exception := a_raise_exception a;
  a_targeted_processing := a_targeted_processing a;
  a_sharing_delay := a_sharing_delay a;
  a_shutdown_delay := a_shutdown_delay a;
  a_fetch_delay := a_fetch_delay a;
  a_kwargs := a_kwargs a
|}.

Definition with_targeted_processing (t : option bool) (a : init_args) : init_args := {|
  a_max_workers := a_max_workers a;
  a_manager := a_manager a;
  a_input_queue := a_input_queue a;
  a_generate_input_queue := a_generate_input_queue a;
  a_output_queue := a_output_queue a;
  a_output_queue_count := a_output_queue_count a;
  a_generate_output_queue := a_generate_output_queue a;
  a_configuration_queue := a_configuration_queue a;
  a_generate_configuration_queue := a_generate_configuration_queue a;
  a_daemon := a_daemon a;
  a_spread_stop_signal := a_spread_stop_signal a;
  a_spread_wait_signal := a_spread_wait_signal a;
  a_delay_message_sharing := a_delay_message_sharing a;
  a_delay_shutdown := a_delay_shutdown a;
  a_raise_exception := a_raise_exception a;
  a_targeted_processing := t;
  a_sharing_delay := a_sharing_delay a;
  a_shutdown_delay := a_shutdown_delay a;
  a_fetch_delay := a_fetch_delay a;
  a_kwargs := a_kwargs a
|}.

Definition with_kwargs (kwargs : list (string * value)) (a : init_args) : init_args := {|
  a_max_workers := a_max_workers a;
  a_manager := a_manager a;
  a_input_queue := a_input_queue a;
  a_generate_input_queue := a_generate_input_queue a;
  a_output_queue := a_output_queue a;
  a_output_queue_count := a_output_queue_count a;
  a_generate_output_queue := a_generate_output_queue a;
  a_configuration_queue := a_configuration_queue a;
  a_generate_configuration_queue := a_generate_configuration_queue a;
  a_daemon := a_daemon a;
  a_spread_stop_signal := a_spread_stop_signal a;
  a_spread_wait_signal := a_spread_wait_signal a;
  a_delay_message_sharing := a_delay_message_sharing a;
  a_delay_shutdown := a_delay_shutdown a;
  a_raise_exception := a_raise_exception a;
  a_targeted_processing := a_targeted_processing a;
  a_sharing_delay := a_sharing_delay a;
  a_shutdown_delay := a_shutdown_delay a;
  a_fetch_delay := a_fetch_delay a;
  a_kwargs := kwargs
|}.

(** The manager. [workers] is the store of worker objects the lists refer
    to; [calls] logs, in program order, every method the manager calls on a
    worker (what the mocks of the test suite record); [random_tape] feeds
    [random.choice].

    The exit event and the queues are inter-process objects the manager
    creates and hands to its workers. The manager never reads them, and
    writes them only through a worker: such a write is a method call on
    that worker, see [Worker.method]. *)
Record Manager (W : Type) := {
  class_attrs : ClassAttrs;
  options : Options;
  _max_workers : value;
  created_workers : list wid;
  running_workers : list wid;
  workers : list (Worker.obj W);
  calls : list (wid * Worker.method);
  random_tape : list nat
}.
Arguments class_attrs {W} _.
Arguments options {W} _.
Arguments _max_workers {W} _.
Arguments created_workers {W} _.
Arguments running_workers {W} _.
Arguments workers {W} _.
Arguments calls {W} _.
Arguments random_tape {W} _.

(** [list.remove(x)]: drop the first occurrence; [None] is the
    [ValueError] of an absent element. *)
Fixpoint list_remove_first (x : wid) (l : list wid) : option (list wid) :=
  match l with
  | [] => None
  | y :: l' =>
      if decide (x = y) then Some l'
      else cons y <$> list_remove_first x l'
  end.

(** [x in l]. *)
Definition list_contains (x : wid) (l : list wid) : bool := bool_decide (x ∈ l).

(** [k in d] and [d[k]] on a dictionary with string keys, kept as the list
    of its items: [None] when the key is absent. *)
Fixpoint dict_get (k : string) (d : list (string * value)) : option value :=
  match d with
  | [] => None
  | (k', v) :: d' => if String.eqb k k' then Some v else dict_get k d'
  end.

(** The keywords [spawn_worker] writes out in its call of
    [WORKER_CLASS]. *)
Definition worker_keywords : list string :=
  ["name"; "input_queue"; "output_queues"; "global_exit_event";
   "configuration_queue"; "daemon"; "spread_stop_signal"; "spread_wait_signal";
   "targeted_processing"; "delay_message_sharing"; "delay_shutdown";
   "raise_exception"; "sharing_delay"; "shutdown_delay"; "fetch_delay"].

(** What reading [self.WORKER_CLASS] yields: the worker class, or a plain
    value (which nothing can call). *)
Inductive class_or_value :=
| WorkerClassObject
| PlainValue (v : value).

Section Manager.

Context {W : Type} `{WorkerClass W}.

(** The order in which [list(set(l))] enumerates: some duplicate-free
    enumeration of the elements of [l], fixed by the hashes of the
    objects. *)
Variable list_of_set : list wid -> list wid.

Local Abbreviation Mgr := (Manager W).

(** *** Field updates *)

Definition set_max_workers (v : value) (m : Mgr) : Mgr := {|
  class_attrs := class_attrs m; options := options m; _max_workers := v;
  created_workers := created_workers m; running_workers := running_workers m;
  workers := workers m;
  calls := calls m; random_tape := random_tape m |}.

Definition set_created_workers (l : list wid) (m : Mgr) : Mgr := {|
  class_attrs := class_attrs m; options := options m; _max_workers := _max_workers m;
  created_workers := l; running_workers := running_workers m;
  workers := workers m;
  calls := calls m; random_tape := random_tape m |}.

Definition set_running_workers (l : list wid) (m : Mgr) : Mgr := {|
  class_attrs := class_attrs m; options := options m; _max_workers := _max_workers m;
  created_workers := created_workers m; running_workers := l;
  workers := workers m;
  calls := calls m; random_tape := random_tape m |}.

Definition set_workers (ws : list (Worker.obj W)) (m : Mgr) : Mgr := {|
  class_attrs := class_attrs m; options := options m; _max_workers := _max_workers m;
  created_workers := created_workers m; running_workers := running_workers m;
  workers := ws;
  calls := calls m; random_tape := random_tape m |}.

Definition set_calls (cs : list (wid * Worker.method)) (m : Mgr) : Mgr := {|
  class_attrs := class_attrs m; options := options m; _max_workers := _max_workers m;
  created_workers := created_workers m; running_workers := running_workers m;
  workers := workers m;
  calls := cs; random_tape := random_tape m |}.

Definition set_options (o : Options) (m : Mgr) : Mgr := {|
  class_attrs := class_attrs m; options := o; _max_workers := _max_workers m;
  created_workers := created_workers m; running_workers := running_workers m;
  workers := workers m;
  calls := calls m; random_tape := random_tape m |}.

Definition set_random_tape (t : list nat) (m : Mgr) : Mgr := {|
  class_attrs := class_attrs m; options := options m; _max_workers := _max_workers m;
  created_workers := created_workers m; running_workers := running_workers m;
  workers := workers m;
  calls := calls m; random_tape := t |}.

(** *** The monad of manager methods

    A method receives the manager, may mutate it and either returns or
    raises; what it mutated before raising stays mutated. *)

Definition M (A : Type) : Type := Mgr -> outcome A * Mgr.

Definition ret {A} (a : A) : M A := fun m => (Return a, m).

Definition raise {A} (e : exn) : M A := fun m => (Raise e, m).

Definition bind {A B} (c : M A) (k : A -> M B) : M B := fun m =>
  match c m with
  | (Return a, m') => k a m'
  | (Raise e, m') => (Raise e, m')
  end.

Definition get : M Mgr := fun m => (Return m, m).

Definition modify (f : Mgr -> Mgr) : M unit := fun m => (Return tt, f m).

Notation "x <- c ;; k" := (bind c (fun x => k))
  (at level 100, c at next level, k at level 200, right associativity).
Notation "c ;; k" := (bind c (fun _ => k))
  (at level 100, k at level 200, right associativity).

(** [for x in l: body(x)] over a list the body does not mutate. *)
Fixpoint for_each {A} (l : list A) (body : A -> M unit) : M unit :=
  match l with
  | [] => ret tt
  | x :: l' => body x ;; for_each l' body
  end.

(** [for _ in range(n): body()]. *)
Fixpoint repeat_n (n : nat) (body : M unit) : M unit :=
  match n with
  | O => ret tt
  | S n' => body ;; repeat_n n' body
  end.

(** *** Worker objects in the store *)

(** [worker.name] *)
Definition name_of (m : Mgr) (w : wid) : string :=
  from_option Worker.name "" (workers m !! w).

(** [[x.name for x in l]] *)
Definition names_of (m : Mgr) (l : list wid) : list string := name_of m <$> l.

(** [worker.is_alive()] *)
Definition is_alive (m : Mgr) (w : wid) : bool :=
  from_option (fun o => wc_is_alive (Worker.proc o)) false (workers m !! w).

(** [worker.exception] *)
Definition exception_of (m : Mgr) (w : wid) : option (exn * string) :=
  workers m !! w ≫= fun o => wc_exception (Worker.proc o).

Definition obj_call (c : Worker.method) (o : Worker.obj W) : Worker.obj W := {|
  Worker.name := Worker.name o;
  Worker.concurrent_workers_names := Worker.concurrent_workers_names o;
  Worker.proc := wc_call c (Worker.proc o) |}.

(** Calling a method of worker [w]: the worker's state changes and the
    call is logged. *)
Definition call (w : wid) (c : Worker.method) : M unit :=
  modify (fun m =>
    set_calls (calls m ++ [(w, c)]) (set_workers (alter (obj_call c) w (workers m)) m)).

(** [random.choice(l)] for a non-empty [l]. *)
Definition random_choice (l : list wid) : M wid := fun m =>
  match random_tape m with
  | [] => (Return (default 0%nat (l !! 0%nat)), m)
  | r :: t => (Return (default 0%nat (l !! (r mod length l)%nat)), set_random_tape t m)
  end.

(** *** Properties and predicates of the manager *)

(** [name] *)
Definition name (m : Mgr) : string := "ppm-" +:+ STD_NAME (class_attrs m).

(** [cpu_count] *)
Definition cpu_count (m : Mgr) : Z :=
  if 2 <? AVAILABLE_CPU_COUNT (class_attrs m)
  then AVAILABLE_CPU_COUNT (class_attrs m) - 2
  else AVAILABLE_CPU_COUNT (class_attrs m).

(** [max_workers] (getter) *)
Definition max_workers (m : Mgr) : value := _max_workers m.

(** [max_workers] (setter) *)
Definition max_workers_setter (v : value) : M unit :=
  if negb (isinstance_int v) then raise TypeError
  else modify (set_max_workers (VInt (Z.max 1 (default 0 (as_int v))))).

(** [is_running] *)
Definition is_running (m : Mgr) : bool :=
  match running_workers m with
  | [] => false
  | _ => existsb (is_alive m) (running_workers m)
  end.

(** [__getattr__(attribute)], which Python calls for a name that is no
    attribute of the manager: the extra keyword arguments of [__init__]
    answer. *)
Definition __getattr__ (attribute : string) : M value := fun m =>
  match dict_get attribute (_extra_args (options m)) with
  | Some v => (Return v, m)
  | None => (Raise AttributeError, m)
  end.

(** [self.WORKER_CLASS]: the class attribute where one is assigned;
    where none is, the name is no attribute of the manager and
    [__getattr__] answers. *)
Definition self_WORKER_CLASS : M class_or_value := fun m =>
  match WORKER_CLASS (class_attrs m) with
  | Assigned true => (Return WorkerClassObject, m)
  | Assigned false => (Return (PlainValue VNone), m)
  | Unassigned => (v <- __getattr__ "WORKER_CLASS" ;; ret (PlainValue v)) m
  end.

(** *** Spawning *)

(** Whether a key of [_extra_args] repeats a keyword that the call
    [WORKER_CLASS(name=..., ..., **self._extra_args)] writes out: Python
    then refuses the call with a [TypeError]. *)
Definition extra_args_clash (m : Mgr) : bool :=
  existsb (fun kv => bool_decide (kv.1 ∈ worker_keywords)) (_extra_args (options m)).

(** The keyword arguments of the worker [spawn_worker] builds. *)
Definition spawn_kwargs (daemon_arg : option bool) (m : Mgr) : Worker.kwargs := {|
  Worker.k_name :=
    "ppm-" +:+ STD_NAME (class_attrs m) +:+ "-"
      +:+ pretty (length (created_workers m) + 1)%nat;
  Worker.k_input_queue := input_queue (options m);
  Worker.k_output_queues := output_queues (options m);
  Worker.k_configuration_queue := configuration_queue (options m);
  Worker.k_daemon := or_bool daemon_arg (daemon (options m));
  Worker.k_spread_stop_signal := spread_stop_signal (options m);
  Worker.k_spread_wait_signal := spread_wait_signal (options m);
  Worker.k_targeted_processing := targeted_processing (options m);
  Worker.k_delay_message_sharing := delay_message_sharing (options m);
  Worker.k_delay_shutdown := delay_shutdown (options m);
  Worker.k_raise_exception := raise_exception (options m);
  Worker.k_sharing_delay := sharing_delay (options m);
  Worker.k_shutdown_delay := shutdown_delay (options m);
  Worker.k_fetch_delay := fetch_delay (options m);
  Worker.k_extra_args := _extra_args (options m) |}.

(** [spawn_worker(start=..., daemon=...)]: the reference of the new
    worker, or [None].  The call of the worker class comes after the cap
    on running workers; it raises what the read of [self.WORKER_CLASS]
    raises, and [TypeError] when what is read cannot be called or when an
    extra keyword argument repeats a keyword of the call. *)
Definition spawn_worker (start : bool) (daemon_arg : option bool) : M (option wid) :=
  fun m =>
  match as_int (max_workers m) with
  | None => (Raise TypeError, m)
  | Some k =>
      if k <=? Z.of_nat (length (running_workers m)) then (Return None, m)
      else
        match self_WORKER_CLASS m with
        | (Raise e, _) => (Raise e, m)
        | (Return (PlainValue _), _) => (Raise TypeError, m)
        | (Return WorkerClassObject, _) =>
            if extra_args_clash m then (Raise TypeError, m)
            else
              let kw := spawn_kwargs daemon_arg m in
              let peers :=
                if is_running m then names_of m (created_workers m)
                else names_of m (running_workers m) in
              let worker := {|
                Worker.name := Worker.k_name kw;
                Worker.concurrent_workers_names := peers;
                Worker.proc := wc_new kw |} in
              let w := length (workers m) in
              let m1 := set_created_workers (created_workers m ++ [w])
                          (set_workers (workers m ++ [worker]) m) in
              if start then
                (call w Worker.start ;;
                 modify (fun m => set_running_workers (running_workers m ++ [w]) m) ;;
                 ret (Some w)) m1
              else (Return (Some w), m1)
        end
  end.

(** [spawn_workers(start=...)] *)
Definition spawn_workers (start : bool) : M unit := fun m =>
  match as_int (max_workers m) with
  | None => (Raise TypeError, m)
  | Some k => repeat_n (Z.to_nat k) (spawn_worker start None ;; ret tt) m
  end.

(** *** Decorators *)

Definition ensure_worker_class_is_set {A} (func : M A) : M A :=
  cls <- self_WORKER_CLASS ;;
  match cls with
  | WorkerClassObject => func
  | PlainValue v => if truthy v then func else raise TypeError
  end.

Definition ensure_worker_spawned {A} (func : M A) : M A := fun m =>
  match created_workers m with
  | [] => (spawn_workers false ;; func) m
  | _ => func m
  end.

Definition ignore_if_running (func : M unit) : M unit := fun m =>
  if is_running m then (Return tt, m) else func m.

(** *** Pushing *)

(** The cohort a push addresses: [running_workers] when the pool is
    running, [created_workers] otherwise. *)
Definition current_workers (m : Mgr) : list wid :=
  if is_running m then running_workers m else created_workers m.

(** The common body of the three [push_to_*] methods; [via] is the
    method of the worker the data goes through. *)
Definition push_body
    (via : value -> string -> option string -> Worker.method)
    (data : value) (source_worker : option string) (all_queues : bool) : M unit :=
  fun m =>
  let workers := current_workers m in
  let source_worker := or_str source_worker (name m) in
  if all_queues then
    for_each workers (fun worker =>
      m' <- get ;; call worker (via data source_worker (Some (name_of m' worker)))) m
  else
    match workers with
    | [] => (Return tt, m)
    | _ => (worker <- random_choice workers ;;
            call worker (via data source_worker None)) m
    end.

(** [push_to_input_queue(data, source_worker=..., all_queues=...)] *)
Definition push_to_input_queue
    (data : value) (source_worker : option string) (all_queues : bool) : M unit :=
  ensure_worker_spawned (push_body Worker.push_to_input_queue data source_worker all_queues).

(** [push_to_output_queues(data, source_worker=..., all_queues=...)] *)
Definition push_to_output_queues
    (data : value) (source_worker : option string) (all_queues : bool) : M unit :=
  ensure_worker_spawned (push_body Worker.push_to_output_queues data source_worker all_queues).

(** [push_to_configuration_queue(data, source_worker=..., all_queues=...)] *)
Definition push_to_configuration_queue
    (data : value) (source_worker : option string) (all_queues : bool) : M unit :=
  ensure_worker_spawned
    (push_body Worker.push_to_configuration_queue data source_worker all_queues).

(** [push_stop_signal(source_worker=...)] *)
Definition push_stop_signal (source_worker : option string) : M unit :=
  push_to_input_queue (VStr "stop") source_worker true.

(** [push_wait_signal(source_worker=...)] *)
Definition push_wait_signal (source_worker : option string) : M unit :=
  push_to_input_queue (VStr "wait") source_worker true.

(** *** Termination *)

(** [self.running_workers.remove(worker)] *)
Definition running_workers_remove (worker : wid) : M unit := fun m =>
  match list_remove_first worker (running_workers m) with
  | None => (Raise ValueError, m)
  | Some l => (Return tt, set_running_workers l m)
  end.

(** [self.created_workers.remove(worker)] *)
Definition created_workers_remove (worker : wid) : M unit := fun m =>
  match list_remove_first worker (created_workers m) with
  | None => (Raise ValueError, m)
  | Some l => (Return tt, set_created_workers l m)
  end.

(** [terminate_worker(worker)] *)
Definition terminate_worker (worker : wid) : M unit :=
  call worker Worker.terminate ;;
  call worker Worker.join ;;
  (m <- get ;;
   if list_contains worker (running_workers m) then running_workers_remove worker
   else ret tt) ;;
  (m <- get ;;
   if list_contains worker (created_workers m) then created_workers_remove worker
   else ret tt).

(** [terminate()]. The exit event is set through the handle of a worker
    picked at random. *)
Definition terminate : M unit :=
  m <- get ;;
  let workers := list_of_set (running_workers m ++ created_workers m) in
  match workers with
  | [] => ret tt
  | _ =>
      worker <- random_choice workers ;;
      call worker Worker.global_exit_event_set
  end ;;
  for_each workers (fun worker =>
    m' <- get ;;
    if negb (is_alive m' worker) then ret tt
    else terminate_worker worker) ;;
  push_to_output_queues (VStr "stop") None true.

(** *** Waiting

    The two loops of [wait] iterate over a list while their body removes
    from it.  A Python list iterator is an index into the live list: each
    step reads the element at the index, if there is one, and advances.
    [i] is that index; [fuel] bounds the number of steps (the length of
    the list when the loop starts is enough, see [wait_running_fuel]).
    The methods of a worker do not raise in this model, so the
    [except KeyboardInterrupt] around [join] and [terminate] has nothing
    to catch. *)

Fixpoint wait_running (fuel i : nat) : M unit := fun m =>
  match fuel with
  | O => (Return tt, m)
  | S fuel' =>
      match running_workers m !! i with
      | None => (Return tt, m)
      | Some worker =>
          (call worker Worker.join ;;
           call worker Worker.terminate ;;
           running_workers_remove worker ;;
           created_workers_remove worker ;;
           m' <- get ;;
           match exception_of m' worker with
           | Some (worker_error, trace) => terminate ;; raise worker_error
           | None => wait_running fuel' (S i)
           end) m
      end
  end.

Fixpoint wait_created (fuel i : nat) : M unit := fun m =>
  match fuel with
  | O => (Return tt, m)
  | S fuel' =>
      match created_workers m !! i with
      | None => (Return tt, m)
      | Some worker =>
          (call worker Worker.terminate ;;
           created_workers_remove worker ;;
           m' <- get ;;
           match exception_of m' worker with
           | Some (worker_error, trace) => terminate ;; raise worker_error
           | None => wait_created fuel' (S i)
           end) m
      end
  end.

(** [wait()] *)
Definition wait : M unit :=
  (m <- get ;; wait_running (length (running_workers m)) 0) ;;
  (m <- get ;; wait_created (length (created_workers m)) 0) ;;
  terminate.

(** *** Starting *)

(** The body of [start], below its three decorators. *)
Definition start_body : M unit :=
  m <- get ;;
  for_each (created_workers m) (fun worker =>
    call worker Worker.start ;;
    modify (fun m => set_running_workers (running_workers m ++ [worker]) m)) ;;
  for_each (input_datasets (class_attrs m)) (fun data =>
    push_to_input_queue data (Some "ppm") false) ;;
  for_each (output_datasets (class_attrs m)) (fun data =>
    push_to_output_queues data (Some "ppm") false) ;;
  for_each (configuration_datasets (class_attrs m)) (fun data =>
    push_to_configuration_queue data (Some "ppm") true).

(** [start()] *)
Definition start : M unit :=
  ensure_worker_class_is_set (ensure_worker_spawned (ignore_if_running start_body)).

(** *** Construction *)

(** A fresh instance, carrying only the class-level defaults. *)
Definition blank (cls : ClassAttrs) (tape : list nat) : Mgr := {|
  class_attrs := cls;
  options := {|
    manager := None;
    input_queue := None; output_queues := None; configuration_queue := None;
    daemon := false; spread_stop_signal := false; spread_wait_signal := false;
    targeted_processing := false; delay_message_sharing := false;
    delay_shutdown := false; raise_exception := false;
    sharing_delay := VNone; shutdown_delay := VNone; fetch_delay := VNone;
    _extra_args := [] |};
  _max_workers := VInt 1;
  created_workers := [];
  running_workers := [];
  workers := [];
  calls := [];
  random_tape := tape |}.

(** [__init__]. [self.manager.Queue()] is called once for the input
    queue, then once for each output queue, then once for the
    configuration queue, where these are generated. *)
Definition __init__ (cls : ClassAttrs) (a : init_args) (tape : list nat) : Mgr :=
  let self := blank cls tape in
  let self := set_max_workers (py_or (a_max_workers a) (VInt (cpu_count self))) self in
  let self_manager := default multiprocessing_Manager (a_manager a) in
  let gen_input :=
    negb (bool_decide (is_Some (a_input_queue a))) && a_generate_input_queue a in
  let n_input := if gen_input then 1%nat else 0%nat in
  let gen_output :=
    negb (queue_arg_truthy (a_output_queue a)) && a_generate_output_queue a in
  let n_output :=
    if gen_output then Z.to_nat (Z.max 1 (a_output_queue_count a)) else 0%nat in
  let gen_configuration :=
    negb (bool_decide (is_Some (a_configuration_queue a)))
    && a_generate_configuration_queue a in
  set_options {|
    manager := Some self_manager;
    input_queue := if gen_input then Some (self_manager 0%nat) else a_input_queue a;
    output_queues :=
      if gen_output then Some (self_manager <$> seq n_input n_output)
      else match a_output_queue a with
           | QOne q => Some [q]
           | QList (q :: qs) => Some (q :: qs)
           | _ => None
           end;
    configuration_queue :=
      if gen_configuration then Some (self_manager (n_input + n_output)%nat) else None;
    daemon := or_bool (a_daemon a) false;
    spread_stop_signal := default false (a_spread_stop_signal a);
    spread_wait_signal := default false (a_spread_wait_signal a);
    targeted_processing := or_bool (a_targeted_processing a) true;
    delay_message_sharing := or_bool (a_delay_message_sharing a) false;
    delay_shutdown := or_bool (a_delay_shutdown a) false;
    raise_exception := or_bool (a_raise_exception a) false;
    sharing_delay := a_sharing_delay a;
    shutdown_delay := a_shutdown_delay a;
    fetch_delay := a_fetch_delay a;
    _extra_args := a_kwargs a |} self.

End Manager.

(** ** Vocabulary of the statements *)

(** [m'] has the pool and the configuration of [m]: the methods that only
    talk to workers leave these alone. *)
Definition pool_frame {W} (m m' : Manager W) : Prop :=
  created_workers m' = created_workers m
  /\ class_attrs m' = class_attrs m
  /\ _max_workers m' = _max_workers m
  /\ options m' = options m.

(** The elements of a list at positions 0, 2, 4, ... *)
Fixpoint evens {A} (l : list A) : list A :=
  match l with
  | [] => []
  | [x] => [x]
  | x :: _ :: l' => x :: evens l'
  end.

(** The elements of a list at positions 1, 3, 5, ... *)
Fixpoint odds {A} (l : list A) : list A :=
  match l with
  | [] => []
  | [_] => []
  | _ :: y :: l' => y :: odds l'
  end.

(** The name [spawn_worker] gives to the [i]-th worker of a pool. *)
Definition worker_name {W} (m : Manager W) (i : nat) : string :=
  "ppm-" +:+ STD_NAME (class_attrs m) +:+ "-" +:+ pretty i.

(** The worker behind reference [w] answers [True] to [is_alive()]. *)
Definition alive {W} `{!WorkerClass W} (m : Manager W) (w : wid) : Prop :=
  exists o, workers m !! w = Some o /\ wc_is_alive (Worker.proc o) = true.

(** Some worker of [running_workers] is alive. *)
Definition some_running_alive {W} `{!WorkerClass W} (m : Manager W) : Prop :=
  exists w, w ∈ running_workers m /\ alive m w.


(** The worker behind reference [w] was built with the name [n]. *)
Definition named {W} (m : Manager W) (w : wid) (n : string) : Prop :=
  exists o, workers m !! w = Some o /\ Worker.name o = n.

(** No extra keyword argument of the manager repeats a keyword that
    [spawn_worker] writes out in its call of the worker class. *)
Definition keywords_fit {W} (m : Manager W) : Prop :=
  Forall (fun kv : string * value => kv.1 ∉ worker_keywords) (_extra_args (options m)).

#[global] Instance keywords_fit_dec {W} (m : Manager W) : Decision (keywords_fit m).
Proof. unfold keywords_fit. apply _. Defined.

(** ** The fixtures of the test suite *)

(** [ProcessManagerCore] with [WORKER_CLASS = DummyWorker], on a host
    with [cpus] processors. *)
Definition test_class (cpus : Z) : ClassAttrs := {|
  STD_NAME := "pyfunceble-process-manager";
  WORKER_CLASS := true;
  AVAILABLE_CPU_COUNT := cpus;
  input_datasets := [];
  output_datasets := [];
  configuration_datasets := [] |}.

(** [ProcessManagerCore(max_workers=v)] *)
Definition process_manager (v : value) : Manager DummyWorker :=
  __init__ (test_class 8) (with_max_workers v default_args) [].

(** The manager a method leaves behind. *)
Definition after {A} (c : M (W:=DummyWorker) A) (m : Manager DummyWorker) :
  Manager DummyWorker := snd (c m).

(** [worker.exception = e], as the tests assign it. *)
Definition set_exception (w : wid) (e : option (exn * string))
    (m : Manager DummyWorker) : Manager DummyWorker :=
  set_workers
    (alter (fun o => {|
       Worker.name := Worker.name o;
       Worker.concurrent_workers_names := Worker.concurrent_workers_names o;
       Worker.proc := {| d_name := d_name (Worker.proc o);
                         d_exception := e;
                         d_calls := d_calls (Worker.proc o) |} |}) w (workers m)) m.

(** Four workers spawned and started, the last of which has failed. *)
Definition four_running_last_failed : Manager DummyWorker :=
  set_exception 3%nat (Some (RuntimeError "Test exception", "Test Exception"))
    (after (spawn_worker true None)
      (after (spawn_worker true None)
        (after (spawn_worker true None)
          (after (spawn_worker true None) (process_manager (VInt 4)))))).

(** Two workers spawned and started. *)
Definition two_running : Manager DummyWorker :=
  after (spawn_worker true None)
    (after (spawn_worker true None) (process_manager (VInt 2))).

(** Three workers spawned, none started, in a pool of at most two. *)
Definition three_created : Manager DummyWorker :=
  after (spawn_worker false None)
    (after (spawn_worker false None)
      (after (spawn_worker false None) (process_manager (VInt 2)))).

(** [ProcessManagerCore(max_workers=2, foobar="barfoo")], the manager of
    [test_extra_args]. *)
Definition extra_args : init_args := {|
  a_max_workers := VInt 2;
  a_manager := None;
  a_input_queue := None;
  a_generate_input_queue := true;
  a_output_queue := QNone;
  a_output_queue_count := 1;
  a_generate_output_queue := true;
  a_configuration_queue := None;
  a_generate_configuration_queue := true;
  a_daemon := None;
  a_spread_stop_signal := None;
  a_spread_wait_signal := None;
  a_delay_message_sharing := None;
  a_delay_shutdown := None;
  a_raise_exception := None;
  a_targeted_processing := None;
  a_sharing_delay := VNone;
  a_shutdown_delay := VNone;
  a_fetch_delay := VNone;
  a_kwargs := [("foobar", VStr "barfoo")]
|}.

(** A construction that hands over an input queue and a configuration
    queue of its own. *)
Definition queues_given : init_args := {|
  a_max_workers := VInt 2;
  a_manager := None;
  a_input_queue := Some (GivenQueue 7);
  a_generate_input_queue := true;
  a_output_queue := QNone;
  a_output_queue_count := 1;
  a_generate_output_queue := true;
  a_configuration_queue := Some (GivenQueue 7);
  a_generate_configuration_queue := true;
  a_daemon := None;
  a_spread_stop_signal := None;
  a_spread_wait_signal := None;
  a_delay_message_sharing := None;
  a_delay_shutdown := None;
  a_raise_exception := None;
  a_targeted_processing := None;
  a_sharing_delay := VNone;
  a_shutdown_delay := VNone;
  a_fetch_delay := VNone;
  a_kwargs := []
|}.

(** [ProcessManagerCore(max_workers=2)] with [WORKER_CLASS = None], as in
    [test_ensure_worker_class_is_set]. *)
Definition unbound_manager : Manager DummyWorker :=
  __init__ {|
    STD_NAME := "pyfunceble-process-manager";
    WORKER_CLASS := false;
    AVAILABLE_CPU_COUNT := 8;
    input_datasets := [];
    output_datasets := [];
    configuration_datasets := [] |} (with_max_workers (VInt 2) default_args) [].

(** [ProcessManagerCore(max_workers=2)], the class as it ships:
    [WORKER_CLASS] is annotated and never assigned. *)
Definition base_manager : Manager DummyWorker :=
  __init__ {|
    STD_NAME := "pyfunceble-process-manager";
    WORKER_CLASS := Unassigned;
    AVAILABLE_CPU_COUNT := 8;
    input_datasets := [];
    output_datasets := [];
    configuration_datasets := [] |} (with_max_workers (VInt 2) default_args) [].

(** [ProcessManagerCore(max_workers=2, foobar="barfoo")] with
    [WORKER_CLASS = DummyWorker]. *)
Definition manager_with_extra : Manager DummyWorker :=
  __init__ (test_class 8) extra_args [].

(** [ProcessManagerCore(max_workers=2, name="x")] with
    [WORKER_CLASS = DummyWorker]: the extra keyword repeats a keyword of
    the constructor call of [spawn_worker]. *)
Definition manager_with_name : Manager DummyWorker :=
  __init__ (test_class 8)
    (with_kwargs [("name", VStr "x")] (with_max_workers (VInt 2) default_args)) [].

(** A construction that is handed a manager whose [Queue()] returns one
    and the same queue at every call, and asks for three output queues. *)
Definition one_queue_manager : init_args := {|
  a_max_workers := VInt 2;
  a_manager := Some (fun _ => GivenQueue 5);
  a_input_queue := None;
  a_generate_input_queue := true;
  a_output_queue := QNone;
  a_output_queue_count := 3;
  a_generate_output_queue := true;
  a_configuration_queue := None;
  a_generate_configuration_queue := true;
  a_daemon := None;
  a_spread_stop_signal := None;
  a_spread_wait_signal := None;
  a_delay_message_sharing := None;
  a_delay_shutdown := None;
  a_raise_exception := None;
  a_targeted_processing := None;
  a_sharing_delay := VNone;
  a_shutdown_delay := VNone;
  a_fetch_delay := VNone;
  a_kwargs := []
|}.

(** Four workers spawned and started, none of which has failed. *)
Definition four_running : Manager DummyWorker :=
  after (spawn_worker true None)
    (after (spawn_worker true None)
      (after (spawn_worker true None)
        (after (spawn_worker true None) (process_manager (VInt 4))))).

(** One worker spawned, then one spawned and started, as in
    [test_terminate_worker]. *)
Definition created_and_running : Manager DummyWorker :=
  after (spawn_worker true None)
    (after (spawn_worker false None) (process_manager (VInt 2))).

(** One worker spawned and started in a pool of at most three. *)
Definition one_of_three_running : Manager DummyWorker :=
  after (spawn_worker true None) (process_manager (VInt 3)).

(** A worker spawned and started that has failed, as in
    [test_wait_running_with_exception]. *)
Definition started_and_failed : Manager DummyWorker :=
  set_exception 0%nat (Some (RuntimeError "Test exception", "Test Exception"))
    (after (spawn_worker true None) (process_manager (VInt 2))).

(** A worker spawned, not started, that has failed, as in
    [test_wait_with_exception]. *)
Definition created_and_failed : Manager DummyWorker :=
  set_exception 0%nat (Some (RuntimeError "Test exception", "Test Exception"))
    (after (spawn_worker false None) (process_manager (VInt 2))).

(** Two workers that are not alive, spawned and not started. *)
Definition idle_pool : Manager IdleMock :=
  snd (@spawn_worker _ IdleMock_class false None
    (snd (@spawn_worker _ IdleMock_class false None
      (__init__ (test_class 8) (with_max_workers (VInt 2) default_args) [])))).


(** [test_ignore_if_running] and [test_start]: one dataset of each kind. *)
Definition test_class_with_datasets : ClassAttrs := {|
  STD_NAME := "pyfunceble-process-manager";
  WORKER_CLASS := true;
  AVAILABLE_CPU_COUNT := 8;
  input_datasets := [VStr "input_data"];
  output_datasets := [VStr "output_data"];
  configuration_datasets := [VStr "configuration_data"] |}.

(** The manager of [test_start], before [start()]: datasets set and one
    worker spawned. *)
Definition before_test_start : Manager DummyWorker :=
  after (spawn_worker false None)
    (__init__ test_class_with_datasets (with_max_workers (VInt 2) default_args) []).

(** * Properties *)

(** ** Construction and sizing *)

Section Sizing.

Context {W : Type} `{!WorkerClass W}.

(** C9. [cpu_count] is the number of processors of the host minus two
    when the host has more than two, and the number of processors itself
    otherwise; so it is 2 on a host with two processors and 1 on a host
    with three. *)
Theorem cpu_count_spec (m : Manager W) :
  let c := AVAILABLE_CPU_COUNT (class_attrs m) in
  (2 < c -> cpu_count m = c - 2)
  /\ (c <= 2 -> cpu_count m = c)
  /\ (c = 2 -> cpu_count m = 2)
  /\ (c = 3 -> cpu_count m = 1).
Proof.
  unfold cpu_count. cbn zeta.
  destruct (Z.ltb_spec 2 (AVAILABLE_CPU_COUNT (class_attrs m))); repeat split; lia.
Qed.

(** C10. Whatever [__init__] receives for [targeted_processing] ([True],
    [False] or nothing), the attribute is [True] afterwards:
    [targeted_processing or True] never yields [False]. *)
Theorem init_targeted_processing (cls : ClassAttrs) (a : init_args) (tape : list nat) :
  targeted_processing (options (__init__ (W:=W) cls a tape)) = true.
Proof.
  unfold __init__. cbn. by destruct (a_targeted_processing a) as [[]|].
Qed.

(** The setter of [max_workers] clamps and type-checks. *)
Lemma max_workers_setter_spec (v : value) (m : Manager W) :
  match as_int v with
  | Some z =>
      max_workers_setter v m = (Return tt, set_max_workers (VInt (Z.max 1 z)) m)
  | None => max_workers_setter v m = (Raise TypeError, m)
  end.
Proof. by destruct v. Qed.

Lemma max_workers_setter_positive (v : value) (m m' : Manager W) :
  max_workers_setter v m = (Return tt, m') ->
  exists z, max_workers m' = VInt z /\ 1 <= z.
Proof.
  pose proof (max_workers_setter_spec v m) as Hs.
  destruct (as_int v) as [z|]; rewrite Hs; [|done].
  intros [= <-]. exists (Z.max 1 z). split; [done|lia].
Qed.

(** [__init__] stores whatever truthy [max_workers] it is given and falls
    back to [cpu_count] otherwise. *)
Lemma init_max_workers (cls : ClassAttrs) (a : init_args) (tape : list nat) :
  max_workers (__init__ (W:=W) cls a tape) =
    if truthy (a_max_workers a) then a_max_workers a
    else VInt (cpu_count (blank (W:=W) cls tape)).
Proof. reflexivity. Qed.

End Sizing.

(** ** Pushing *)

Section Pushing.

Context {W : Type} `{!WorkerClass W}.

(** C7. [push_stop_signal(source_worker=s)] does exactly what
    [push_to_input_queue("stop", source_worker=s, all_queues=True)] does,
    and [push_wait_signal(source_worker=s)] exactly what
    [push_to_input_queue("wait", source_worker=s, all_queues=True)] does:
    same outcome, same manager afterwards. *)
Theorem push_signals_shorthand (s : option string) (m : Manager W) :
  push_stop_signal s m = push_to_input_queue (VStr "stop") s true m
  /\ push_wait_signal s m = push_to_input_queue (VStr "wait") s true m.
Proof. split; reflexivity. Qed.

Lemma name_of_call (w w' : wid) (c : Worker.method) (m : Manager W) :
  name_of (snd (call w c m)) w' = name_of m w'.
Proof.
  unfold call, modify, name_of. simpl.
  destruct (decide (w = w')) as [->|Hne].
  - rewrite list_lookup_alter_eq. by destruct (workers m !! w').
  - by rewrite list_lookup_alter_ne.
Qed.

(** What a broadcast loop leaves behind: one logged call per element of
    the list, in order, and an untouched pool. *)
Lemma for_each_broadcast
    (via : value -> string -> option string -> Worker.method)
    (d : value) (src : string) (l : list wid) (m : Manager W) :
  exists m',
    for_each l (fun worker =>
      bind get (fun m0 => call worker (via d src (Some (name_of m0 worker))))) m
      = (Return tt, m')
    /\ calls m' = calls m ++ ((fun w => (w, via d src (Some (name_of m w)))) <$> l)
    /\ created_workers m' = created_workers m
    /\ running_workers m' = running_workers m
    /\ class_attrs m' = class_attrs m
    /\ _max_workers m' = _max_workers m
    /\ (forall w, name_of m' w = name_of m w).
Proof.
  revert m. induction l as [|x l IH]; intros m.
  - exists m. simpl. rewrite app_nil_r. done.
  - simpl. unfold bind at 1. unfold bind at 1. unfold get at 1.
    set (m1 := snd (call x (via d src (Some (name_of m x))) m)).
    destruct (IH m1) as (m' & Hrun & Hcalls & Hc & Hr & Hk & Hmax & Hn).
    exists m'. split; [exact Hrun|].
    assert (Hn1 : forall w, name_of m1 w = name_of m w) by (intros; apply name_of_call).
    repeat split; try (etrans; [eassumption|]; done).
    + rewrite Hcalls. subst m1. simpl. rewrite <- app_assoc. simpl.
      f_equal. f_equal. apply list_fmap_ext. intros _ w _. by rewrite Hn1.
    + intros w. by rewrite Hn.
Qed.

Lemma for_each_broadcast_options
    (via : value -> string -> option string -> Worker.method)
    (d : value) (src : string) (l : list wid) (m m' : Manager W) r :
  for_each l (fun worker =>
    bind get (fun m0 => call worker (via d src (Some (name_of m0 worker))))) m = (r, m') ->
  options m' = options m.
Proof.
  revert m. induction l as [|x l IH]; intros m; simpl; [by intros [= _ <-]|].
  unfold bind at 1. unfold bind at 1. unfold get at 1.
  intros Hl. by apply IH in Hl.
Qed.



Lemma is_alive_alive (m : Manager W) (w : wid) :
  is_alive m w = true <-> alive m w.
Proof.
  unfold is_alive, alive. destruct (workers m !! w) as [o|]; simpl.
  - split; [by exists o|by intros (? & [= <-] & ?)].
  - split; [done|by intros (? & ? & _)].
Qed.

Lemma is_running_alive (m : Manager W) :
  is_running m = true <-> some_running_alive m.
Proof.
  unfold is_running, some_running_alive.
  assert (existsb (is_alive m) (running_workers m) = true
          <-> exists w, w ∈ running_workers m /\ alive m w) as Hex.
  { rewrite existsb_exists. split; intros (w & Hin & Hw); exists w.
    - split; [by apply list_elem_of_In|by apply is_alive_alive].
    - split; [by apply list_elem_of_In|by apply is_alive_alive]. }
  destruct (running_workers m) eqn:E; [|done].
  split; [done|]. by intros (w & Hin%elem_of_nil & _).
Qed.


Lemma name_of_named (m : Manager W) (w : wid) (o : Worker.obj W) :
  workers m !! w = Some o -> name_of m w = Worker.name o.
Proof. unfold name_of. by intros ->. Qed.



End Pushing.

(** ** Spawning and starting *)

Section Starting.

Context {W : Type} `{!WorkerClass W}.

Lemma self_WORKER_CLASS_frame (m m' : Manager W) r :
  self_WORKER_CLASS m = (r, m') -> m' = m.
Proof.
  unfold self_WORKER_CLASS. destruct (WORKER_CLASS (class_attrs m)) as [|[]].
  - unfold bind, __getattr__.
    destruct (dict_get _ _); by intros [= _ <-].
  - by intros [= _ <-].
  - by intros [= _ <-].
Qed.

Lemma self_WORKER_CLASS_bound (m : Manager W) :
  WORKER_CLASS (class_attrs m) = true ->
  self_WORKER_CLASS m = (Return WorkerClassObject, m).
Proof. unfold self_WORKER_CLASS. by intros ->. Qed.

Lemma ensure_worker_class_is_set_bound {A} (f : M (W:=W) A) (m : Manager W) :
  WORKER_CLASS (class_attrs m) = true ->
  ensure_worker_class_is_set f m = f m.
Proof.
  intros Hcls. unfold ensure_worker_class_is_set, bind.
  by rewrite self_WORKER_CLASS_bound.
Qed.

Lemma self_WORKER_CLASS_same (m m' : Manager W) :
  class_attrs m' = class_attrs m -> options m' = options m ->
  fst (self_WORKER_CLASS m') = fst (self_WORKER_CLASS m).
Proof.
  intros Hk Ho. unfold self_WORKER_CLASS, bind, __getattr__. rewrite Hk, Ho.
  destruct (WORKER_CLASS (class_attrs m)) as [|[]]; [|done..].
  by destruct (dict_get _ _).
Qed.

(** [ensure_worker_class_is_set] either lets every method through, on
    every manager of the same class and with the same extra arguments, or
    raises. *)
Lemma ensure_worker_class_is_set_cases (m : Manager W) :
  (forall A (f : M (W:=W) A) m',
     class_attrs m' = class_attrs m -> options m' = options m ->
     ensure_worker_class_is_set f m' = f m')
  \/ exists e, forall A (f : M (W:=W) A), ensure_worker_class_is_set f m = (Raise e, m).
Proof.
  destruct (self_WORKER_CLASS m) as [[[|v]|e] m1] eqn:Hc.
  - left. intros A f m' Hk Ho. unfold ensure_worker_class_is_set, bind.
    pose proof (self_WORKER_CLASS_same m m' Hk Ho) as Hs. rewrite Hc in Hs.
    destruct (self_WORKER_CLASS m') as [r m2] eqn:Hc'.
    apply self_WORKER_CLASS_frame in Hc' as ->. simpl in Hs. by subst r.
  - destruct (truthy v) eqn:Hv.
    + left. intros A f m' Hk Ho. unfold ensure_worker_class_is_set, bind.
      pose proof (self_WORKER_CLASS_same m m' Hk Ho) as Hs. rewrite Hc in Hs.
      destruct (self_WORKER_CLASS m') as [r m2] eqn:Hc'.
      apply self_WORKER_CLASS_frame in Hc' as ->. simpl in Hs. subst r.
      by rewrite Hv.
    + right. exists TypeError. intros A f. unfold ensure_worker_class_is_set, bind.
      rewrite Hc. apply self_WORKER_CLASS_frame in Hc as ->. by rewrite Hv.
  - right. exists e. intros A f. unfold ensure_worker_class_is_set, bind.
    rewrite Hc. by apply self_WORKER_CLASS_frame in Hc as ->.
Qed.

Lemma call_options (w : wid) (c : Worker.method) (m : Manager W) :
  options (snd (call w c m)) = options m.
Proof. reflexivity. Qed.

Lemma spawn_worker_options (start : bool) (d : option bool) (m m' : Manager W) r :
  spawn_worker start d m = (r, m') -> options m' = options m.
Proof.
  unfold spawn_worker.
  destruct (as_int (max_workers m)) as [k|]; [|by intros [= _ <-]].
  destruct (k <=? _); [by intros [= _ <-]|].
  destruct (self_WORKER_CLASS m) as [[[|v]|e] m1]; [|by intros [= _ <-]..].
  destruct (extra_args_clash m); [by intros [= _ <-]|].
  destruct start; by intros [= _ <-].
Qed.

Lemma repeat_spawn_options (start : bool) (n : nat) (m m' : Manager W) r :
  repeat_n n (bind (spawn_worker start None) (fun _ => ret tt)) m = (r, m') ->
  options m' = options m.
Proof.
  revert m. induction n as [|n IH]; intros m; simpl; [by intros [= _ <-]|].
  unfold bind at 1. unfold bind at 1.
  destruct (spawn_worker start None m) as [[a|e] m1] eqn:Hs;
    apply spawn_worker_options in Hs.
  - simpl. intros Hn. apply IH in Hn. congruence.
  - intros [= _ <-]. done.
Qed.

Lemma spawn_workers_options (start : bool) (m m' : Manager W) r :
  spawn_workers start m = (r, m') -> options m' = options m.
Proof.
  unfold spawn_workers. destruct (as_int (max_workers m)).
  - apply repeat_spawn_options.
  - by intros [= _ <-].
Qed.

Lemma keywords_fit_clash (m : Manager W) :
  keywords_fit m -> extra_args_clash m = false.
Proof.
  unfold keywords_fit, extra_args_clash.
  induction 1 as [|kv l Hkv _ IH]; [done|].
  simpl. by rewrite bool_decide_eq_false_2, IH.
Qed.

Lemma names_of_named (m : Manager W) (l : list wid) :
  (forall x, x ∈ l -> is_Some (workers m !! x)) ->
  Forall2 (named m) l (names_of m l).
Proof.
  unfold names_of. induction l as [|x l IH]; intros Hl; [by constructor|].
  rewrite fmap_cons. constructor.
  - destruct (Hl x) as [o Ho]; [set_solver|].
    exists o. split; [done|]. symmetry. by apply name_of_named.
  - apply IH. intros y Hy. apply Hl. set_solver.
Qed.

(** C8. The worker [spawn_worker] creates receives, in
    [concurrent_workers_names], one name for each entry of a list of the
    pool as it was before the new worker joined it, in the order of the
    list, each the name its worker was built with: the list is
    [created_workers] when some worker of [running_workers] is alive, and
    [running_workers] when none is. *)
Theorem spawn_worker_concurrent_workers_names
    (start : bool) (d : option bool) (m m' : Manager W) (w : wid) :
  spawn_worker start d m = (Return (Some w), m') ->
  Forall (fun x => is_Some (workers m !! x)) (running_workers m ++ created_workers m) ->
  exists o,
    workers m' !! w = Some o
    /\ ((some_running_alive m
         /\ Forall2 (named m) (created_workers m) (Worker.concurrent_workers_names o))
        \/ (~ some_running_alive m
            /\ Forall2 (named m) (running_workers m) (Worker.concurrent_workers_names o))).
Proof.
  intros Hs Hv. rewrite Forall_forall in Hv.
  assert (exists o, workers m' !! w = Some o
            /\ Worker.concurrent_workers_names o =
                 if is_running m then names_of m (created_workers m)
                 else names_of m (running_workers m)) as (o & Ho & Hp).
  { revert Hs. unfold spawn_worker.
    destruct (as_int (max_workers m)) as [k|]; [|done].
    destruct (k <=? _); [done|].
    destruct (self_WORKER_CLASS m) as [[[|v]|e] m1]; [|done|done].
    destruct (extra_args_clash m); [done|].
    destruct start; cbn; intros [= <- <-]; cbn.
    - rewrite list_lookup_alter_eq, lookup_app_r, Nat.sub_diag by lia.
      eexists. split; [reflexivity|done].
    - rewrite lookup_app_r, Nat.sub_diag by lia.
      eexists. split; [reflexivity|done]. }
  exists o. split; [exact Ho|]. rewrite Hp.
  pose proof (is_running_alive m) as Hr. destruct (is_running m).
  - assert (some_running_alive m) as Hy by (by apply Hr).
    left. split; [exact Hy|]. apply names_of_named. intros x Hx.
    apply Hv, elem_of_app. by right.
  - assert (~ some_running_alive m) as Hn.
    { intros Hy. apply Hr in Hy. discriminate Hy. }
    right. split; [exact Hn|]. apply names_of_named. intros x Hx.
    apply Hv, elem_of_app. by left.
Qed.

Lemma pool_frame_refl (m : Manager W) : pool_frame m m.
Proof. by repeat split. Qed.

Lemma pool_frame_trans (m1 m2 m3 : Manager W) :
  pool_frame m1 m2 -> pool_frame m2 m3 -> pool_frame m1 m3.
Proof. intros (?&?&?&?) (?&?&?&?). repeat split; congruence. Qed.

Lemma for_each_inv {A} (P : Manager W -> Manager W -> Prop)
    (body : A -> M (W:=W) unit) (l : list A) :
  (forall m, P m m) ->
  (forall m1 m2 m3, P m1 m2 -> P m2 m3 -> P m1 m3) ->
  (forall x m r m', body x m = (r, m') -> P m m') ->
  forall m r m', for_each l body m = (r, m') -> P m m'.
Proof.
  intros Hrefl Htrans Hbody. induction l as [|x l IH]; intros m r m'; simpl.
  - intros [= <- <-]. apply Hrefl.
  - unfold bind. destruct (body x m) as [[[]|e] m1] eqn:Hx.
    + intros Hl. eapply Htrans; [eapply Hbody, Hx | eapply IH, Hl].
    + intros [= <- <-]. eapply Hbody, Hx.
Qed.

Lemma for_each_noop {A} (body : A -> M (W:=W) unit) (l : list A) (m : Manager W) :
  (forall x, body x m = (Return tt, m)) -> for_each l body m = (Return tt, m).
Proof.
  intros Hbody. induction l as [|x l IH]; [done|].
  simpl. unfold bind. by rewrite Hbody.
Qed.

(** The three ways [spawn_worker] can end. *)
Lemma spawn_worker_cases (start : bool) (d : option bool) (m : Manager W) :
  spawn_worker start d m = (Return None, m)
  \/ (exists e, spawn_worker start d m = (Raise e, m))
  \/ exists m', spawn_worker start d m = (Return (Some (length (workers m))), m')
       /\ created_workers m' = created_workers m ++ [length (workers m)]
       /\ running_workers m' =
            (if start then running_workers m ++ [length (workers m)]
             else running_workers m)
       /\ class_attrs m' = class_attrs m
       /\ _max_workers m' = _max_workers m.
Proof.
  unfold spawn_worker.
  destruct (as_int (max_workers m)) as [k|]; [|right; left; by eexists].
  destruct (k <=? _); [by left|].
  destruct (self_WORKER_CLASS m) as [[[|v]|e] m1];
    [|right; left; by eexists..].
  destruct (extra_args_clash m); [right; left; by eexists|].
  right; right. destruct start; eexists; (split; [reflexivity|]); by repeat split.
Qed.

Lemma repeat_spawn_created (start : bool) (n : nat) (m m' : Manager W) r :
  repeat_n n (bind (spawn_worker start None) (fun _ => ret tt)) m = (r, m') ->
  class_attrs m' = class_attrs m
  /\ _max_workers m' = _max_workers m
  /\ (created_workers m <> [] -> created_workers m' <> [])
  /\ (created_workers m' = [] -> r = Return tt -> m' = m).
Proof.
  revert m. induction n as [|n IH]; intros m; simpl.
  - intros [= <- <-]. done.
  - unfold bind at 1. unfold bind at 1.
    destruct (spawn_worker_cases start None m)
      as [-> | [[e ->] | (m1 & -> & Hc & _ & Hk & Hmax)]]; simpl.
    + apply IH.
    + intros [= <- <-]. done.
    + intros Hn. apply IH in Hn as (Hk' & Hmax' & Hne & Hnil).
      assert (created_workers m1 <> []) as Hm1.
      { rewrite Hc. by destruct (created_workers m). }
      repeat split; try congruence.
      * intros _. by apply Hne.
      * intros Hnil'. by destruct (Hne Hm1).
Qed.

Lemma spawn_workers_created (start : bool) (m m' : Manager W) r :
  spawn_workers start m = (r, m') ->
  class_attrs m' = class_attrs m
  /\ _max_workers m' = _max_workers m
  /\ (created_workers m <> [] -> created_workers m' <> [])
  /\ (created_workers m' = [] -> r = Return tt -> m' = m).
Proof.
  unfold spawn_workers. destruct (as_int (max_workers m)).
  - apply repeat_spawn_created.
  - intros [= <- <-]. done.
Qed.

Lemma push_body_frame via d s aq (m m' : Manager W) r :
  push_body via d s aq m = (r, m') ->
  pool_frame m m' /\ running_workers m' = running_workers m /\ r = Return tt.
Proof.
  unfold push_body. destruct aq.
  - destruct (for_each_broadcast via d (or_str s (name m)) (current_workers m) m)
      as (m1 & Hrun & _ & Hc & Hr & Hk & Hmax & _).
    pose proof (for_each_broadcast_options _ _ _ _ _ _ _ Hrun) as Ho. rewrite Hrun.
    intros [= <- <-]. by repeat split.
  - destruct (current_workers m) as [|x l]; [by intros [= <- <-]; repeat split|].
    unfold bind, random_choice.
    destruct (random_tape m); intros [= <- <-]; by repeat split.
Qed.

Lemma push_frame via d s aq (m m' : Manager W) r :
  created_workers m <> [] ->
  ensure_worker_spawned (push_body via d s aq) m = (r, m') ->
  pool_frame m m' /\ running_workers m' = running_workers m.
Proof.
  intros Hne. unfold ensure_worker_spawned.
  destruct (created_workers m) eqn:E; [done|].
  intros Hp. apply push_body_frame in Hp as (Hf & Hr & _). done.
Qed.

Lemma push_noop via d s aq (m : Manager W) :
  created_workers m = [] ->
  spawn_workers false m = (Return tt, m) ->
  is_running m = false ->
  ensure_worker_spawned (push_body via d s aq) m = (Return tt, m).
Proof.
  intros Hnil Hsp Hrun. unfold ensure_worker_spawned. rewrite Hnil.
  unfold bind. rewrite Hsp. unfold push_body, current_workers.
  rewrite Hrun, Hnil. by destruct aq.
Qed.

Lemma start_body_frame (m m' : Manager W) r :
  created_workers m <> [] -> start_body m = (r, m') -> pool_frame m m'.
Proof.
  intros Hne. unfold start_body. unfold bind at 1. unfold get at 1.
  set (P := fun m1 m2 : Manager W => created_workers m1 <> [] -> pool_frame m1 m2).
  assert (HPr : forall m1, P m1 m1) by (intros ? ?; apply pool_frame_refl).
  assert (HPt : forall m1 m2 m3, P m1 m2 -> P m2 m3 -> P m1 m3).
  { intros m1 m2 m3 H12 H23 H1. specialize (H12 H1).
    eapply pool_frame_trans; [exact H12|]. apply H23.
    destruct H12 as (-> & _). done. }
  assert (Hloop : forall {A} (body : A -> M (W:=W) unit) (l : list A),
            (forall x m1 r1 m2, body x m1 = (r1, m2) -> P m1 m2) ->
            forall m1 r1 m2, for_each l body m1 = (r1, m2) -> P m1 m2).
  { intros A body l Hb. by apply for_each_inv. }
  assert (Hpush : forall via s aq (l : list value) m1 r1 m2,
            for_each l (fun data => ensure_worker_spawned (push_body via data s aq)) m1
              = (r1, m2) -> P m1 m2).
  { intros via s aq l. apply Hloop. intros x m1 r1 m2 Hx H1.
    by apply push_frame in Hx as [? _]. }
  assert (Hstart : forall l m1 r1 m2,
            for_each l (fun worker =>
              bind (call worker Worker.start) (fun _ =>
                modify (fun m0 => set_running_workers (running_workers m0 ++ [worker]) m0)))
              m1 = (r1, m2) -> P m1 m2).
  { intros l. apply Hloop. intros x m1 r1 m2 [= <- <-] _. by repeat split. }
  intros Hrun.
  assert (P m m') as HP; [|by apply HP].
  revert Hrun. unfold bind.
  destruct (for_each (created_workers m) _ m) as [[[]|e] m1] eqn:H1;
    [|intros [= <- <-]; eapply Hstart, H1].
  destruct (for_each (input_datasets _) _ m1) as [[[]|e] m2] eqn:H2;
    [|intros [= <- <-]; eapply HPt; [eapply Hstart, H1|eapply Hpush, H2]].
  destruct (for_each (output_datasets _) _ m2) as [[[]|e] m3] eqn:H3;
    [|intros [= <- <-];
      eapply HPt; [eapply Hstart, H1|eapply HPt; [eapply Hpush, H2|eapply Hpush, H3]]].
  intros H4.
  eapply HPt; [eapply Hstart, H1|].
  eapply HPt; [eapply Hpush, H2|].
  eapply HPt; [eapply Hpush, H3|eapply Hpush, H4].
Qed.

Lemma start_body_noop (m : Manager W) :
  created_workers m = [] ->
  spawn_workers false m = (Return tt, m) ->
  is_running m = false ->
  start_body m = (Return tt, m).
Proof.
  intros Hnil Hsp Hrun. unfold start_body.
  unfold bind at 1. unfold get at 1. rewrite Hnil. simpl.
  unfold bind at 1. unfold ret at 1.
  unfold bind.
  rewrite !for_each_noop; [done|..]; intros x; by apply push_noop.
Qed.

(** While a worker is alive [start] does nothing, provided its first
    decorator lets it through and the lazy spawn of its second decorator
    has nothing to do. *)
Lemma start_noop_when_let_through (m : Manager W) :
  ensure_worker_class_is_set (ensure_worker_spawned (ignore_if_running start_body)) m
    = ensure_worker_spawned (ignore_if_running start_body) m ->
  is_running m = true ->
  created_workers m <> [] \/ spawn_workers false m = (Return tt, m) ->
  start m = (Return tt, m).
Proof.
  intros Hcls Hrun Hpool.
  unfold start. rewrite Hcls.
  unfold ensure_worker_spawned, ignore_if_running.
  destruct (created_workers m) eqn:Hc.
  - destruct Hpool as [?|Hsp]; [done|]. unfold bind. by rewrite Hsp, Hrun.
  - by rewrite Hrun.
Qed.

Lemma start_noop_when_running (m : Manager W) :
  WORKER_CLASS (class_attrs m) = true ->
  is_running m = true ->
  created_workers m <> [] \/ spawn_workers false m = (Return tt, m) ->
  start m = (Return tt, m).
Proof.
  intros Hcls. apply start_noop_when_let_through.
  by apply ensure_worker_class_is_set_bound.
Qed.

(** C6. A second [start()], issued while a worker started by the first is
    alive, is a no-op: the manager is left exactly as it was, so no worker
    is spawned or started, [running_workers] does not grow and no dataset
    is pushed again. *)
Theorem start_twice_noop (m m' : Manager W) :
  start m = (Return tt, m') ->
  is_running m' = true ->
  start m' = (Return tt, m').
Proof.
  unfold start at 1.
  destruct (ensure_worker_class_is_set_cases m) as [Hcls | [e He]];
    [|by rewrite He].
  rewrite (Hcls _ _ m eq_refl eq_refl).
  unfold ensure_worker_spawned, ignore_if_running.
  destruct (created_workers m) as [|x l] eqn:Hc.
  - unfold bind.
    destruct (spawn_workers false m) as [[[]|e] m1] eqn:Hsp; [|done].
    pose proof (spawn_workers_created _ _ _ _ Hsp) as (Hk & _ & _ & Hnil).
    pose proof (spawn_workers_options _ _ _ _ Hsp) as Ho.
    destruct (created_workers m1) as [|y l1] eqn:Hc1.
    + specialize (Hnil eq_refl eq_refl). subst m1.
      destruct (is_running m) eqn:Hrun.
      * intros [= <-] _. apply start_noop_when_let_through; auto.
      * rewrite start_body_noop by done. intros [= <-] Hrun'. congruence.
    + destruct (is_running m1) eqn:Hrun.
      * intros [= <-] _. apply start_noop_when_let_through; [by apply Hcls|done|].
        left. by rewrite Hc1.
      * intros Hb Hrun'. apply start_body_frame in Hb as (Hc' & Hk' & _ & Ho');
          [|by rewrite Hc1].
        apply start_noop_when_let_through; [apply Hcls; congruence|done|].
        left. by rewrite Hc', Hc1.
  - destruct (is_running m) eqn:Hrun.
    + intros [= <-] _. apply start_noop_when_let_through; [by apply Hcls|done|].
      left. by rewrite Hc.
    + intros Hb Hrun'. apply start_body_frame in Hb as (Hc' & Hk' & _ & Ho');
        [|by rewrite Hc].
      apply start_noop_when_let_through; [apply Hcls; congruence|done|].
      left. by rewrite Hc', Hc.
Qed.

Lemma start_loop (l : list wid) (m : Manager W) :
  exists m',
    for_each l (fun worker =>
      bind (call worker Worker.start) (fun _ =>
        modify (fun m0 => set_running_workers (running_workers m0 ++ [worker]) m0))) m
      = (Return tt, m')
    /\ running_workers m' = running_workers m ++ l
    /\ pool_frame m m'.
Proof.
  revert m. induction l as [|x l IH]; intros m.
  - exists m. simpl. rewrite app_nil_r. split; [done|]. split; [done|].
    apply pool_frame_refl.
  - simpl. unfold bind at 1. unfold bind at 1. simpl.
    match goal with |- context [for_each l _ ?m1] =>
      destruct (IH m1) as (m' & -> & Hr & Hf) end.
    exists m'. split; [done|]. simpl in Hr. rewrite Hr, <- app_assoc. split; [done|].
    eapply pool_frame_trans; [|exact Hf]. by repeat split.
Qed.

Lemma push_loop via s aq (l : list value) (m : Manager W) :
  created_workers m <> [] ->
  exists m',
    for_each l (fun data => ensure_worker_spawned (push_body via data s aq)) m
      = (Return tt, m')
    /\ pool_frame m m'
    /\ running_workers m' = running_workers m.
Proof.
  revert m. induction l as [|x l IH]; intros m Hne.
  - exists m. split; [done|]. split; [apply pool_frame_refl|done].
  - simpl. unfold bind.
    destruct (ensure_worker_spawned (push_body via x s aq) m) as [r m1] eqn:Hx.
    pose proof Hx as Hx'. apply push_frame in Hx' as [Hf Hr]; [|done].
    unfold ensure_worker_spawned in Hx. destruct (created_workers m) eqn:E; [done|].
    apply push_body_frame in Hx as (_ & _ & ->).
    destruct (IH m1) as (m' & -> & Hf' & Hr').
    { destruct Hf as (-> & _). by rewrite E. }
    exists m'. split; [done|]. split; [by eapply pool_frame_trans|congruence].
Qed.

(** [start] on a pool that is not running starts every worker of
    [created_workers], however many there are. *)
Lemma start_runs_every_created (m : Manager W) :
  WORKER_CLASS (class_attrs m) = true ->
  created_workers m <> [] ->
  is_running m = false ->
  exists m',
    start m = (Return tt, m')
    /\ running_workers m' = running_workers m ++ created_workers m
    /\ _max_workers m' = _max_workers m.
Proof.
  intros Hcls Hne Hrun.
  unfold start. rewrite ensure_worker_class_is_set_bound by done.
  unfold ensure_worker_spawned, ignore_if_running.
  destruct (created_workers m) as [|x l] eqn:Hc; [done|]. rewrite Hrun.
  unfold start_body. unfold bind at 1. unfold get at 1. rewrite Hc.
  destruct (start_loop (x :: l) m) as (m1 & H1 & Hr1 & Hf1).
  unfold bind at 1. rewrite H1.
  assert (created_workers m1 <> []) as Hne1.
  { destruct Hf1 as (-> & _). by rewrite Hc. }
  destruct (push_loop Worker.push_to_input_queue (Some "ppm") false
              (input_datasets (class_attrs m)) m1 Hne1) as (m2 & H2 & Hf2 & Hr2).
  unfold push_to_input_queue. unfold bind at 1. rewrite H2.
  assert (created_workers m2 <> []) as Hne2.
  { destruct Hf2 as (-> & _). done. }
  destruct (push_loop Worker.push_to_output_queues (Some "ppm") false
              (output_datasets (class_attrs m)) m2 Hne2) as (m3 & H3 & Hf3 & Hr3).
  unfold push_to_output_queues. unfold bind at 1. rewrite H3.
  assert (created_workers m3 <> []) as Hne3.
  { destruct Hf3 as (-> & _). done. }
  destruct (push_loop Worker.push_to_configuration_queue (Some "ppm") true
              (configuration_datasets (class_attrs m)) m3 Hne3) as (m4 & H4 & Hf4 & Hr4).
  unfold push_to_configuration_queue. rewrite H4.
  exists m4. split; [done|]. split; [congruence|].
  destruct Hf1 as (_ & _ & ? & _), Hf2 as (_ & _ & ? & _), Hf3 as (_ & _ & ? & _),
    Hf4 as (_ & _ & ? & _). congruence.
Qed.

End Starting.

(** ** Waiting and terminating *)

Section Wait.

Context {W : Type} `{!WorkerClass W}.
Variable list_of_set : list wid -> list wid.

Lemma list_remove_first_length (x : wid) (l l' : list wid) :
  list_remove_first x l = Some l' -> length l = S (length l').
Proof.
  revert l'. induction l as [|y l IH]; intros l'; simpl; [done|].
  destruct (decide (x = y)); [by intros [= ->]|].
  destruct (list_remove_first x l) as [l0|]; [|done].
  intros [= <-]. simpl. by rewrite (IH l0).
Qed.

Lemma wait_running_fuel (fuel fuel' i : nat) (m : Manager W) :
  (length (running_workers m) - i <= fuel)%nat ->
  (fuel <= fuel')%nat ->
  wait_running list_of_set fuel' i m = wait_running list_of_set fuel i m.
Proof.
  revert fuel' i m. induction fuel as [|fuel IH]; intros fuel' i m Hlen Hle.
  - assert (running_workers m !! i = None) as Hi by (apply lookup_ge_None_2; lia).
    destruct fuel'; simpl; by rewrite ?Hi.
  - destruct fuel' as [|fuel']; [lia|]. simpl.
    destruct (running_workers m !! i) as [worker|] eqn:Hi; [|done].
    unfold bind, call, modify, get, running_workers_remove, created_workers_remove.
    simpl.
    destruct (list_remove_first worker (running_workers m)) as [l|] eqn:Hl; [|done].
    simpl.
    destruct (list_remove_first worker (created_workers m)) as [l'|]; [|done].
    destruct (exception_of _ worker) as [[e t]|]; [done|].
    apply IH; simpl; [|lia].
    apply list_remove_first_length in Hl. lia.
Qed.

Lemma wait_created_fuel (fuel fuel' i : nat) (m : Manager W) :
  (length (created_workers m) - i <= fuel)%nat ->
  (fuel <= fuel')%nat ->
  wait_created list_of_set fuel' i m = wait_created list_of_set fuel i m.
Proof.
  revert fuel' i m. induction fuel as [|fuel IH]; intros fuel' i m Hlen Hle.
  - assert (created_workers m !! i = None) as Hi by (apply lookup_ge_None_2; lia).
    destruct fuel'; simpl; by rewrite ?Hi.
  - destruct fuel' as [|fuel']; [lia|]. simpl.
    destruct (created_workers m !! i) as [worker|] eqn:Hi; [|done].
    unfold bind, call, modify, get, created_workers_remove.
    simpl.
    destruct (list_remove_first worker (created_workers m)) as [l|] eqn:Hl; [|done].
    destruct (exception_of _ worker) as [[e t]|]; [done|].
    apply IH; simpl; [|lia].
    apply list_remove_first_length in Hl. lia.
Qed.

End Wait.

Section Terminate.

Context {W : Type} `{!WorkerClass W}.
Variable list_of_set : list wid -> list wid.
Hypothesis list_of_set_elem : forall l x, x ∈ list_of_set l <-> x ∈ l.

Lemma list_of_set_nil : list_of_set [] = [].
Proof.
  destruct (list_of_set []) as [|x l] eqn:E; [done|].
  assert (x ∈ list_of_set []) as Hx by (rewrite E; left).
  apply (proj1 (list_of_set_elem _ _)) in Hx. by apply elem_of_nil in Hx.
Qed.

(** With nobody running, [n] calls of [spawn_worker(start=False)] create
    [n] workers. *)
Lemma repeat_spawn_unstarted (n : nat) (k : Z) (m : Manager W) :
  WORKER_CLASS (class_attrs m) = true ->
  keywords_fit m ->
  as_int (_max_workers m) = Some k ->
  Z.of_nat (length (running_workers m)) < k ->
  exists m',
    repeat_n n (bind (spawn_worker false None) (fun _ => ret tt)) m = (Return tt, m')
    /\ length (created_workers m') = (length (created_workers m) + n)%nat
    /\ running_workers m' = running_workers m
    /\ calls m' = calls m.
Proof.
  intros Hcls Hfit Hk Hlt. revert m Hcls Hfit Hk Hlt.
  induction n as [|n IH]; intros m Hcls Hfit Hk Hlt.
  - exists m. simpl. repeat split; lia.
  - simpl. unfold bind at 1. unfold bind at 1.
    unfold spawn_worker, max_workers. rewrite Hk.
    destruct (Z.leb_spec k (Z.of_nat (length (running_workers m)))); [lia|].
    rewrite self_WORKER_CLASS_bound, keywords_fit_clash by done. simpl.
    match goal with |- context [repeat_n n _ ?m1] =>
      destruct (IH m1) as (m' & Hrun & Hc & Hr & Hcalls); [done..|] end.
    exists m'. split; [exact Hrun|]. simpl in *.
    rewrite Hc, Hr, Hcalls, length_app. simpl. repeat split; lia.
Qed.

(** [terminate] on an empty pool: the lazy spawn behind
    [push_to_output_queues] refills the pool up to [max_workers], and the
    stop message goes through each of the new workers. *)
Lemma terminate_empty_pool (k : Z) (m : Manager W) :
  created_workers m = [] ->
  running_workers m = [] ->
  WORKER_CLASS (class_attrs m) = true ->
  keywords_fit m ->
  _max_workers m = VInt k ->
  exists m' sent,
    terminate list_of_set m = (Return tt, m')
    /\ length (created_workers m') = Z.to_nat k
    /\ running_workers m' = []
    /\ calls m' = calls m ++ sent
    /\ length sent = Z.to_nat k.
Proof.
  intros Hc Hr Hcls Hfit Hk.
  unfold terminate. unfold bind at 1. unfold get at 1.
  rewrite Hc, Hr. simpl. rewrite list_of_set_nil. simpl.
  unfold bind at 1. unfold ret at 1.
  unfold bind at 1. unfold ret at 1.
  unfold push_to_output_queues, ensure_worker_spawned. rewrite Hc.
  unfold bind at 1. unfold spawn_workers, max_workers. rewrite Hk. simpl.
  destruct (Z.le_gt_cases k 0) as [Hle|Hgt].
  - replace (Z.to_nat k) with 0%nat by lia. simpl.
    unfold push_body, current_workers, is_running. rewrite Hr, Hc. simpl.
    exists m, []. rewrite app_nil_r, Hc, Hr. done.
  - destruct (repeat_spawn_unstarted (Z.to_nat k) k m)
      as (m1 & -> & Hc1 & Hr1 & Hcalls1);
      [done|done|by rewrite Hk|rewrite Hr; simpl; lia|].
    unfold push_body.
    destruct (for_each_broadcast Worker.push_to_output_queues (VStr "stop")
                (name m1) (current_workers m1) m1)
      as (m' & -> & Hcalls & Hc' & Hr' & _).
    assert (current_workers m1 = created_workers m1) as Hcur.
    { unfold current_workers, is_running. by rewrite Hr1, Hr. }
    eexists m', _. split; [done|].
    rewrite Hc', Hr', Hr1, Hr, Hcalls, Hcalls1, Hc1, Hc. simpl.
    repeat split. by rewrite length_fmap, Hcur, Hc1, Hc.
Qed.

End Terminate.

(** The enumeration used when the model is run: first occurrences, in
    order. *)
Lemma remove_dups_enumerates (l : list wid) (x : wid) : x ∈ remove_dups l <-> x ∈ l.
Proof. apply elem_of_remove_dups. Qed.

Lemma terminate_empty_pool_fixture (k : Z) :
  k <> 0 ->
  exists m' sent,
    terminate remove_dups (process_manager (VInt k)) = (Return tt, m')
    /\ length (created_workers m') = Z.to_nat k
    /\ running_workers m' = []
    /\ calls m' = calls (process_manager (VInt k)) ++ sent
    /\ length sent = Z.to_nat k.
Proof.
  intros Hk.
  apply (terminate_empty_pool remove_dups remove_dups_enumerates k
           (process_manager (VInt k))); try reflexivity; [by constructor|].
  unfold process_manager, __init__, py_or. simpl.
  by destruct (Z.eqb_spec k 0).
Qed.



(** ** The test suite, replayed on the model *)

(** [test_spawn_worker] *)
Example test_spawn_worker :
  let m := after (spawn_worker false None) (process_manager (VInt 2)) in
  fst (spawn_worker false None (process_manager (VInt 2))) = Return (Some 0%nat)
  /\ names_of m (created_workers m) = ["ppm-pyfunceble-process-manager-1"]
  /\ length (created_workers m) = 1%nat.
Proof. vm_compute. done. Qed.

(** [test_max_workers] *)
Example test_max_workers :
  let set v := max_workers (after (max_workers_setter v) (process_manager (VInt 2))) in
  set (VInt 3) = VInt 3 /\ set (VInt 0) = VInt 1 /\ set (VInt (-1)) = VInt 1
  /\ fst (max_workers_setter (VStr "1.0") (process_manager (VInt 2))) = Raise TypeError.
Proof. vm_compute. done. Qed.

(** [test_ensure_worker_class_is_set] *)
Example test_ensure_worker_class_is_set :
  fst (start (__init__ (W:=DummyWorker) {|
         STD_NAME := "pyfunceble-process-manager"; WORKER_CLASS := false;
         AVAILABLE_CPU_COUNT := 8; input_datasets := []; output_datasets := [];
         configuration_datasets := [] |} (with_max_workers (VInt 2) default_args) []))
  = Raise TypeError.
Proof. vm_compute. done. Qed.

(** [test_push_stop_signal] *)
Example test_push_stop_signal :
  calls (after (push_stop_signal None) (process_manager (VInt 2))) =
    [(0%nat, Worker.push_to_input_queue (VStr "stop")
               "ppm-pyfunceble-process-manager"
               (Some "ppm-pyfunceble-process-manager-1"));
     (1%nat, Worker.push_to_input_queue (VStr "stop")
               "ppm-pyfunceble-process-manager"
               (Some "ppm-pyfunceble-process-manager-2"))].
Proof. vm_compute. done. Qed.

(** [test_terminate_worker] *)
Example test_terminate_worker :
  let m := after (spawn_worker true None)
             (after (spawn_worker false None) (process_manager (VInt 2))) in
  let m' := after (terminate_worker 1%nat) (after (terminate_worker 0%nat) m) in
  (length (created_workers m), length (running_workers m)) = (2%nat, 1%nat)
  /\ calls m' = [(1%nat, Worker.start);
                 (0%nat, Worker.terminate); (0%nat, Worker.join);
                 (1%nat, Worker.terminate); (1%nat, Worker.join)]
  /\ created_workers m' = [] /\ running_workers m' = [].
Proof. vm_compute. done. Qed.

(** [test_wait_running_with_exception] *)
Example test_wait_running_with_exception :
  let m := set_exception 0%nat (Some (RuntimeError "Test exception", "Test Exception"))
             (after (spawn_worker true None) (process_manager (VInt 2))) in
  fst (wait remove_dups m) = Raise (RuntimeError "Test exception")
  /\ filter (fun c => c.1 = 0%nat) (calls (after (wait remove_dups) m)) =
       [(0%nat, Worker.start); (0%nat, Worker.join); (0%nat, Worker.terminate)].
Proof. vm_compute. done. Qed.

(** [test_wait_with_exception] *)
Example test_wait_with_exception :
  let m := set_exception 0%nat (Some (RuntimeError "Test exception", "Test Exception"))
             (after (spawn_worker false None) (process_manager (VInt 2))) in
  fst (wait remove_dups m) = Raise (RuntimeError "Test exception")
  /\ filter (fun c => c.1 = 0%nat) (calls (after (wait remove_dups) m)) =
       [(0%nat, Worker.terminate)].
Proof. vm_compute. done. Qed.

(** [ProcessManagerCore] as it ships assigns no [WORKER_CLASS]: reading
    the attribute ends in [__getattr__] and raises [AttributeError].
    With [WORKER_CLASS = None] the decorator of [start] and the call in
    [spawn_worker] raise [TypeError]. *)
Example start_without_worker_class :
  start base_manager = (Raise AttributeError, base_manager)
  /\ spawn_worker false None base_manager = (Raise AttributeError, base_manager)
  /\ start unbound_manager = (Raise TypeError, unbound_manager)
  /\ spawn_worker false None unbound_manager = (Raise TypeError, unbound_manager).
Proof. vm_compute. done. Qed.

(** [ProcessManagerCore(max_workers=2, name="x")]: the constructor call
    of [spawn_worker] receives [name] twice, so every method that spawns
    raises [TypeError]. *)
Example extra_keyword_named_name :
  spawn_workers false manager_with_name = (Raise TypeError, manager_with_name)
  /\ start manager_with_name = (Raise TypeError, manager_with_name)
  /\ terminate remove_dups manager_with_name = (Raise TypeError, manager_with_name)
  /\ push_stop_signal None manager_with_name = (Raise TypeError, manager_with_name).
Proof. vm_compute. done. Qed.

(** ** Where the code departs from its specification *)

(** C1. [terminate()] on an empty pool of a manager built with
    [max_workers=2]: the stop message is pushed, but through two workers
    that [terminate] itself has just spawned, and these stay in
    [created_workers] when it returns. *)
Theorem terminate_empty_pool_respawns :
  let m := process_manager (VInt 2) in
  created_workers m = [] /\ running_workers m = []
  /\ fst (terminate remove_dups m) = Return tt
  /\ created_workers (after (terminate remove_dups) m) = [0; 1]%nat
  /\ running_workers (after (terminate remove_dups) m) = []
  /\ calls (after (terminate remove_dups) m) =
       [(0%nat, Worker.push_to_output_queues (VStr "stop")
                  "ppm-pyfunceble-process-manager"
                  (Some "ppm-pyfunceble-process-manager-1"));
        (1%nat, Worker.push_to_output_queues (VStr "stop")
                  "ppm-pyfunceble-process-manager"
                  (Some "ppm-pyfunceble-process-manager-2"))].
Proof. vm_compute. done. Qed.

(** C2. [wait()] on four running workers of which the last holds a stored
    exception: the first loop joins workers 0 and 2 only, the second loop
    terminates worker 1 without a join, neither loop reaches worker 3, and
    [wait] returns normally instead of raising the stored error. *)
Theorem wait_skips_workers :
  let m := four_running_last_failed in
  let m' := after (wait remove_dups) m in
  running_workers m = [0; 1; 2; 3]%nat
  /\ created_workers m = [0; 1; 2; 3]%nat
  /\ exception_of m 3%nat = Some (RuntimeError "Test exception", "Test Exception")
  /\ fst (wait remove_dups m) = Return tt
  /\ running_workers (after (wait_running remove_dups 4 0) m) = [1; 3]%nat
  /\ filter (fun c => c.1 = 1%nat) (calls m') =
       [(1%nat, Worker.start); (1%nat, Worker.terminate);
        (1%nat, Worker.global_exit_event_set);
        (1%nat, Worker.terminate); (1%nat, Worker.join)]
  /\ filter (fun c => c.1 = 3%nat) (calls m') =
       [(3%nat, Worker.start); (3%nat, Worker.terminate); (3%nat, Worker.join)].
Proof. vm_compute. done. Qed.

(** C3. With [max_workers=2], three calls of [spawn_worker()] followed by
    [start()] leave three workers in [running_workers]. *)
Theorem start_exceeds_max_workers :
  max_workers three_created = VInt 2
  /\ running_workers three_created = []
  /\ fst (start three_created) = Return tt
  /\ running_workers (after start three_created) = [0; 1; 2]%nat.
Proof. vm_compute. done. Qed.

(** C4. [ProcessManagerCore(max_workers=-1)] has [max_workers = -1] and
    [ProcessManagerCore(max_workers="1.0")] has [max_workers = "1.0"]:
    [__init__] neither clamps nor type-checks, where the setter, given the
    same values, yields 1 and raises [TypeError]. *)
Theorem init_max_workers_not_clamped :
  max_workers (process_manager (VInt (-1))) = VInt (-1)
  /\ max_workers (process_manager (VStr "1.0")) = VStr "1.0"
  /\ max_workers (after (max_workers_setter (VInt (-1))) (process_manager (VInt 2)))
     = VInt 1
  /\ fst (max_workers_setter (VStr "1.0") (process_manager (VInt 2))) = Raise TypeError.
Proof. vm_compute. done. Qed.

(** ** Instances of the conditional statements *)

Lemma cpu_count_spec_witness :
  (2 < 3 /\ cpu_count (blank (W:=DummyWorker) (test_class 3) []) = 3 - 2)
  /\ (2 <= 2 /\ cpu_count (blank (W:=DummyWorker) (test_class 2) []) = 2).
Proof.
  split; (split; [done|]).
  - apply (proj1 (cpu_count_spec (blank (W:=DummyWorker) (test_class 3) []))).
    reflexivity.
  - apply (proj1 (proj2 (cpu_count_spec (blank (W:=DummyWorker) (test_class 2) [])))).
    done.
Defined.



Lemma spawn_worker_concurrent_workers_names_witness :
  let m := after (spawn_worker true None) (process_manager (VInt 2)) in
  let m' := after (spawn_worker true None) m in
  spawn_worker true None m = (Return (Some 1%nat), m')
  /\ Forall (fun x => is_Some (workers m !! x)) (running_workers m ++ created_workers m)
  /\ exists o,
       workers m' !! 1%nat = Some o
       /\ ((some_running_alive m
            /\ Forall2 (named m) (created_workers m) (Worker.concurrent_workers_names o))
           \/ (~ some_running_alive m
               /\ Forall2 (named m) (running_workers m)
                    (Worker.concurrent_workers_names o))).
Proof.
  cbv zeta.
  assert (spawn_worker true None (after (spawn_worker true None) (process_manager (VInt 2)))
          = (Return (Some 1%nat),
             after (spawn_worker true None)
               (after (spawn_worker true None) (process_manager (VInt 2)))))
    as H1 by (vm_compute; reflexivity).
  assert (Forall (fun x => is_Some
                    (workers (after (spawn_worker true None) (process_manager (VInt 2))) !! x))
            (running_workers (after (spawn_worker true None) (process_manager (VInt 2)))
             ++ created_workers (after (spawn_worker true None) (process_manager (VInt 2)))))
    as H2.
  { apply (bool_decide_unpack _). vm_compute. exact I. }
  split; [exact H1|]. split; [exact H2|].
  exact (spawn_worker_concurrent_workers_names true None _ _ _ H1 H2).
Defined.

Lemma start_twice_noop_witness :
  let m := process_manager (VInt 2) in
  let m' := after start m in
  start m = (Return tt, m')
  /\ is_running m' = true
  /\ start m' = (Return tt, m').
Proof.
  cbv zeta.
  assert (start (process_manager (VInt 2))
          = (Return tt, after start (process_manager (VInt 2))))
    as H1 by (vm_compute; reflexivity).
  assert (is_running (after start (process_manager (VInt 2))) = true)
    as H2 by (vm_compute; reflexivity).
  split; [exact H1|]. split; [exact H2|].
  exact (start_twice_noop _ _ H1 H2).
Defined.

(** * Further properties of the code *)

(** ** Extra keyword arguments *)

Section Extras.

Context {W : Type} `{!WorkerClass W}.

Lemma dict_get_Some (k : string) (v : value) (d : list (string * value)) :
  NoDup d.*1 -> (k, v) ∈ d -> dict_get k d = Some v.
Proof.
  induction d as [|[k' v'] d IH]; simpl; intros Hnd Hin.
  - by apply elem_of_nil in Hin.
  - apply NoDup_cons in Hnd as [Hk' Hnd].
    apply elem_of_cons in Hin as [[= -> ->]|Hin].
    + by rewrite String.eqb_refl.
    + destruct (String.eqb_spec k k') as [->|_]; [|by apply IH].
      destruct Hk'. apply list_elem_of_fmap. by exists (k', v).
Qed.

Lemma dict_get_None (k : string) (d : list (string * value)) :
  k ∉ d.*1 -> dict_get k d = None.
Proof.
  induction d as [|[k' v'] d IH]; simpl; intros Hk; [done|].
  apply not_elem_of_cons in Hk as [Hne Hk].
  destruct (String.eqb_spec k k'); [done|by apply IH].
Qed.

(** X1. An unrecognised keyword argument given to [__init__] is read
    back through [__getattr__] under its own name, and the read leaves
    the manager as it was. *)
Theorem getattr_extra_argument
    (cls : ClassAttrs) (a : init_args) (tape : list nat) (k : string) (v : value) :
  NoDup (a_kwargs a).*1 ->
  (k, v) ∈ a_kwargs a ->
  __getattr__ k (__init__ (W:=W) cls a tape) = (Return v, __init__ cls a tape).
Proof.
  intros Hnd Hin. unfold __getattr__. simpl. by rewrite (dict_get_Some k v).
Qed.

(** X2. A name that is no keyword argument of the construction raises
    [AttributeError] in [__getattr__]; in particular every such read
    fails on a manager built without extra arguments. *)
Theorem getattr_missing_argument
    (cls : ClassAttrs) (a : init_args) (tape : list nat) (k : string) :
  k ∉ (a_kwargs a).*1 ->
  __getattr__ k (__init__ (W:=W) cls a tape) = (Raise AttributeError, __init__ cls a tape).
Proof.
  intros Hk. unfold __getattr__. simpl. by rewrite dict_get_None.
Qed.

End Extras.

(** ** Spawning *)

Section SpawnMore.

Context {W : Type} `{!WorkerClass W}.

(** X3. [spawn_worker] respects the cap on running workers: at or above
    [max_workers] it returns [None] and changes nothing, and a pool that
    is within the cap stays within it whatever the [start] flag. *)
Theorem spawn_worker_capacity
    (start : bool) (d : option bool) (k : Z) (m m' : Manager W) (r : outcome (option wid)) :
  as_int (_max_workers m) = Some k ->
  spawn_worker start d m = (r, m') ->
  (k <= Z.of_nat (length (running_workers m)) -> r = Return None /\ m' = m)
  /\ (Z.of_nat (length (running_workers m)) <= k ->
      Z.of_nat (length (running_workers m')) <= k).
Proof.
  intros Hk. unfold spawn_worker, max_workers. rewrite Hk.
  destruct (Z.leb_spec k (Z.of_nat (length (running_workers m)))) as [Hle|Hlt].
  - intros [= <- <-]. split; [done|lia].
  - destruct (self_WORKER_CLASS m) as [[[|v]|e] m1];
      [|intros [= <- <-]; split; lia..].
    destruct (extra_args_clash m); [intros [= <- <-]; split; lia|].
    destruct start; intros [= <- <-]; (split; [lia|]); intros _; simpl.
    + rewrite length_app. simpl. lia.
    + lia.
Qed.

(** A call of [spawn_worker] below the cap, in full. *)
Lemma spawn_worker_spawns (start : bool) (d : option bool) (k : Z) (m : Manager W) :
  WORKER_CLASS (class_attrs m) = true ->
  keywords_fit m ->
  as_int (_max_workers m) = Some k ->
  Z.of_nat (length (running_workers m)) < k ->
  exists m',
    spawn_worker start d m = (Return (Some (length (workers m))), m')
    /\ created_workers m' = created_workers m ++ [length (workers m)]
    /\ running_workers m' =
         running_workers m ++ (if start then [length (workers m)] else [])
    /\ calls m' = calls m ++ (if start then [(length (workers m), Worker.start)] else [])
    /\ length (workers m') = S (length (workers m))
    /\ class_attrs m' = class_attrs m
    /\ _max_workers m' = _max_workers m
    /\ options m' = options m
    /\ (forall w, (w < length (workers m))%nat -> workers m' !! w = workers m !! w)
    /\ name_of m' (length (workers m)) = worker_name m (length (created_workers m) + 1).
Proof.
  intros Hcls Hfit Hk Hlt. unfold spawn_worker, max_workers. rewrite Hk.
  destruct (Z.leb_spec k (Z.of_nat (length (running_workers m)))); [lia|].
  rewrite self_WORKER_CLASS_bound, keywords_fit_clash by done. cbv iota.
  destruct start; eexists; (split; [reflexivity|]); simpl;
    rewrite ?app_nil_r, ?length_alter, ?length_app; simpl.
  - repeat split; try done; try lia.
    + intros w Hw. rewrite list_lookup_alter_ne by lia. by rewrite lookup_app_l by lia.
    + unfold name_of. simpl.
      rewrite list_lookup_alter_eq, lookup_app_r, Nat.sub_diag by lia. done.
  - repeat split; try done; try lia.
    + intros w Hw. by rewrite lookup_app_l by lia.
    + unfold name_of. simpl. rewrite lookup_app_r, Nat.sub_diag by lia. done.
Qed.

(** What [n] successful calls of [spawn_worker] in a row build. *)
Lemma repeat_spawn_succeeds (start : bool) (n : nat) (k : Z) (m : Manager W) :
  WORKER_CLASS (class_attrs m) = true ->
  keywords_fit m ->
  as_int (_max_workers m) = Some k ->
  (n <> 0%nat ->
   Z.of_nat (length (running_workers m) + (if start then n else 1)) <= k) ->
  exists m',
    repeat_n n (bind (spawn_worker start None) (fun _ => ret tt)) m = (Return tt, m')
    /\ created_workers m' = created_workers m ++ seq (length (workers m)) n
    /\ running_workers m' =
         running_workers m ++ (if start then seq (length (workers m)) n else [])
    /\ calls m' =
         calls m ++ (if start then (fun w => (w, Worker.start)) <$> seq (length (workers m)) n
                     else [])
    /\ length (workers m') = (length (workers m) + n)%nat
    /\ class_attrs m' = class_attrs m
    /\ _max_workers m' = _max_workers m
    /\ options m' = options m
    /\ (forall w, (w < length (workers m))%nat -> workers m' !! w = workers m !! w)
    /\ (forall j, (j < n)%nat ->
          name_of m' (length (workers m) + j) =
            worker_name m (length (created_workers m) + j + 1)).
Proof.
  revert m. induction n as [|n IH]; intros m Hcls Hfit Hk Hcap.
  - exists m. simpl. destruct start; rewrite !app_nil_r; repeat split; try done; lia.
  - simpl. unfold bind at 1. unfold bind at 1.
    specialize (Hcap ltac:(done)).
    destruct (spawn_worker_spawns start None k m)
      as (m1 & -> & Hc1 & Hr1 & Hcalls1 & Hlen1 & Hcl1 & Hmx1 & Hop1 & Hold1 & Hnew1);
      [done|done|done|destruct start; lia|].
    unfold ret at 1.
    destruct (IH m1) as
      (m' & Hrun & Hc & Hr & Hcalls & Hlen & Hcl & Hmx & Hop & Hold & Hnew);
      [congruence|by unfold keywords_fit; rewrite Hop1|congruence|..].
    { intros _. rewrite Hr1, length_app. destruct start; simpl in *; lia. }
    exists m'. split; [exact Hrun|].
    rewrite Hlen1 in *.
    repeat split.
    + by rewrite Hc, Hc1, <- app_assoc.
    + rewrite Hr, Hr1, <- app_assoc. by destruct start.
    + rewrite Hcalls, Hcalls1, <- app_assoc. by destruct start.
    + lia.
    + congruence.
    + congruence.
    + congruence.
    + intros w Hw. rewrite Hold by lia. by apply Hold1.
    + intros [|j] Hj.
      * rewrite Nat.add_0_r. unfold name_of. rewrite Hold by lia.
        fold (name_of m1 (length (workers m))). by rewrite Hnew1, Nat.add_0_r.
      * replace (length (workers m) + S j)%nat with (S (length (workers m)) + j)%nat
          by lia.
        rewrite Hnew by lia. unfold worker_name. rewrite Hcl1, Hc1, length_app.
        simpl. do 4 f_equal. lia.
Qed.

(** X21. An extra keyword argument of the manager that repeats a keyword
    [spawn_worker] writes out in its constructor call ([name], for
    instance) makes every spawn below the cap fail: with a worker class
    assigned, [spawn_worker] raises [TypeError] and leaves the manager as
    it was, and so does [spawn_workers] when [max_workers] is positive. *)
Theorem spawn_worker_keyword_twice
    (start : bool) (d : option bool) (k : Z) (m : Manager W) (kw : string) (v : value) :
  WORKER_CLASS (class_attrs m) = true ->
  as_int (_max_workers m) = Some k ->
  Z.of_nat (length (running_workers m)) < k ->
  (kw, v) ∈ _extra_args (options m) ->
  kw ∈ worker_keywords ->
  spawn_worker start d m = (Raise TypeError, m)
  /\ spawn_workers start m = (Raise TypeError, m).
Proof.
  intros Hcls Hk Hlt Hin Hkw.
  assert (extra_args_clash m = true) as Hclash.
  { unfold extra_args_clash. apply existsb_exists. exists (kw, v).
    split; [by apply list_elem_of_In|]. by apply bool_decide_eq_true_2. }
  assert (forall dm, spawn_worker start dm m = (Raise TypeError, m)) as Hs.
  { intros dm. unfold spawn_worker, max_workers. rewrite Hk.
    destruct (Z.leb_spec k (Z.of_nat (length (running_workers m)))); [lia|].
    by rewrite self_WORKER_CLASS_bound, Hclash. }
  split; [apply Hs|].
  unfold spawn_workers, max_workers. rewrite Hk.
  destruct (Z.to_nat k) as [|n] eqn:Hn; [lia|]. simpl.
  unfold bind. by rewrite Hs.
Qed.

End SpawnMore.

Section SpawnWorkers.

Context {W : Type} `{!WorkerClass W}.

Lemma worker_name_inj (m : Manager W) : Inj (=) (=) (worker_name m).
Proof.
  intros i j Hij. unfold worker_name in Hij.
  by repeat (apply (inj (String.app _)) in Hij); apply (inj pretty) in Hij.
Qed.

Lemma repeat_n_app (a b : nat) (body : M (W:=W) unit) (m : Manager W) :
  repeat_n (a + b) body m = bind (repeat_n a body) (fun _ => repeat_n b body) m.
Proof.
  revert m. induction a as [|a IH]; intros m; simpl; [done|].
  unfold bind. destruct (body m) as [[[]|e] m1]; [|done].
  rewrite IH. done.
Qed.

Lemma repeat_spawn_at_capacity (start : bool) (n : nat) (k : Z) (m : Manager W) :
  as_int (_max_workers m) = Some k ->
  k <= Z.of_nat (length (running_workers m)) ->
  repeat_n n (bind (spawn_worker start None) (fun _ => ret tt)) m = (Return tt, m).
Proof.
  intros Hk Hle. induction n as [|n IH]; [done|].
  simpl. unfold bind at 1. unfold bind at 1.
  unfold spawn_worker at 1. unfold max_workers. rewrite Hk.
  destruct (Z.leb_spec k (Z.of_nat (length (running_workers m)))); [|lia].
  exact IH.
Qed.

(** X4. On a pool with nobody in [running_workers], a worker class
    assigned and no extra keyword argument that repeats a keyword of the
    constructor call, [spawn_workers] creates exactly [max_workers] new
    workers (none when [max_workers] is not positive), named
    [ppm-{STD_NAME}-{i}] with [i] counting on from the size of
    [created_workers], hence with pairwise distinct names; they are all in
    [running_workers] afterwards when [start] is set, and none of them is
    otherwise. *)
Theorem spawn_workers_idle_pool (start : bool) (k : Z) (m : Manager W) :
  WORKER_CLASS (class_attrs m) = true ->
  keywords_fit m ->
  as_int (_max_workers m) = Some k ->
  running_workers m = [] ->
  exists m' new,
    spawn_workers start m = (Return tt, m')
    /\ length new = Z.to_nat k
    /\ created_workers m' = created_workers m ++ new
    /\ running_workers m' = (if start then new else [])
    /\ names_of m' new =
         worker_name m <$> seq (length (created_workers m) + 1) (Z.to_nat k)
    /\ NoDup (names_of m' new).
Proof.
  intros Hcls Hfit Hk Hr. unfold spawn_workers, max_workers. rewrite Hk.
  destruct (repeat_spawn_succeeds start (Z.to_nat k) k m)
    as (m' & Hrun & Hc & Hr' & _ & _ & _ & _ & _ & _ & Hnew); [done|done|done|..].
  { intros Hn. rewrite Hr. destruct start; simpl; lia. }
  assert (names_of m' (seq (length (workers m)) (Z.to_nat k)) =
          worker_name m <$> seq (length (created_workers m) + 1) (Z.to_nat k)) as Hnames.
  { unfold names_of. apply list_eq. intros j.
    rewrite !list_lookup_fmap.
    destruct (decide (j < Z.to_nat k)%nat) as [Hj|Hj].
    - rewrite !lookup_seq_lt by done. simpl. rewrite Hnew by done.
      do 2 f_equal. lia.
    - by rewrite !lookup_seq_ge by lia. }
  exists m', (seq (length (workers m)) (Z.to_nat k)).
  split; [exact Hrun|]. split; [by rewrite length_seq|]. split; [done|].
  split; [by rewrite Hr', Hr|]. split; [exact Hnames|].
  rewrite Hnames. apply NoDup_fmap_2; [apply worker_name_inj|apply NoDup_seq].
Qed.

(** X5. With a worker class assigned and no extra keyword argument that
    repeats a keyword of the constructor call, [spawn_workers(start=True)]
    on a pool within the cap tops [running_workers] up to exactly
    [max_workers]: it spawns and starts the missing workers and nothing
    more. *)
Theorem spawn_workers_start_fills (k : Z) (m : Manager W) :
  WORKER_CLASS (class_attrs m) = true ->
  keywords_fit m ->
  as_int (_max_workers m) = Some k ->
  Z.of_nat (length (running_workers m)) <= k ->
  exists m' new,
    spawn_workers true m = (Return tt, m')
    /\ created_workers m' = created_workers m ++ new
    /\ running_workers m' = running_workers m ++ new
    /\ calls m' = calls m ++ ((fun w => (w, Worker.start)) <$> new)
    /\ Z.of_nat (length (running_workers m')) = k.
Proof.
  intros Hcls Hfit Hk Hle. unfold spawn_workers, max_workers. rewrite Hk.
  set (r := length (running_workers m)).
  replace (Z.to_nat k) with ((Z.to_nat k - r) + r)%nat by lia.
  rewrite repeat_n_app. unfold bind at 1.
  destruct (repeat_spawn_succeeds true (Z.to_nat k - r) k m)
    as (m' & -> & Hc & Hr' & Hcalls & _ & _ & Hmx & _); [done|done|done|fold r; lia|].
  rewrite repeat_spawn_at_capacity with (k := k).
  - eexists m', _. split; [done|]. repeat split; try done.
    rewrite Hr', length_app, length_seq. fold r. lia.
  - by rewrite Hmx.
  - rewrite Hr', length_app, length_seq. fold r. lia.
Qed.

End SpawnWorkers.

(** ** Terminating *)

Section TerminateWorker.

Context {W : Type} `{!WorkerClass W}.

Lemma list_remove_first_None (w : wid) (l : list wid) :
  w ∉ l -> list_remove_first w l = None.
Proof.
  induction l as [|y l IH]; simpl; intros Hw; [done|].
  apply not_elem_of_cons in Hw as [Hne Hw].
  destruct (decide (w = y)); [done|]. by rewrite IH.
Qed.

Lemma list_remove_first_app (w : wid) (pre post : list wid) :
  w ∉ pre -> list_remove_first w (pre ++ w :: post) = Some (pre ++ post).
Proof.
  induction pre as [|y pre IH]; simpl; intros Hw.
  - by rewrite decide_True.
  - apply not_elem_of_cons in Hw as [Hne Hw].
    rewrite decide_False by done. by rewrite IH.
Qed.

Lemma list_remove_first_elem (w x : wid) (l l' : list wid) :
  list_remove_first w l = Some l' -> x <> w -> x ∈ l -> x ∈ l'.
Proof.
  revert l'. induction l as [|y l IH]; simpl; intros l' Hl Hne Hx; [done|].
  destruct (decide (w = y)) as [->|Hwy].
  - injection Hl as <-. apply elem_of_cons in Hx as [->|Hx]; done.
  - destruct (list_remove_first w l) as [l0|]; [|done]. injection Hl as <-.
    apply elem_of_cons in Hx as [->|Hx]; [left|right; by apply IH].
Qed.

Lemma list_remove_first_is_Some (w : wid) (l : list wid) :
  w ∈ l -> is_Some (list_remove_first w l).
Proof.
  induction l as [|y l IH]; simpl; intros Hw; [by apply elem_of_nil in Hw|].
  destruct (decide (w = y)); [done|].
  apply elem_of_cons in Hw as [?|Hw]; [done|].
  destruct (IH Hw) as [l' ->]. done.
Qed.

Lemma filter_ne_id (w : wid) (l : list wid) :
  w ∉ l -> filter (fun x => x <> w) l = l.
Proof.
  induction l as [|y l IH]; intros Hw; [done|].
  apply not_elem_of_cons in Hw as [Hne Hw].
  rewrite filter_cons_True by done. by rewrite IH.
Qed.

Lemma list_remove_first_NoDup (w : wid) (l : list wid) :
  NoDup l ->
  default l (list_remove_first w l) = filter (fun x => x <> w) l.
Proof.
  induction 1 as [|y l Hy Hnd IH]; simpl; [done|].
  destruct (decide (w = y)) as [->|Hwy].
  - rewrite filter_cons_False by naive_solver. simpl.
    by rewrite filter_ne_id.
  - rewrite filter_cons_True by naive_solver.
    destruct (list_remove_first w l) as [l0|]; simpl in *; by f_equal.
Qed.

(** [terminate_worker], in full. *)
Lemma terminate_worker_run (w : wid) (m : Manager W) :
  exists m',
    terminate_worker w m = (Return tt, m')
    /\ calls m' = calls m ++ [(w, Worker.terminate); (w, Worker.join)]
    /\ running_workers m' =
         default (running_workers m) (list_remove_first w (running_workers m))
    /\ created_workers m' =
         default (created_workers m) (list_remove_first w (created_workers m))
    /\ workers m' = alter (obj_call Worker.join) w
                      (alter (obj_call Worker.terminate) w (workers m))
    /\ class_attrs m' = class_attrs m
    /\ _max_workers m' = _max_workers m
    /\ options m' = options m
    /\ random_tape m' = random_tape m.
Proof.
  unfold terminate_worker, bind, call, modify, get, ret,
    running_workers_remove, created_workers_remove, list_contains. simpl.
  assert (exists l, default (running_workers m) (list_remove_first w (running_workers m)) = l
            /\ (w ∈ running_workers m -> list_remove_first w (running_workers m) = Some l))
    as (l & Hl & Hl').
  { destruct (list_remove_first w (running_workers m)) as [l|] eqn:E.
    - exists l. done.
    - exists (running_workers m). split; [done|].
      intros [? ?]%list_remove_first_is_Some. congruence. }
  assert (exists l, default (created_workers m) (list_remove_first w (created_workers m)) = l
            /\ (w ∈ created_workers m -> list_remove_first w (created_workers m) = Some l))
    as (l' & Hc & Hc').
  { destruct (list_remove_first w (created_workers m)) as [l'|] eqn:E.
    - exists l'. done.
    - exists (created_workers m). split; [done|].
      intros [? ?]%list_remove_first_is_Some. congruence. }
  rewrite Hl, Hc.
  destruct (decide (w ∈ running_workers m)) as [Hr|Hr].
  - rewrite (bool_decide_true (w ∈ running_workers m)) by done. simpl.
    rewrite (Hl' Hr). simpl.
    destruct (decide (w ∈ created_workers m)) as [Hin|Hin].
    + rewrite (bool_decide_true (w ∈ created_workers m)) by done. simpl.
      rewrite (Hc' Hin). eexists. split; [reflexivity|]. simpl.
      rewrite <- app_assoc. by repeat split.
    + rewrite (bool_decide_false (w ∈ created_workers m)) by done.
      rewrite (list_remove_first_None w (created_workers m)) in Hc by done.
      simpl in Hc. subst l'.
      eexists. split; [reflexivity|]. simpl. rewrite <- app_assoc. by repeat split.
  - rewrite (bool_decide_false (w ∈ running_workers m)) by done.
    rewrite (list_remove_first_None w (running_workers m)) in Hl by done.
    simpl in Hl. subst l. simpl.
    destruct (decide (w ∈ created_workers m)) as [Hin|Hin].
    + rewrite (bool_decide_true (w ∈ created_workers m)) by done. simpl.
      rewrite (Hc' Hin). eexists. split; [reflexivity|]. simpl.
      rewrite <- app_assoc. by repeat split.
    + rewrite (bool_decide_false (w ∈ created_workers m)) by done.
      rewrite (list_remove_first_None w (created_workers m)) in Hc by done.
      simpl in Hc. subst l'.
      eexists. split; [reflexivity|]. simpl. rewrite <- app_assoc. by repeat split.
Qed.

(** X6. [terminate_worker(w)] never raises, whether or not [w] is in the
    pool; it calls [terminate] and then [join] on [w] and nothing else, and
    when the cohorts hold no worker twice [w] is in neither of them
    afterwards while every other worker stays where it was. *)
Theorem terminate_worker_removes (w : wid) (m : Manager W) :
  NoDup (running_workers m) ->
  NoDup (created_workers m) ->
  exists m',
    terminate_worker w m = (Return tt, m')
    /\ calls m' = calls m ++ [(w, Worker.terminate); (w, Worker.join)]
    /\ running_workers m' = filter (fun x => x <> w) (running_workers m)
    /\ created_workers m' = filter (fun x => x <> w) (created_workers m)
    /\ (w ∉ running_workers m')
    /\ (w ∉ created_workers m').
Proof.
  intros Hr Hc.
  destruct (terminate_worker_run w m) as (m' & Hrun & Hcalls & Hr' & Hc' & _).
  exists m'.
  rewrite list_remove_first_NoDup in Hr' by done.
  rewrite list_remove_first_NoDup in Hc' by done.
  rewrite Hr', Hc'. repeat split; try done.
  - intros [Hne _]%list_elem_of_filter. done.
  - intros [Hne _]%list_elem_of_filter. done.
Qed.

End TerminateWorker.

Section TerminateAll.

Context {W : Type} `{!WorkerClass W}.
Variable list_of_set : list wid -> list wid.
Hypothesis list_of_set_elem : forall l x, x ∈ list_of_set l <-> x ∈ l.

(** With a worker class assigned, extra arguments that fit and an integer
    [max_workers], [spawn_worker] does not raise. *)
Lemma spawn_worker_returns (start : bool) (d : option bool) (k : Z) (m : Manager W) :
  WORKER_CLASS (class_attrs m) = true ->
  keywords_fit m ->
  as_int (_max_workers m) = Some k ->
  exists r m',
    spawn_worker start d m = (Return r, m')
    /\ class_attrs m' = class_attrs m
    /\ _max_workers m' = _max_workers m
    /\ options m' = options m.
Proof.
  intros Hcls Hfit Hk.
  destruct (Z.le_gt_cases k (Z.of_nat (length (running_workers m)))) as [Hle|Hgt].
  - exists None, m. split; [|done].
    unfold spawn_worker, max_workers. rewrite Hk.
    destruct (Z.leb_spec k (Z.of_nat (length (running_workers m)))); [done|lia].
  - destruct (spawn_worker_spawns start d k m)
      as (m' & -> & _ & _ & _ & _ & ? & ? & ? & _); [done|done|done|lia|].
    by eexists _, m'.
Qed.

Lemma spawn_workers_returns (start : bool) (k : Z) (m : Manager W) :
  WORKER_CLASS (class_attrs m) = true ->
  keywords_fit m ->
  as_int (_max_workers m) = Some k ->
  exists m',
    spawn_workers start m = (Return tt, m')
    /\ class_attrs m' = class_attrs m
    /\ _max_workers m' = _max_workers m
    /\ options m' = options m.
Proof.
  intros Hcls Hfit Hk. unfold spawn_workers, max_workers. rewrite Hk.
  generalize (Z.to_nat k) as n. intros n. revert m Hcls Hfit Hk.
  induction n as [|n IH]; intros m Hcls Hfit Hk.
  - by exists m.
  - simpl. unfold bind at 1. unfold bind at 1.
    destruct (spawn_worker_returns start None k m) as (r & m1 & -> & Hc1 & Hm1 & Ho1);
      [done|done|done|].
    unfold ret at 1.
    destruct (IH m1) as (m' & -> & ? & ? & ?);
      [congruence|by unfold keywords_fit; rewrite Ho1|congruence|].
    exists m'. split; [done|]. repeat split; congruence.
Qed.

Lemma push_returns via d s aq (k : Z) (m : Manager W) :
  WORKER_CLASS (class_attrs m) = true ->
  keywords_fit m ->
  as_int (_max_workers m) = Some k ->
  exists m',
    ensure_worker_spawned (push_body via d s aq) m = (Return tt, m')
    /\ class_attrs m' = class_attrs m
    /\ _max_workers m' = _max_workers m
    /\ options m' = options m.
Proof.
  intros Hcls Hfit Hk. unfold ensure_worker_spawned.
  destruct (created_workers m) eqn:Hc.
  - unfold bind.
    destruct (spawn_workers_returns false k m) as (m1 & -> & Hc1 & Hm1 & Ho1);
      [done|done|done|].
    destruct (push_body via d s aq m1) as [r m'] eqn:Hp.
    apply push_body_frame in Hp as ((_ & ? & ? & ?) & _ & ->).
    exists m'. split; [done|]. repeat split; congruence.
  - destruct (push_body via d s aq m) as [r m'] eqn:Hp.
    apply push_body_frame in Hp as ((_ & ? & ? & ?) & _ & ->).
    by exists m'.
Qed.

(** The loop of [terminate] does not raise. *)
Lemma terminate_loop_returns (ws : list wid) (m : Manager W) :
  exists m',
    for_each ws (fun worker =>
      bind get (fun m0 =>
        if negb (is_alive m0 worker) then ret tt else terminate_worker worker)) m
      = (Return tt, m')
    /\ class_attrs m' = class_attrs m
    /\ _max_workers m' = _max_workers m
    /\ options m' = options m.
Proof.
  revert m. induction ws as [|w ws IH]; intros m.
  - by exists m.
  - simpl. unfold bind at 1. unfold bind at 1. unfold get at 1.
    destruct (negb (is_alive m w)).
    + unfold ret at 1. apply IH.
    + destruct (terminate_worker_run w m)
        as (m1 & -> & _ & _ & _ & _ & Hc & Hm & Ho & _).
      destruct (IH m1) as (m' & -> & ? & ? & ?).
      exists m'. split; [done|]. repeat split; congruence.
Qed.

Lemma terminate_does_not_raise (k : Z) (m : Manager W) :
  WORKER_CLASS (class_attrs m) = true ->
  keywords_fit m ->
  as_int (_max_workers m) = Some k ->
  fst (terminate list_of_set m) = Return tt.
Proof.
  intros Hcls Hfit Hk. unfold terminate. unfold bind at 1. unfold get at 1.
  cbv zeta.
  set (ws := list_of_set (running_workers m ++ created_workers m)).
  unfold bind at 1.
  assert (exists m1, (match ws with
                      | [] => ret tt
                      | _ => bind (random_choice ws) (fun worker =>
                               call worker Worker.global_exit_event_set)
                      end) m = (Return tt, m1)
                     /\ class_attrs m1 = class_attrs m
                     /\ _max_workers m1 = _max_workers m
                     /\ options m1 = options m) as (m1 & -> & Hc1 & Hm1 & Ho1).
  { destruct ws; [by exists m|]. unfold bind, random_choice.
    destruct (random_tape m); by eexists. }
  unfold bind at 1.
  destruct (terminate_loop_returns ws m1) as (m2 & -> & Hc2 & Hm2 & Ho2).
  destruct (push_returns Worker.push_to_output_queues (VStr "stop") None true k m2)
    as (m3 & Hp & _);
    [congruence|by unfold keywords_fit; rewrite Ho2, Ho1|congruence|].
  unfold push_to_output_queues. by rewrite Hp.
Qed.

(** X7. With a worker class assigned, an integer [max_workers] and no
    extra keyword argument that repeats a keyword of the constructor call,
    [terminate()] returns normally from every state of the pool: neither
    the removal of workers nor the lazy spawn behind the final push can
    raise. *)
Theorem terminate_returns (k : Z) (m : Manager W) :
  WORKER_CLASS (class_attrs m) = true ->
  keywords_fit m ->
  as_int (_max_workers m) = Some k ->
  fst (terminate list_of_set m) = Return tt.
Proof. apply terminate_does_not_raise. Qed.

(** X8. Without a worker class, the lazy spawn of an empty pool fails.
    On a manager with no worker and a positive [max_workers], the three
    [push_to_*] methods and [terminate()] raise and leave the manager as
    it was: [TypeError] where [WORKER_CLASS] is [None], and
    [AttributeError] where the class attribute was never assigned and no
    extra keyword argument is named [WORKER_CLASS], the error
    [__getattr__] raises for the missing name. *)
Theorem lazy_spawn_needs_worker_class
    (d : value) (s : option string) (aq : bool) (k : Z) (m : Manager W) (e : exn) :
  created_workers m = [] ->
  running_workers m = [] ->
  as_int (_max_workers m) = Some k ->
  1 <= k ->
  (WORKER_CLASS (class_attrs m) = false /\ e = TypeError)
  \/ (WORKER_CLASS (class_attrs m) = Unassigned
      /\ ("WORKER_CLASS" ∉ (_extra_args (options m)).*1)
      /\ e = AttributeError) ->
  push_to_input_queue d s aq m = (Raise e, m)
  /\ push_to_output_queues d s aq m = (Raise e, m)
  /\ push_to_configuration_queue d s aq m = (Raise e, m)
  /\ terminate list_of_set m = (Raise e, m).
Proof.
  intros Hc Hr Hk Hk1 Hcls.
  assert (forall dm start, spawn_worker start dm m = (Raise e, m)) as Hspawn.
  { intros dm start. unfold spawn_worker, max_workers. rewrite Hk, Hr.
    destruct (Z.leb_spec k (Z.of_nat (length (@nil wid)))); [simpl in *; lia|].
    unfold self_WORKER_CLASS.
    destruct Hcls as [[-> ->]|(-> & Hno & ->)]; [done|].
    unfold bind, __getattr__. by rewrite dict_get_None. }
  assert (forall A (f : M (W:=W) A), ensure_worker_spawned f m = (Raise e, m))
    as Hlazy.
  { intros A f. unfold ensure_worker_spawned. rewrite Hc.
    unfold bind, spawn_workers, max_workers. rewrite Hk.
    destruct (Z.to_nat k) as [|n] eqn:Hn; [lia|]. simpl.
    unfold bind. by rewrite Hspawn. }
  repeat split; try apply Hlazy.
  unfold terminate. unfold bind at 1. unfold get at 1. rewrite Hc, Hr. simpl.
  replace (list_of_set []) with (@nil wid).
  2:{ destruct (list_of_set []) as [|x l] eqn:E; [done|].
      assert (x ∈ list_of_set []) as Hx by (rewrite E; left).
      apply (proj1 (list_of_set_elem _ _)) in Hx. by apply elem_of_nil in Hx. }
  simpl. unfold bind at 1. unfold bind at 1. unfold ret at 1. unfold ret at 1.
  apply Hlazy.
Qed.

End TerminateAll.

Section TerminatePool.

Context {W : Type} `{!WorkerClass W}.
Variable list_of_set : list wid -> list wid.
Hypothesis list_of_set_elem : forall l x, x ∈ list_of_set l <-> x ∈ l.

Lemma random_choice_elem (l : list wid) (m : Manager W) :
  l <> [] ->
  exists x t,
    random_choice l m = (Return x, set_random_tape t m) /\ x ∈ l.
Proof.
  intros Hl. unfold random_choice.
  assert (0 < length l)%nat as Hlen by (destruct l; [done|simpl; lia]).
  destruct (random_tape m) as [|r t] eqn:Ht.
  - destruct (lookup_lt_is_Some_2 l 0%nat Hlen) as [x Hx].
    exists x, []. rewrite Hx. simpl. split.
    + f_equal. destruct m; simpl in *; by subst.
    + by eapply list_elem_of_lookup_2.
  - assert (r mod length l < length l)%nat as Hr by (apply Nat.mod_upper_bound; lia).
    destruct (lookup_lt_is_Some_2 l _ Hr) as [x Hx].
    exists x, t. rewrite Hx. simpl. split; [done|]. by eapply list_elem_of_lookup_2.
Qed.

Lemma for_each_noop_in {A} (body : A -> M (W:=W) unit) (l : list A) (m : Manager W) :
  (forall x, x ∈ l -> body x m = (Return tt, m)) -> for_each l body m = (Return tt, m).
Proof.
  intros Hbody. induction l as [|x l IH]; [done|].
  simpl. unfold bind. rewrite Hbody by left. apply IH. intros y Hy. apply Hbody. by right.
Qed.

Lemma existsb_false {A} (f : A -> bool) (l : list A) :
  (forall x, x ∈ l -> f x = false) -> existsb f l = false.
Proof.
  induction l as [|x l IH]; intros Hf; [done|].
  simpl. rewrite Hf by left. apply IH. intros y Hy. apply Hf. by right.
Qed.

Lemma is_running_false (m : Manager W) :
  (forall x, x ∈ running_workers m -> is_alive m x = false) -> is_running m = false.
Proof.
  unfold is_running. destruct (running_workers m) as [|y l]; [done|].
  apply existsb_false.
Qed.

(** X9. [terminate()] passes over the workers that are not alive: on a
    pool none of whose workers is alive (workers that were never started,
    for instance) it terminates and removes nobody; it only sets the exit
    event through one worker of the pool and pushes the stop message
    through each worker of [created_workers]. *)
Theorem terminate_skips_dead_workers (m : Manager W) :
  created_workers m <> [] ->
  (forall w o, w ∈ running_workers m ++ created_workers m ->
     workers m !! w = Some o ->
     wc_is_alive (Worker.proc o) = false
     /\ wc_is_alive (wc_call Worker.global_exit_event_set (Worker.proc o)) = false) ->
  exists m' chosen,
    terminate list_of_set m = (Return tt, m')
    /\ running_workers m' = running_workers m
    /\ created_workers m' = created_workers m
    /\ chosen ∈ running_workers m ++ created_workers m
    /\ calls m' =
         calls m ++ (chosen, Worker.global_exit_event_set)
           :: ((fun w => (w, Worker.push_to_output_queues (VStr "stop") (name m)
                               (Some (name_of m w)))) <$> created_workers m).
Proof.
  intros Hne Hdead. unfold terminate. unfold bind at 1. unfold get at 1. cbv zeta.
  remember (list_of_set (running_workers m ++ created_workers m)) as ws eqn:Ews.
  assert (forall x, x ∈ ws <-> x ∈ running_workers m ++ created_workers m) as Hws_elem.
  { intros x. rewrite Ews. apply list_of_set_elem. }
  assert (ws <> []) as Hws.
  { destruct (created_workers m) as [|x l] eqn:E; [done|].
    assert (x ∈ ws) as Hx.
    { apply Hws_elem. apply elem_of_app. right. left. }
    intros Hnil. rewrite Hnil in Hx. by apply elem_of_nil in Hx. }
  destruct (random_choice_elem ws m Hws) as (chosen & t & Hch & Hin).
  clear Ews. destruct ws as [|w0 ws0]; [done|].
  unfold bind at 1. unfold bind at 1. rewrite Hch.
  set (m1 := set_random_tape t m).
  unfold call at 1, modify at 1.
  set (m2 := set_calls _ _).
  assert (forall w, w ∈ running_workers m ++ created_workers m -> is_alive m2 w = false)
    as Hdead2.
  { intros w Hw. unfold is_alive, m2. simpl.
    destruct (decide (chosen = w)) as [->|Hcw].
    - rewrite list_lookup_alter_eq. destruct (workers m !! w) as [o|] eqn:Ho; [|done].
      simpl. exact (proj2 (Hdead w o Hw Ho)).
    - rewrite list_lookup_alter_ne by done.
      destruct (workers m !! w) as [o|] eqn:Ho; [|done]. simpl.
      exact (proj1 (Hdead w o Hw Ho)). }
  unfold bind at 1.
  rewrite for_each_noop_in.
  2:{ intros w Hw. unfold bind, get. rewrite Hdead2; [done|]. by apply Hws_elem. }
  unfold push_to_output_queues, ensure_worker_spawned.
  change (created_workers m2) with (created_workers m).
  destruct (created_workers m) as [|c cs] eqn:Hc; [done|]. rewrite <- Hc in *.
  unfold push_body.
  assert (current_workers m2 = created_workers m) as Hcur.
  { unfold current_workers. rewrite is_running_false; [done|].
    intros x Hx. apply Hdead2. apply elem_of_app. by left. }
  rewrite Hcur.
  destruct (for_each_broadcast Worker.push_to_output_queues (VStr "stop")
              (or_str None (name m2)) (created_workers m) m2)
    as (m' & -> & Hcalls & Hc' & Hr' & _).
  exists m', chosen. split; [done|]. split; [done|]. split; [done|].
  split; [by apply Hws_elem|].
  rewrite Hcalls. unfold m2. simpl. rewrite <- app_assoc. simpl.
  do 2 f_equal. apply list_fmap_ext. intros _ w _. f_equal. f_equal. f_equal.
  unfold name_of. simpl.
  destruct (decide (chosen = w)) as [->|Hcw].
  - rewrite list_lookup_alter_eq. by destruct (workers m !! w).
  - by rewrite list_lookup_alter_ne.
Qed.

End TerminatePool.

Section TerminateAlive.

Context {W : Type} `{!WorkerClass W}.
Variable list_of_set : list wid -> list wid.
Hypothesis list_of_set_elem : forall l x, x ∈ list_of_set l <-> x ∈ l.

Lemma filter_all (P : wid -> Prop) `{!forall x, Decision (P x)} (l : list wid) :
  (forall x, x ∈ l -> P x) -> filter P l = l.
Proof.
  induction l as [|y l IH]; intros HP; [done|].
  rewrite filter_cons_True by (apply HP; left). f_equal. apply IH.
  intros x Hx. apply HP. by right.
Qed.

Lemma filter_none (P : wid -> Prop) `{!forall x, Decision (P x)} (l : list wid) :
  (forall x, x ∈ l -> ~ P x) -> filter P l = [].
Proof.
  induction l as [|y l IH]; intros HP; [done|].
  rewrite filter_cons_False by (apply HP; left). apply IH.
  intros x Hx. apply HP. by right.
Qed.

(** A broadcast on an empty pool, after the lazy spawn. *)
Lemma push_broadcast_empty_pool via d s (k : Z) (m : Manager W) :
  created_workers m = [] ->
  running_workers m = [] ->
  WORKER_CLASS (class_attrs m) = true ->
  keywords_fit m ->
  as_int (_max_workers m) = Some k ->
  exists m' sent,
    ensure_worker_spawned (push_body via d s true) m = (Return tt, m')
    /\ created_workers m' = seq (length (workers m)) (Z.to_nat k)
    /\ running_workers m' = []
    /\ calls m' = calls m ++ sent.
Proof.
  intros Hc Hr Hcls Hfit Hk. unfold ensure_worker_spawned. rewrite Hc.
  unfold bind at 1. unfold spawn_workers, max_workers. rewrite Hk.
  destruct (repeat_spawn_succeeds false (Z.to_nat k) k m)
    as (m1 & -> & Hc1 & Hr1 & Hcalls1 & _); [done|done|done|rewrite Hr; simpl; lia|].
  unfold push_body.
  destruct (for_each_broadcast via d (or_str s (name m1)) (current_workers m1) m1)
    as (m' & -> & Hcalls & Hc' & Hr' & _).
  exists m', ((fun w => (w, via d (or_str s (name m1)) (Some (name_of m1 w))))
                <$> current_workers m1).
  split; [done|].
  rewrite Hc', Hc1, Hc, Hr', Hr1, Hr, Hcalls, Hcalls1. simpl.
  by rewrite app_nil_r.
Qed.

Lemma terminate_loop_all_alive (ws : list wid) (m : Manager W) :
  (forall p : W, wc_is_alive p = true) ->
  (forall w, w ∈ ws -> (w < length (workers m))%nat) ->
  NoDup (running_workers m) ->
  NoDup (created_workers m) ->
  exists m',
    for_each ws (fun worker =>
      bind get (fun m0 =>
        if negb (is_alive m0 worker) then ret tt else terminate_worker worker)) m
      = (Return tt, m')
    /\ running_workers m' = filter (fun x => x ∉ ws) (running_workers m)
    /\ created_workers m' = filter (fun x => x ∉ ws) (created_workers m)
    /\ length (workers m') = length (workers m)
    /\ class_attrs m' = class_attrs m
    /\ _max_workers m' = _max_workers m
    /\ options m' = options m
    /\ calls m' =
         calls m ++ (ws ≫= fun w => [(w, Worker.terminate); (w, Worker.join)]).
Proof.
  intros Halive. revert m. induction ws as [|w ws IH]; intros m Hwf Hr Hc.
  - exists m. simpl. rewrite app_nil_r.
    rewrite !filter_all by (intros x _; apply not_elem_of_nil). by repeat split.
  - simpl. unfold bind at 1. unfold bind at 1. unfold get at 1.
    assert (is_alive m w = true) as ->.
    { unfold is_alive.
      destruct (lookup_lt_is_Some_2 (workers m) w) as [o ->]; [apply Hwf; left|].
      simpl. apply Halive. }
    change (negb true) with false. cbv iota.
    destruct (terminate_worker_run w m)
      as (m1 & -> & Hcalls1 & Hr1 & Hc1 & Hw1 & Hcl1 & Hm1 & Ho1 & _).
    rewrite list_remove_first_NoDup in Hr1 by done.
    rewrite list_remove_first_NoDup in Hc1 by done.
    destruct (IH m1) as (m' & -> & Hr' & Hc' & Hlen & Hcl & Hmx & Ho & Hcalls).
    { intros x Hx. rewrite Hw1, !length_alter. apply Hwf. by right. }
    { rewrite Hr1. by apply NoDup_filter. }
    { rewrite Hc1. by apply NoDup_filter. }
    exists m'. split; [done|].
    rewrite Hr', Hr1, Hc', Hc1, Hlen, Hw1, !length_alter, Hcalls, Hcalls1.
    rewrite <- app_assoc. simpl.
    repeat split; try congruence.
    + rewrite list_filter_filter. apply list_filter_iff. intros x.
      rewrite not_elem_of_cons. tauto.
    + rewrite list_filter_filter. apply list_filter_iff. intros x.
      rewrite not_elem_of_cons. tauto.
Qed.

(** X10. When every worker is alive, [terminate()] takes the whole pool
    down: each worker of the two cohorts gets [terminate] and [join] and is
    removed from both; the stop message then goes through workers that the
    lazy spawn has just created, [max_workers] of them, which are all that
    [created_workers] holds on return.  The lazy spawn needs a worker class
    assigned and no extra keyword argument that repeats a keyword of the
    constructor call. *)
Theorem terminate_alive_pool (k : Z) (m : Manager W) :
  (forall p : W, wc_is_alive p = true) ->
  (forall w, w ∈ running_workers m ++ created_workers m -> (w < length (workers m))%nat) ->
  NoDup (running_workers m) ->
  NoDup (created_workers m) ->
  WORKER_CLASS (class_attrs m) = true ->
  keywords_fit m ->
  as_int (_max_workers m) = Some k ->
  exists m',
    terminate list_of_set m = (Return tt, m')
    /\ running_workers m' = []
    /\ created_workers m' = seq (length (workers m)) (Z.to_nat k)
    /\ (forall w, w ∈ running_workers m ++ created_workers m ->
          (w ∉ created_workers m')
          /\ ((w, Worker.terminate) ∈ calls m')
          /\ ((w, Worker.join) ∈ calls m')).
Proof.
  intros Halive Hwf Hr Hc Hcls Hfit Hk.
  unfold terminate. unfold bind at 1. unfold get at 1. cbv zeta.
  remember (list_of_set (running_workers m ++ created_workers m)) as ws eqn:Ews.
  assert (forall x, x ∈ ws <-> x ∈ running_workers m ++ created_workers m) as Hws_elem.
  { intros x. rewrite Ews. apply list_of_set_elem. }
  clear Ews. unfold bind at 1.
  assert (exists m1, (match ws with
                      | [] => ret tt
                      | _ => bind (random_choice ws) (fun worker =>
                               call worker Worker.global_exit_event_set)
                      end) m = (Return tt, m1)
                     /\ running_workers m1 = running_workers m
                     /\ created_workers m1 = created_workers m
                     /\ length (workers m1) = length (workers m)
                     /\ class_attrs m1 = class_attrs m
                     /\ _max_workers m1 = _max_workers m
                     /\ options m1 = options m
                     /\ exists c, calls m1 = calls m ++ c)
    as (m1 & -> & Hr1 & Hc1 & Hlen1 & Hcl1 & Hm1 & Ho1 & c1 & Hcalls1).
  { destruct ws.
    - exists m. repeat split; try done. exists []. by rewrite app_nil_r.
    - unfold bind, random_choice.
      destruct (random_tape m); eexists; (split; [reflexivity|]); simpl;
        rewrite length_alter; repeat split; try done; by eexists. }
  unfold bind at 1.
  destruct (terminate_loop_all_alive ws m1)
    as (m2 & -> & Hr2 & Hc2 & Hlen2 & Hcl2 & Hm2 & Ho2 & Hcalls2); [done|..].
  { intros w Hw. rewrite Hlen1. apply Hwf. by apply Hws_elem. }
  { by rewrite Hr1. }
  { by rewrite Hc1. }
  assert (running_workers m2 = []) as Hr2nil.
  { rewrite Hr2, Hr1. apply filter_none. intros x Hx Hnot. apply Hnot.
    apply Hws_elem, elem_of_app. by left. }
  assert (created_workers m2 = []) as Hc2nil.
  { rewrite Hc2, Hc1. apply filter_none. intros x Hx Hnot. apply Hnot.
    apply Hws_elem, elem_of_app. by right. }
  destruct (push_broadcast_empty_pool Worker.push_to_output_queues (VStr "stop") None k m2)
    as (m3 & sent & Hp & Hc3 & Hr3 & Hcalls3);
    [done|done|congruence|by unfold keywords_fit; rewrite Ho2, Ho1|congruence|].
  unfold push_to_output_queues. rewrite Hp.
  exists m3. split; [done|]. split; [done|].
  rewrite Hc3, Hlen2, Hlen1. split; [done|].
  intros w Hw. split.
  - intros [? _]%elem_of_seq. specialize (Hwf w Hw). lia.
  - rewrite Hcalls3, Hcalls2.
    assert ([(w, Worker.terminate); (w, Worker.join)] ⊆
            ws ≫= fun w => [(w, Worker.terminate); (w, Worker.join)]) as Hsub.
    { intros c Hc'. apply list_elem_of_bind. exists w. split; [exact Hc'|].
      by apply Hws_elem. }
    split; apply elem_of_app; left; apply elem_of_app; right; apply Hsub.
    + left.
    + right. left.
Qed.

End TerminateAlive.

(** ** Waiting *)

Section WaitMore.

Context {W : Type} `{!WorkerClass W}.
Variable list_of_set : list wid -> list wid.

Lemma evens_odds_elem {A} (n : nat) (l : list A) (x : A) :
  (length l <= n)%nat -> (x ∈ evens l -> x ∈ l) /\ (x ∈ odds l -> x ∈ l).
Proof.
  revert l. induction n as [|n IH]; intros [|a [|b l]] Hlen; simpl in *;
    try lia; try done.
  - split; [done|]. by intros ?%elem_of_nil.
  - destruct (IH l ltac:(lia)) as [He Ho]. split.
    + intros [->|Hx]%elem_of_cons; [left|]. right. right. by apply He.
    + intros [->|Hx]%elem_of_cons; [right; left|]. right. right. by apply Ho.
Qed.

Lemma odds_not_evens {A} (n : nat) (l : list A) (x : A) :
  (length l <= n)%nat -> NoDup l -> x ∈ odds l -> x ∉ evens l.
Proof.
  revert l. induction n as [|n IH]; intros [|a [|b l]] Hlen Hnd; simpl in *;
    try lia; try (by intros ?%elem_of_nil).
  apply NoDup_cons in Hnd as [Ha Hnd]. apply NoDup_cons in Hnd as [Hb Hnd].
  intros [->|Hx]%elem_of_cons [->|Hin]%elem_of_cons.
  - apply Ha. left.
  - apply Hb. by apply (proj1 (evens_odds_elem (length l) l b (le_n _))).
  - apply Ha. right. by apply (proj2 (evens_odds_elem (length l) l a (le_n _))).
  - by apply (IH l ltac:(lia) Hnd Hx).
Qed.

Lemma wait_running_exhausted (fuel i : nat) (m : Manager W) :
  running_workers m !! i = None ->
  wait_running list_of_set fuel i m = (Return tt, m).
Proof. intros Hi. destruct fuel; simpl; by rewrite ?Hi. Qed.

(** One step of the first loop of [wait] on a worker without a stored
    exception. *)
Lemma wait_running_step (fuel : nat) (pre post : list wid) (w : wid) (m : Manager W) :
  running_workers m = pre ++ w :: post ->
  w ∉ pre ->
  w ∈ created_workers m ->
  (forall o, workers m !! w = Some o ->
     wc_exception (wc_call Worker.terminate (wc_call Worker.join (Worker.proc o))) = None) ->
  exists m1,
    wait_running list_of_set (S fuel) (length pre) m =
      wait_running list_of_set fuel (S (length pre)) m1
    /\ running_workers m1 = pre ++ post
    /\ calls m1 = calls m ++ [(w, Worker.join); (w, Worker.terminate)]
    /\ (forall x, x <> w -> x ∈ created_workers m -> x ∈ created_workers m1)
    /\ (forall x, x <> w -> workers m1 !! x = workers m !! x).
Proof.
  intros Hr Hpre Hc Hexc. simpl.
  rewrite Hr, list_lookup_middle by done.
  unfold bind, call, modify, get, running_workers_remove, created_workers_remove. simpl.
  rewrite Hr, list_remove_first_app by done. simpl.
  destruct (list_remove_first_is_Some w _ Hc) as [l' Hl']. rewrite Hl'.
  set (m1 := set_created_workers l' _).
  assert (exception_of m1 w = None) as ->.
  { unfold exception_of, m1. simpl. rewrite !list_lookup_alter_eq.
    destruct (workers m !! w) as [o|] eqn:Ho; [|done]. simpl. by apply Hexc. }
  exists m1. split; [done|]. unfold m1. simpl. rewrite <- app_assoc.
  repeat split; try done.
  - intros x Hx Hin. by eapply list_remove_first_elem.
  - intros x Hx. by rewrite !list_lookup_alter_ne.
Qed.

Lemma wait_running_alternates (fuel : nat) (pre post : list wid) (m : Manager W) :
  running_workers m = pre ++ post ->
  NoDup (pre ++ post) ->
  (forall w, w ∈ post -> w ∈ created_workers m) ->
  (forall w o, w ∈ post -> workers m !! w = Some o ->
     wc_exception (wc_call Worker.terminate (wc_call Worker.join (Worker.proc o))) = None) ->
  (length post <= fuel)%nat ->
  exists m',
    wait_running list_of_set fuel (length pre) m = (Return tt, m')
    /\ running_workers m' = pre ++ odds post
    /\ calls m' =
         calls m ++ (evens post ≫= fun w => [(w, Worker.join); (w, Worker.terminate)])
    /\ (forall x, x ∉ evens post -> x ∈ created_workers m -> x ∈ created_workers m')
    /\ (forall x, x ∉ evens post -> workers m' !! x = workers m !! x).
Proof.
  revert pre post m. induction fuel as [|fuel IH]; intros pre post m Hr Hnd Hc Hexc Hlen.
  - destruct post; [|simpl in Hlen; lia].
    exists m. simpl. rewrite !app_nil_r. by rewrite app_nil_r in Hr.
  - destruct post as [|w post].
    { exists m. rewrite wait_running_exhausted.
      - simpl. rewrite !app_nil_r. by rewrite app_nil_r in Hr.
      - rewrite Hr, app_nil_r. by apply lookup_ge_None_2. }
    apply NoDup_app in Hnd as (Hpre & Hdisj & Hpost).
    apply NoDup_cons in Hpost as [Hw Hpost].
    destruct (wait_running_step fuel pre post w m) as (m1 & -> & Hr1 & Hcalls1 & Hc1 & Hw1).
    { done. }
    { intros Hin. apply (Hdisj w Hin). left. }
    { apply Hc. left. }
    { intros o. apply Hexc. left. }
    destruct post as [|b post].
    { exists m1. rewrite wait_running_exhausted.
      - simpl. rewrite Hr1, Hcalls1. repeat split; try done.
        + intros x Hx. apply Hc1. intros ->. apply Hx. left.
        + intros x Hx. apply Hw1. intros ->. apply Hx. left.
      - rewrite Hr1, app_nil_r. apply lookup_ge_None_2. lia. }
    apply NoDup_cons in Hpost as [Hb Hpost].
    assert (b <> w) as Hbw by (intros ->; apply Hw; left).
    destruct (IH (pre ++ [b]) post m1) as (m' & Hrun & Hr' & Hcalls' & Hc' & Hw').
    { by rewrite Hr1, <- app_assoc. }
    { rewrite <- app_assoc. simpl. apply NoDup_app. split; [done|]. split.
      - intros x Hx Hin. apply (Hdisj x Hx). by right.
      - by apply NoDup_cons. }
    { intros x Hx. apply Hc1.
      - intros ->. apply Hw. by right.
      - apply Hc. right. by right. }
    { intros x o Hx. rewrite Hw1.
      - apply Hexc. right. by right.
      - intros ->. apply Hw. by right. }
    { simpl in Hlen. lia. }
    rewrite length_app in Hrun. simpl in Hrun.
    replace (length pre + 1)%nat with (S (length pre)) in Hrun by lia.
    exists m'. split; [exact Hrun|]. simpl.
    rewrite Hr', Hcalls', Hcalls1, <- !app_assoc. simpl.
    repeat split; try done.
    + intros x Hx Hin. apply not_elem_of_cons in Hx as [Hxw Hx].
      apply Hc'; [done|]. by apply Hc1.
    + intros x Hx. apply not_elem_of_cons in Hx as [Hxw Hx].
      rewrite Hw' by done. by apply Hw1.
Qed.

(** X11. The first loop of [wait()] removes from the list it walks, so it
    visits every other worker only: on a duplicate-free [running_workers]
    whose workers are all in [created_workers] and hold no exception, it
    joins and terminates exactly the workers at positions 0, 2, 4, ..., in
    that order, and leaves those at positions 1, 3, 5, ... in
    [running_workers], untouched and still in [created_workers]. *)
Theorem wait_first_loop_alternates (m : Manager W) :
  NoDup (running_workers m) ->
  (forall w, w ∈ running_workers m -> w ∈ created_workers m) ->
  (forall w o, w ∈ running_workers m -> workers m !! w = Some o ->
     wc_exception (wc_call Worker.terminate (wc_call Worker.join (Worker.proc o))) = None) ->
  exists m',
    wait_running list_of_set (length (running_workers m)) 0 m = (Return tt, m')
    /\ running_workers m' = odds (running_workers m)
    /\ calls m' =
         calls m ++ (evens (running_workers m) ≫=
                       fun w => [(w, Worker.join); (w, Worker.terminate)])
    /\ (forall w, w ∈ odds (running_workers m) ->
          w ∈ created_workers m' /\ workers m' !! w = workers m !! w).
Proof.
  intros Hnd Hc Hexc.
  destruct (wait_running_alternates (length (running_workers m)) [] (running_workers m) m)
    as (m' & Hrun & Hr' & Hcalls & Hc' & Hw'); try done.
  exists m'. split; [exact Hrun|]. split; [exact Hr'|]. split; [exact Hcalls|].
  intros w Hw.
  assert (w ∉ evens (running_workers m)) as Hne
    by (eapply odds_not_evens; [reflexivity|done|done]).
  split; [|by apply Hw'].
  apply Hc'; [done|]. apply Hc.
  by apply (proj2 (evens_odds_elem (length (running_workers m)) (running_workers m) w
                     (le_n _))).
Qed.

End WaitMore.

Section WaitRaises.

Context {W : Type} `{!WorkerClass W}.
Variable list_of_set : list wid -> list wid.

(** X12. [wait()] surfaces the failure of the first running worker: when
    the worker at the head of [running_workers] holds a stored exception
    once it has been joined and terminated, [wait()] raises that
    exception, whatever the state of the other workers.  The [terminate()]
    that precedes the raise must itself return, for which a worker class
    is assigned and no extra keyword argument repeats a keyword of the
    constructor call. *)
Theorem wait_raises_first_running
    (k : Z) (m : Manager W) (w : wid) (rest : list wid)
    (o : Worker.obj W) (e : exn) (t : string) :
  running_workers m = w :: rest ->
  w ∈ created_workers m ->
  workers m !! w = Some o ->
  wc_exception (wc_call Worker.terminate (wc_call Worker.join (Worker.proc o)))
    = Some (e, t) ->
  WORKER_CLASS (class_attrs m) = true ->
  keywords_fit m ->
  as_int (_max_workers m) = Some k ->
  fst (wait list_of_set m) = Raise e.
Proof.
  intros Hr Hc Ho Hexc Hcls Hfit Hk.
  unfold wait. unfold bind at 1. unfold bind at 1. unfold get at 1.
  rewrite Hr. simpl.
  unfold bind at 1. unfold call at 1, modify at 1.
  unfold bind at 1. unfold call at 1, modify at 1.
  unfold bind at 1. unfold running_workers_remove at 1. simpl.
  rewrite Hr. simpl. rewrite decide_True by done.
  unfold bind at 1. unfold created_workers_remove at 1. simpl.
  destruct (list_remove_first_is_Some w _ Hc) as [l' ->].
  unfold bind at 1. unfold get at 1.
  set (m4 := set_created_workers l' _).
  assert (exception_of m4 w = Some (e, t)) as ->.
  { unfold exception_of, m4. simpl. rewrite !list_lookup_alter_eq, Ho. simpl. exact Hexc. }
  unfold bind at 1.
  pose proof (terminate_does_not_raise list_of_set k m4 Hcls Hfit Hk) as Ht.
  destruct (terminate list_of_set m4) as [r m5]. simpl in Ht. subst r.
  reflexivity.
Qed.

(** X13. [wait()] also surfaces the failure of a worker that was never
    started: with nobody in [running_workers], when the worker at the
    head of [created_workers] holds a stored exception once it has been
    terminated, [wait()] raises that exception.  The [terminate()] that
    precedes the raise must itself return, for which a worker class is
    assigned and no extra keyword argument repeats a keyword of the
    constructor call. *)
Theorem wait_raises_first_created
    (k : Z) (m : Manager W) (w : wid) (rest : list wid)
    (o : Worker.obj W) (e : exn) (t : string) :
  running_workers m = [] ->
  created_workers m = w :: rest ->
  workers m !! w = Some o ->
  wc_exception (wc_call Worker.terminate (Worker.proc o)) = Some (e, t) ->
  WORKER_CLASS (class_attrs m) = true ->
  keywords_fit m ->
  as_int (_max_workers m) = Some k ->
  fst (wait list_of_set m) = Raise e.
Proof.
  intros Hr Hc Ho Hexc Hcls Hfit Hk.
  unfold wait. unfold bind at 1. unfold bind at 1. unfold get at 1.
  rewrite Hr. simpl.
  unfold bind at 1. unfold bind at 1. unfold get at 1.
  rewrite Hc. simpl.
  unfold bind at 1. unfold call at 1, modify at 1.
  unfold bind at 1. unfold created_workers_remove at 1. simpl.
  rewrite Hc. simpl. rewrite decide_True by done.
  unfold bind at 1. unfold get at 1.
  set (m3 := set_created_workers rest _).
  assert (exception_of m3 w = Some (e, t)) as ->.
  { unfold exception_of, m3. simpl. rewrite list_lookup_alter_eq, Ho. simpl. exact Hexc. }
  unfold bind at 1.
  pose proof (terminate_does_not_raise list_of_set k m3 Hcls Hfit Hk) as Ht.
  destruct (terminate list_of_set m3) as [r m4]. simpl in Ht. subst r.
  reflexivity.
Qed.

End WaitRaises.

(** ** Dispatching and starting *)

Section Dispatch.

Context {W : Type} `{!WorkerClass W}.

Lemma current_workers_pool (m : Manager W) (w : wid) :
  w ∈ current_workers m -> w ∈ running_workers m ++ created_workers m.
Proof.
  unfold current_workers. rewrite elem_of_app. destruct (is_running m); auto.
Qed.

Lemma current_workers_nonempty (m : Manager W) :
  created_workers m <> [] -> current_workers m <> [].
Proof.
  unfold current_workers, is_running. intros Hc.
  destruct (running_workers m) as [|x l]; [done|].
  by destruct (existsb _ _).
Qed.

(** A push to a single worker, in full. *)
Lemma push_single_run via d s (m : Manager W) :
  created_workers m <> [] ->
  exists m' w,
    ensure_worker_spawned (push_body via d s false) m = (Return tt, m')
    /\ w ∈ current_workers m
    /\ calls m' = calls m ++ [(w, via d (or_str s (name m)) None)]
    /\ created_workers m' = created_workers m
    /\ running_workers m' = running_workers m
    /\ class_attrs m' = class_attrs m
    /\ _max_workers m' = _max_workers m
    /\ (forall x, name_of m' x = name_of m x).
Proof.
  intros Hc. unfold ensure_worker_spawned.
  destruct (created_workers m) as [|c cs] eqn:Ec; [done|]. rewrite <- Ec.
  unfold push_body. pose proof (current_workers_nonempty m) as Hne.
  rewrite Ec in Hne. specialize (Hne ltac:(done)).
  destruct (current_workers m) as [|x l] eqn:Ecur; [done|]. rewrite <- Ecur in *.
  destruct (random_choice_elem (current_workers m) m Hne) as (w & t & Hch & Hin).
  unfold bind. rewrite Hch.
  eexists _, w. split; [reflexivity|]. split; [done|]. simpl.
  repeat split; try done.
  intros y. apply (name_of_call w y _ (set_random_tape t m)).
Qed.

Lemma single_push_loop via s (ds : list value) (m : Manager W) :
  created_workers m <> [] ->
  exists m' sent,
    for_each ds (fun data => ensure_worker_spawned (push_body via data s false)) m
      = (Return tt, m')
    /\ calls m' = calls m ++ sent
    /\ Forall2 (fun d c => c.2 = via d (or_str s (name m)) None
                           /\ c.1 ∈ running_workers m ++ created_workers m) ds sent
    /\ created_workers m' = created_workers m
    /\ running_workers m' = running_workers m
    /\ class_attrs m' = class_attrs m
    /\ _max_workers m' = _max_workers m
    /\ (forall x, name_of m' x = name_of m x).
Proof.
  revert m. induction ds as [|d ds IH]; intros m Hc.
  - exists m, []. simpl. rewrite app_nil_r. repeat split; done.
  - simpl. unfold bind at 1.
    destruct (push_single_run via d s m Hc)
      as (m1 & w & -> & Hw & Hcalls1 & Hc1 & Hr1 & Hcl1 & Hm1 & Hn1).
    destruct (IH m1) as (m' & sent & -> & Hcalls & Hall & Hc' & Hr' & Hcl & Hmx & Hn);
      [by rewrite Hc1|].
    exists m', ((w, via d (or_str s (name m)) None) :: sent).
    split; [done|]. split; [by rewrite Hcalls, Hcalls1, <- app_assoc|].
    split.
    { constructor; [split; [done|by apply current_workers_pool]|].
      unfold name in *. by rewrite Hcl1, Hr1, Hc1 in Hall. }
    repeat split; try congruence. all: intros x; by rewrite Hn.
Qed.

(** A broadcast on a pool with workers, in full. *)
Lemma push_broadcast_run via d s (m : Manager W) :
  created_workers m <> [] ->
  exists m',
    ensure_worker_spawned (push_body via d s true) m = (Return tt, m')
    /\ calls m' =
         calls m ++ ((fun w => (w, via d (or_str s (name m)) (Some (name_of m w))))
                      <$> current_workers m)
    /\ created_workers m' = created_workers m
    /\ running_workers m' = running_workers m
    /\ class_attrs m' = class_attrs m
    /\ _max_workers m' = _max_workers m
    /\ (forall x, name_of m' x = name_of m x).
Proof.
  intros Hc. unfold ensure_worker_spawned.
  destruct (created_workers m) as [|c cs] eqn:Ec; [done|]. rewrite <- Ec.
  unfold push_body. apply for_each_broadcast.
Qed.

Lemma broadcast_loop via s (ds : list value) (m : Manager W) :
  created_workers m <> [] ->
  running_workers m = created_workers m ->
  exists m',
    for_each ds (fun data => ensure_worker_spawned (push_body via data s true)) m
      = (Return tt, m')
    /\ calls m' =
         calls m ++ (ds ≫= fun d =>
           (fun w => (w, via d (or_str s (name m)) (Some (name_of m w))))
             <$> created_workers m)
    /\ created_workers m' = created_workers m
    /\ running_workers m' = running_workers m
    /\ class_attrs m' = class_attrs m
    /\ _max_workers m' = _max_workers m.
Proof.
  revert m. induction ds as [|d ds IH]; intros m Hc Hr.
  - exists m. simpl. rewrite app_nil_r. by repeat split.
  - simpl. unfold bind at 1.
    destruct (push_broadcast_run via d s m Hc)
      as (m1 & -> & Hcalls1 & Hc1 & Hr1 & Hcl1 & Hm1 & Hn1).
    assert (current_workers m = created_workers m) as Hcur.
    { unfold current_workers. rewrite Hr. by destruct (is_running m). }
    rewrite Hcur in Hcalls1.
    destruct (IH m1) as (m' & -> & Hcalls & Hc' & Hr' & Hcl & Hmx);
      [by rewrite Hc1|congruence|].
    exists m'. split; [done|].
    rewrite Hcalls, Hcalls1, Hc1, <- app_assoc.
    split.
    { do 2 f_equal. unfold name. rewrite Hcl1.
      apply list_bind_ext; [|done]. intros d'.
      apply list_fmap_ext. intros _ w _. by rewrite Hn1. }
    repeat split; congruence.
Qed.

Lemma start_loop_calls (l : list wid) (m : Manager W) :
  exists m',
    for_each l (fun worker =>
      bind (call worker Worker.start) (fun _ =>
        modify (fun m0 => set_running_workers (running_workers m0 ++ [worker]) m0))) m
      = (Return tt, m')
    /\ running_workers m' = running_workers m ++ l
    /\ created_workers m' = created_workers m
    /\ calls m' = calls m ++ ((fun w => (w, Worker.start)) <$> l)
    /\ class_attrs m' = class_attrs m
    /\ _max_workers m' = _max_workers m
    /\ (forall x, name_of m' x = name_of m x).
Proof.
  revert m. induction l as [|w l IH]; intros m.
  - exists m. simpl. rewrite !app_nil_r. by repeat split.
  - simpl. unfold bind at 1. unfold bind at 1. simpl.
    match goal with |- context [for_each l _ ?m1] =>
      destruct (IH m1) as (m' & -> & Hr & Hc & Hcalls & Hcl & Hmx & Hn) end.
    exists m'. split; [done|]. simpl in *.
    rewrite Hr, Hcalls, <- !app_assoc. repeat split; try done.
    intros x. rewrite Hn. apply (name_of_call w x Worker.start m).
Qed.

(** [start] below its first two decorators, on a pool with workers none
    of which is in [running_workers]. *)
Lemma start_idle_run (m : Manager W) :
  created_workers m <> [] ->
  running_workers m = [] ->
  exists m' ins outs,
    ignore_if_running start_body m = (Return tt, m')
    /\ created_workers m' = created_workers m
    /\ running_workers m' = created_workers m
    /\ calls m' =
         calls m ++ ((fun w => (w, Worker.start)) <$> created_workers m)
           ++ ins ++ outs
           ++ (configuration_datasets (class_attrs m) ≫= fun d =>
                 (fun w => (w, Worker.push_to_configuration_queue d "ppm"
                                 (Some (name_of m w)))) <$> created_workers m)
    /\ Forall2 (fun d c => c.2 = Worker.push_to_input_queue d "ppm" None
                           /\ c.1 ∈ created_workers m)
         (input_datasets (class_attrs m)) ins
    /\ Forall2 (fun d c => c.2 = Worker.push_to_output_queues d "ppm" None
                           /\ c.1 ∈ created_workers m)
         (output_datasets (class_attrs m)) outs.
Proof.
  intros Hc Hr. unfold ignore_if_running, is_running. rewrite Hr.
  unfold start_body. unfold bind at 1. unfold get at 1.
  destruct (start_loop_calls (created_workers m) m)
    as (m1 & H1 & Hr1 & Hc1 & Hcalls1 & Hcl1 & Hm1 & Hn1).
  rewrite Hr in Hr1. simpl in Hr1.
  unfold bind at 1. rewrite H1.
  destruct (single_push_loop Worker.push_to_input_queue (Some "ppm")
              (input_datasets (class_attrs m)) m1)
    as (m2 & ins & H2 & Hcalls2 & Hins & Hc2 & Hr2 & Hcl2 & Hm2 & Hn2);
    [by rewrite Hc1|].
  unfold push_to_input_queue. unfold bind at 1. rewrite H2.
  destruct (single_push_loop Worker.push_to_output_queues (Some "ppm")
              (output_datasets (class_attrs m)) m2)
    as (m3 & outs & H3 & Hcalls3 & Houts & Hc3 & Hr3 & Hcl3 & Hm3 & Hn3);
    [by rewrite Hc2, Hc1|].
  unfold push_to_output_queues. unfold bind at 1. rewrite H3.
  destruct (broadcast_loop Worker.push_to_configuration_queue (Some "ppm")
              (configuration_datasets (class_attrs m)) m3)
    as (m4 & H4 & Hcalls4 & Hc4 & Hr4 & Hcl4 & Hm4);
    [by rewrite Hc3, Hc2, Hc1|congruence|].
  unfold push_to_configuration_queue. rewrite H4.
  exists m4, ins, outs. split; [done|].
  split; [congruence|]. split; [congruence|].
  split.
  { rewrite Hcalls4, Hcalls3, Hcalls2, Hcalls1, <- !app_assoc, Hc3, Hc2, Hc1.
    do 4 f_equal. apply list_bind_ext; [|done]. intros d.
    apply list_fmap_ext. intros _ w _. by rewrite Hn3, Hn2, Hn1. }
  split.
  - eapply Forall2_impl; [exact Hins|]. intros d c [? Hin]. split; [done|].
    rewrite Hr1, Hc1 in Hin. apply elem_of_app in Hin. tauto.
  - eapply Forall2_impl; [exact Houts|]. intros d c [? Hin]. split; [done|].
    rewrite Hr2, Hr1, Hc2, Hc1 in Hin. apply elem_of_app in Hin. tauto.
Qed.

End Dispatch.

Section StartMore.

Context {W : Type} `{!WorkerClass W}.

(** X14. A push that is not a broadcast reaches exactly one worker, one
    of the current cohort, with no destination; the source is the given
    one, or the name of the manager when none (or an empty one) is given.
    The pool is left as it was. This holds for the three [push_to_*]
    methods. *)
Theorem push_single_dispatch (d : value) (s : option string) (m : Manager W) :
  created_workers m <> [] ->
  (exists m' w,
     push_to_input_queue d s false m = (Return tt, m')
     /\ w ∈ current_workers m
     /\ calls m' = calls m ++ [(w, Worker.push_to_input_queue d (or_str s (name m)) None)]
     /\ created_workers m' = created_workers m
     /\ running_workers m' = running_workers m)
  /\ (exists m' w,
     push_to_output_queues d s false m = (Return tt, m')
     /\ w ∈ current_workers m
     /\ calls m' = calls m ++ [(w, Worker.push_to_output_queues d (or_str s (name m)) None)]
     /\ created_workers m' = created_workers m
     /\ running_workers m' = running_workers m)
  /\ (exists m' w,
     push_to_configuration_queue d s false m = (Return tt, m')
     /\ w ∈ current_workers m
     /\ calls m' =
          calls m ++ [(w, Worker.push_to_configuration_queue d (or_str s (name m)) None)]
     /\ created_workers m' = created_workers m
     /\ running_workers m' = running_workers m).
Proof.
  intros Hc.
  split; [|split].
  - destruct (push_single_run Worker.push_to_input_queue d s m Hc)
      as (m' & w & ? & ? & ? & ? & ? & _). by exists m', w.
  - destruct (push_single_run Worker.push_to_output_queues d s m Hc)
      as (m' & w & ? & ? & ? & ? & ? & _). by exists m', w.
  - destruct (push_single_run Worker.push_to_configuration_queue d s m Hc)
      as (m' & w & ? & ? & ? & ? & ? & _). by exists m', w.
Qed.

(** X15. [start()] on a pool that has workers, none of them in
    [running_workers]: every worker of [created_workers] is started once,
    in order, and [running_workers] becomes [created_workers]; only then
    are the datasets pushed, each list in its order, with source ["ppm"]:
    every input dataset and every output dataset to one worker of the
    pool without destination, every configuration dataset to each worker
    with the name of that worker as destination. *)
Theorem start_idle_pool (m : Manager W) :
  WORKER_CLASS (class_attrs m) = true ->
  created_workers m <> [] ->
  running_workers m = [] ->
  exists m' ins outs,
    start m = (Return tt, m')
    /\ created_workers m' = created_workers m
    /\ running_workers m' = created_workers m
    /\ calls m' =
         calls m ++ ((fun w => (w, Worker.start)) <$> created_workers m)
           ++ ins ++ outs
           ++ (configuration_datasets (class_attrs m) ≫= fun d =>
                 (fun w => (w, Worker.push_to_configuration_queue d "ppm"
                                 (Some (name_of m w)))) <$> created_workers m)
    /\ Forall2 (fun d c => c.2 = Worker.push_to_input_queue d "ppm" None
                           /\ c.1 ∈ created_workers m)
         (input_datasets (class_attrs m)) ins
    /\ Forall2 (fun d c => c.2 = Worker.push_to_output_queues d "ppm" None
                           /\ c.1 ∈ created_workers m)
         (output_datasets (class_attrs m)) outs.
Proof.
  intros Hcls Hc Hr.
  unfold start. rewrite ensure_worker_class_is_set_bound by done.
  unfold ensure_worker_spawned.
  destruct (created_workers m) as [|c cs] eqn:Ec; [done|]. rewrite <- Ec in *.
  by apply start_idle_run.
Qed.

(** X16. [start()] on a manager without workers, with a worker class
    assigned and no extra keyword argument that repeats a keyword of the
    constructor call, spawns [max_workers] workers and starts them all:
    the two cohorts hold the same [max_workers] new workers afterwards,
    each started once before anything is pushed. *)
Theorem start_empty_pool (k : Z) (m : Manager W) :
  WORKER_CLASS (class_attrs m) = true ->
  keywords_fit m ->
  as_int (_max_workers m) = Some k ->
  1 <= k ->
  created_workers m = [] ->
  running_workers m = [] ->
  exists m' pushes,
    start m = (Return tt, m')
    /\ created_workers m' = seq (length (workers m)) (Z.to_nat k)
    /\ running_workers m' = seq (length (workers m)) (Z.to_nat k)
    /\ calls m' =
         calls m ++ ((fun w => (w, Worker.start)) <$> seq (length (workers m)) (Z.to_nat k))
           ++ pushes.
Proof.
  intros Hcls Hfit Hk Hk1 Hc Hr.
  unfold start. rewrite ensure_worker_class_is_set_bound by done.
  unfold ensure_worker_spawned. rewrite Hc.
  unfold bind at 1. unfold spawn_workers, max_workers. rewrite Hk.
  destruct (repeat_spawn_succeeds false (Z.to_nat k) k m)
    as (m1 & -> & Hc1 & Hr1 & Hcalls1 & _); [done|done|done|rewrite Hr; simpl; lia|].
  rewrite Hc in Hc1. rewrite Hr in Hr1. simpl in Hc1, Hr1.
  rewrite app_nil_r in Hcalls1.
  destruct (start_idle_run m1) as (m' & ins & outs & -> & Hc' & Hr' & Hcalls & _).
  { rewrite Hc1. destruct (Z.to_nat k) eqn:E; [lia|done]. }
  { done. }
  eexists m', _. split; [done|]. rewrite Hc', Hr', Hcalls, Hcalls1, Hc1. done.
Qed.

(** X20. A manager whose [max_workers] is not positive (which [__init__]
    accepts) never gets a worker: on its empty pool [spawn_worker] returns
    [None], and [spawn_workers], the three [push_to_*] methods and
    [start()] return normally without doing anything, so what is pushed is
    dropped. *)
Theorem nonpositive_max_workers_inert
    (d : value) (s : option string) (aq start_flag : bool) (dm : option bool)
    (k : Z) (m : Manager W) :
  as_int (_max_workers m) = Some k ->
  k <= 0 ->
  created_workers m = [] ->
  running_workers m = [] ->
  spawn_worker start_flag dm m = (Return None, m)
  /\ spawn_workers start_flag m = (Return tt, m)
  /\ push_to_input_queue d s aq m = (Return tt, m)
  /\ push_to_output_queues d s aq m = (Return tt, m)
  /\ push_to_configuration_queue d s aq m = (Return tt, m)
  /\ (WORKER_CLASS (class_attrs m) = true -> start m = (Return tt, m)).
Proof.
  intros Hk Hle Hc Hr.
  assert (forall b, spawn_workers b m = (Return tt, m)) as Hsp.
  { intros b. unfold spawn_workers, max_workers. rewrite Hk.
    by replace (Z.to_nat k) with 0%nat by lia. }
  assert (is_running m = false) as Hrun by (unfold is_running; by rewrite Hr).
  split.
  { unfold spawn_worker, max_workers. rewrite Hk, Hr. simpl.
    destruct (Z.leb_spec k (Z.of_nat 0)); [done|lia]. }
  split; [apply Hsp|].
  repeat split; try (by apply push_noop).
  intros Hcls. unfold start. rewrite ensure_worker_class_is_set_bound by done.
  unfold ensure_worker_spawned. rewrite Hc. unfold bind. rewrite Hsp.
  unfold ignore_if_running. rewrite Hrun. by apply start_body_noop.
Qed.

End StartMore.

(** ** Construction *)

Section InitMore.

Context {W : Type} `{!WorkerClass W}.

(** X17. [__init__] keeps an input queue it is given, but ignores a
    configuration queue it is given: the attribute [configuration_queue]
    is [None] afterwards, whatever [generate_configuration_queue] says. *)
Theorem init_supplied_queues
    (cls : ClassAttrs) (a : init_args) (tape : list nat) (q : queue) :
  (a_input_queue a = Some q ->
   input_queue (options (__init__ (W:=W) cls a tape)) = Some q)
  /\ (a_configuration_queue a = Some q ->
      configuration_queue (options (__init__ (W:=W) cls a tape)) = None).
Proof.
  split; intros Hq; unfold __init__; simpl; rewrite Hq; simpl; done.
Qed.

(** X18. After [__init__], [output_queues] is either [None] or a
    non-empty list; when the queues are generated there are
    [max(1, output_queue_count)] of them, each one returned by a call of
    [Queue()] on the manager of the instance.  They are pairwise different
    when that manager returns a different object at every call, and one
    and the same object when it returns the same object at every call. *)
Theorem init_output_queues (cls : ClassAttrs) (a : init_args) (tape : list nat) :
  (forall qs, output_queues (options (__init__ (W:=W) cls a tape)) = Some qs -> qs <> [])
  /\ (queue_arg_truthy (a_output_queue a) = false ->
      a_generate_output_queue a = true ->
      exists qs,
        output_queues (options (__init__ (W:=W) cls a tape)) = Some qs
        /\ Z.of_nat (length qs) = Z.max 1 (a_output_queue_count a)
        /\ (forall self_manager,
              manager (options (__init__ (W:=W) cls a tape)) = Some self_manager ->
              (forall q, q ∈ qs -> exists n, self_manager n = q)
              /\ ((forall i j, self_manager i = self_manager j -> i = j) -> NoDup qs)
              /\ (forall q, (forall n, self_manager n = q) ->
                     qs = replicate (length qs) q))).
Proof.
  unfold __init__. simpl. split.
  - intros qs. destruct (negb (queue_arg_truthy (a_output_queue a))
                         && a_generate_output_queue a).
    + intros [= <-] Hnil. apply (f_equal length) in Hnil.
      rewrite length_fmap, length_seq in Hnil. simpl in Hnil. lia.
    + destruct (a_output_queue a) as [|q|[|q l]]; intros [= <-]; done.
  - intros -> ->. simpl. eexists. split; [done|].
    rewrite length_fmap, length_seq. split; [lia|].
    intros mgr [= <-]. split; [|split].
    + intros q (n & -> & _)%list_elem_of_fmap. by exists n.
    + intros Hinj. apply NoDup_fmap_2; [exact Hinj|apply NoDup_seq].
    + intros q Hq.
      generalize (Z.to_nat (Z.max 1 (a_output_queue_count a))) as n.
      generalize (if negb (bool_decide (is_Some (a_input_queue a)))
                       && a_generate_input_queue a then 1%nat else 0%nat) as i.
      intros i n. revert i. induction n as [|n IH]; intros i; [done|].
      simpl. rewrite Hq. f_equal. apply IH.
Qed.

(** X19. On a host with at least one processor, a manager built without
    [max_workers] (or with a falsy one, such as 0) gets a positive
    [max_workers]: the [cpu_count] of the host. *)
Theorem init_default_max_workers
    (cls : ClassAttrs) (a : init_args) (tape : list nat) :
  truthy (a_max_workers a) = false ->
  1 <= AVAILABLE_CPU_COUNT cls ->
  exists z,
    max_workers (__init__ (W:=W) cls a tape) = VInt z
    /\ z = cpu_count (__init__ (W:=W) cls a tape)
    /\ 1 <= z.
Proof.
  intros Hv Hcpu. unfold __init__, max_workers, py_or. simpl. rewrite Hv.
  eexists. split; [done|]. unfold cpu_count. simpl. split; [done|].
  destruct (Z.ltb_spec 2 (AVAILABLE_CPU_COUNT cls)); lia.
Qed.

End InitMore.

(** ** Instances of the further properties *)

Lemma getattr_extra_argument_witness :
  NoDup (a_kwargs extra_args).*1
  /\ ("foobar", VStr "barfoo") ∈ a_kwargs extra_args
  /\ __getattr__ "foobar" (__init__ (W:=DummyWorker) (test_class 8) extra_args [])
     = (Return (VStr "barfoo"), __init__ (test_class 8) extra_args []).
Proof.
  assert (NoDup (a_kwargs extra_args).*1) as H1.
  { apply (bool_decide_unpack (NoDup (a_kwargs extra_args).*1)). vm_compute. exact I. }
  assert (("foobar", VStr "barfoo") ∈ a_kwargs extra_args) as H2 by (simpl; left).
  split; [exact H1|]. split; [exact H2|].
  exact (getattr_extra_argument (test_class 8) extra_args [] "foobar" (VStr "barfoo") H1 H2).
Defined.

Lemma getattr_missing_argument_witness :
  ("barfoo" ∉ (a_kwargs extra_args).*1)
  /\ __getattr__ "barfoo" (__init__ (W:=DummyWorker) (test_class 8) extra_args [])
     = (Raise AttributeError, __init__ (test_class 8) extra_args []).
Proof.
  assert ("barfoo" ∉ (a_kwargs extra_args).*1) as H1.
  { apply (bool_decide_unpack ("barfoo" ∉ (a_kwargs extra_args).*1)).
    vm_compute. exact I. }
  split; [exact H1|].
  exact (getattr_missing_argument (test_class 8) extra_args [] "barfoo" H1).
Defined.

Lemma spawn_worker_capacity_witness :
  as_int (_max_workers two_running) = Some 2
  /\ spawn_worker false None two_running = (Return None, two_running)
  /\ 2 <= Z.of_nat (length (running_workers two_running))
  /\ Z.of_nat (length (running_workers two_running)) <= 2
  /\ (@Return (option wid) None = Return None /\ two_running = two_running)
  /\ Z.of_nat (length (running_workers two_running)) <= 2.
Proof.
  assert (as_int (_max_workers two_running) = Some 2) as H1 by reflexivity.
  assert (spawn_worker false None two_running = (Return None, two_running)) as H2
    by reflexivity.
  assert (2 <= Z.of_nat (length (running_workers two_running))) as H3
    by (vm_compute; discriminate).
  assert (Z.of_nat (length (running_workers two_running)) <= 2) as H4
    by (vm_compute; discriminate).
  split; [exact H1|]. split; [exact H2|]. split; [exact H3|]. split; [exact H4|].
  split.
  - exact (proj1 (spawn_worker_capacity false None 2 two_running two_running
                    (Return None) H1 H2) H3).
  - exact (proj2 (spawn_worker_capacity false None 2 two_running two_running
                    (Return None) H1 H2) H4).
Defined.

Lemma spawn_workers_idle_pool_witness :
  let m := manager_with_extra in
  WORKER_CLASS (class_attrs m) = true
  /\ keywords_fit m
  /\ as_int (_max_workers m) = Some 2
  /\ running_workers m = []
  /\ exists m' new,
       spawn_workers true m = (Return tt, m')
       /\ length new = Z.to_nat 2
       /\ created_workers m' = created_workers m ++ new
       /\ running_workers m' = new
       /\ names_of m' new =
            worker_name m <$> seq (length (created_workers m) + 1) (Z.to_nat 2)
       /\ NoDup (names_of m' new).
Proof.
  cbv zeta.
  assert (keywords_fit manager_with_extra) as H2.
  { apply (bool_decide_unpack (keywords_fit manager_with_extra)). vm_compute. exact I. }
  split; [reflexivity|]. split; [exact H2|]. split; [reflexivity|]. split; [reflexivity|].
  exact (spawn_workers_idle_pool true 2 manager_with_extra eq_refl H2 eq_refl eq_refl).
Defined.

Lemma spawn_workers_start_fills_witness :
  let m := one_of_three_running in
  WORKER_CLASS (class_attrs m) = true
  /\ keywords_fit m
  /\ as_int (_max_workers m) = Some 3
  /\ Z.of_nat (length (running_workers m)) <= 3
  /\ exists m' new,
       spawn_workers true m = (Return tt, m')
       /\ created_workers m' = created_workers m ++ new
       /\ running_workers m' = running_workers m ++ new
       /\ calls m' = calls m ++ ((fun w => (w, Worker.start)) <$> new)
       /\ Z.of_nat (length (running_workers m')) = 3.
Proof.
  cbv zeta.
  assert (keywords_fit one_of_three_running) as H2.
  { apply (bool_decide_unpack (keywords_fit one_of_three_running)). vm_compute. exact I. }
  assert (Z.of_nat (length (running_workers one_of_three_running)) <= 3) as H3
    by (vm_compute; discriminate).
  split; [reflexivity|]. split; [exact H2|]. split; [reflexivity|]. split; [exact H3|].
  exact (spawn_workers_start_fills 3 one_of_three_running eq_refl H2 eq_refl H3).
Defined.

Lemma spawn_worker_keyword_twice_witness :
  let m := manager_with_name in
  WORKER_CLASS (class_attrs m) = true
  /\ as_int (_max_workers m) = Some 2
  /\ Z.of_nat (length (running_workers m)) < 2
  /\ ("name", VStr "x") ∈ _extra_args (options m)
  /\ "name" ∈ worker_keywords
  /\ spawn_worker false None m = (Raise TypeError, m)
  /\ spawn_workers false m = (Raise TypeError, m).
Proof.
  cbv zeta.
  assert (Z.of_nat (length (running_workers manager_with_name)) < 2) as H3
    by (vm_compute; reflexivity).
  assert (("name", VStr "x") ∈ _extra_args (options manager_with_name)) as H4
    by (simpl; left).
  assert ("name" ∈ worker_keywords) as H5 by (unfold worker_keywords; left).
  split; [reflexivity|]. split; [reflexivity|]. split; [exact H3|].
  split; [exact H4|]. split; [exact H5|].
  exact (spawn_worker_keyword_twice false None 2 manager_with_name "name" (VStr "x")
           eq_refl eq_refl H3 H4 H5).
Defined.

Lemma terminate_worker_removes_witness :
  let m := created_and_running in
  NoDup (running_workers m)
  /\ NoDup (created_workers m)
  /\ exists m',
       terminate_worker 1%nat m = (Return tt, m')
       /\ calls m' = calls m ++ [(1%nat, Worker.terminate); (1%nat, Worker.join)]
       /\ running_workers m' = filter (fun x => x <> 1%nat) (running_workers m)
       /\ created_workers m' = filter (fun x => x <> 1%nat) (created_workers m)
       /\ (1%nat ∉ running_workers m')
       /\ (1%nat ∉ created_workers m').
Proof.
  cbv zeta.
  assert (NoDup (running_workers created_and_running)) as H1.
  { apply (bool_decide_unpack (NoDup (running_workers created_and_running))).
    vm_compute. exact I. }
  assert (NoDup (created_workers created_and_running)) as H2.
  { apply (bool_decide_unpack (NoDup (created_workers created_and_running))).
    vm_compute. exact I. }
  split; [exact H1|]. split; [exact H2|].
  exact (terminate_worker_removes 1%nat created_and_running H1 H2).
Defined.

Lemma terminate_returns_witness :
  WORKER_CLASS (class_attrs two_running) = true
  /\ keywords_fit two_running
  /\ as_int (_max_workers two_running) = Some 2
  /\ fst (terminate remove_dups two_running) = Return tt.
Proof.
  assert (keywords_fit two_running) as H2.
  { apply (bool_decide_unpack (keywords_fit two_running)). vm_compute. exact I. }
  split; [reflexivity|]. split; [exact H2|]. split; [reflexivity|].
  exact (terminate_returns remove_dups 2 two_running eq_refl H2 eq_refl).
Defined.

Lemma lazy_spawn_needs_worker_class_witness :
  let d := VStr "test_data" in
  let fails (m : Manager DummyWorker) (e : exn) :=
    created_workers m = []
    /\ running_workers m = []
    /\ as_int (_max_workers m) = Some 2
    /\ 1 <= 2
    /\ ((WORKER_CLASS (class_attrs m) = false /\ e = TypeError)
        \/ (WORKER_CLASS (class_attrs m) = Unassigned
            /\ ("WORKER_CLASS" ∉ (_extra_args (options m)).*1)
            /\ e = AttributeError))
    /\ push_to_input_queue d None false m = (Raise e, m)
    /\ push_to_output_queues d None false m = (Raise e, m)
    /\ push_to_configuration_queue d None false m = (Raise e, m)
    /\ terminate remove_dups m = (Raise e, m) in
  fails base_manager AttributeError /\ fails unbound_manager TypeError.
Proof.
  cbv zeta.
  assert (1 <= 2) as H4 by lia.
  assert ((WORKER_CLASS (class_attrs base_manager) = false /\ AttributeError = TypeError)
          \/ (WORKER_CLASS (class_attrs base_manager) = Unassigned
              /\ ("WORKER_CLASS" ∉ (_extra_args (options base_manager)).*1)
              /\ AttributeError = AttributeError)) as H5.
  { right. split; [reflexivity|]. split; [|reflexivity].
    apply (bool_decide_unpack
             ("WORKER_CLASS" ∉ (_extra_args (options base_manager)).*1)).
    vm_compute. exact I. }
  assert ((WORKER_CLASS (class_attrs unbound_manager) = false /\ TypeError = TypeError)
          \/ (WORKER_CLASS (class_attrs unbound_manager) = Unassigned
              /\ ("WORKER_CLASS" ∉ (_extra_args (options unbound_manager)).*1)
              /\ TypeError = AttributeError)) as H6.
  { left. split; reflexivity. }
  split.
  - split; [reflexivity|]. split; [reflexivity|]. split; [reflexivity|].
    split; [exact H4|]. split; [exact H5|].
    exact (lazy_spawn_needs_worker_class remove_dups remove_dups_enumerates
             (VStr "test_data") None false 2 base_manager AttributeError
             eq_refl eq_refl eq_refl H4 H5).
  - split; [reflexivity|]. split; [reflexivity|]. split; [reflexivity|].
    split; [exact H4|]. split; [exact H6|].
    exact (lazy_spawn_needs_worker_class remove_dups remove_dups_enumerates
             (VStr "test_data") None false 2 unbound_manager TypeError
             eq_refl eq_refl eq_refl H4 H6).
Defined.

Lemma terminate_skips_dead_workers_witness :
  created_workers idle_pool <> []
  /\ (forall w o, w ∈ running_workers idle_pool ++ created_workers idle_pool ->
        workers idle_pool !! w = Some o ->
        @wc_is_alive _ IdleMock_class (Worker.proc o) = false
        /\ @wc_is_alive _ IdleMock_class
             (@wc_call _ IdleMock_class Worker.global_exit_event_set (Worker.proc o))
           = false)
  /\ exists m' chosen,
       @terminate _ IdleMock_class remove_dups idle_pool = (Return tt, m')
       /\ running_workers m' = running_workers idle_pool
       /\ created_workers m' = created_workers idle_pool
       /\ chosen ∈ running_workers idle_pool ++ created_workers idle_pool
       /\ calls m' =
            calls idle_pool ++ (chosen, Worker.global_exit_event_set)
              :: ((fun w => (w, Worker.push_to_output_queues (VStr "stop") (name idle_pool)
                                  (Some (name_of idle_pool w))))
                    <$> created_workers idle_pool).
Proof.
  assert (created_workers idle_pool <> []) as H1 by (vm_compute; discriminate).
  assert (forall w o, w ∈ running_workers idle_pool ++ created_workers idle_pool ->
            workers idle_pool !! w = Some o ->
            @wc_is_alive _ IdleMock_class (Worker.proc o) = false
            /\ @wc_is_alive _ IdleMock_class
                 (@wc_call _ IdleMock_class Worker.global_exit_event_set (Worker.proc o))
               = false) as H2.
  { intros w o _ _. split; reflexivity. }
  split; [exact H1|]. split; [exact H2|].
  exact (@terminate_skips_dead_workers _ IdleMock_class remove_dups remove_dups_enumerates
           idle_pool H1 H2).
Defined.

Lemma terminate_alive_pool_witness :
  let m := created_and_running in
  (forall p : DummyWorker, wc_is_alive p = true)
  /\ (forall w, w ∈ running_workers m ++ created_workers m -> (w < length (workers m))%nat)
  /\ NoDup (running_workers m)
  /\ NoDup (created_workers m)
  /\ WORKER_CLASS (class_attrs m) = true
  /\ keywords_fit m
  /\ as_int (_max_workers m) = Some 2
  /\ exists m',
       terminate remove_dups m = (Return tt, m')
       /\ running_workers m' = []
       /\ created_workers m' = seq (length (workers m)) (Z.to_nat 2)
       /\ (forall w, w ∈ running_workers m ++ created_workers m ->
             (w ∉ created_workers m')
             /\ ((w, Worker.terminate) ∈ calls m')
             /\ ((w, Worker.join) ∈ calls m')).
Proof.
  cbv zeta.
  assert (forall p : DummyWorker, wc_is_alive p = true) as H1 by (intros p; reflexivity).
  assert (forall w, w ∈ running_workers created_and_running
                          ++ created_workers created_and_running ->
                    (w < length (workers created_and_running))%nat) as H2.
  { apply Forall_forall.
    apply (bool_decide_unpack
             (Forall (fun w => (w < length (workers created_and_running))%nat)
                (running_workers created_and_running
                   ++ created_workers created_and_running))).
    vm_compute. exact I. }
  assert (NoDup (running_workers created_and_running)) as H3.
  { apply (bool_decide_unpack (NoDup (running_workers created_and_running))).
    vm_compute. exact I. }
  assert (NoDup (created_workers created_and_running)) as H4.
  { apply (bool_decide_unpack (NoDup (created_workers created_and_running))).
    vm_compute. exact I. }
  assert (keywords_fit created_and_running) as H5.
  { apply (bool_decide_unpack (keywords_fit created_and_running)). vm_compute. exact I. }
  split; [exact H1|]. split; [exact H2|]. split; [exact H3|]. split; [exact H4|].
  split; [reflexivity|]. split; [exact H5|]. split; [reflexivity|].
  exact (terminate_alive_pool remove_dups remove_dups_enumerates 2 created_and_running
           H1 H2 H3 H4 eq_refl H5 eq_refl).
Defined.

Lemma wait_first_loop_alternates_witness :
  let m := four_running in
  NoDup (running_workers m)
  /\ (forall w, w ∈ running_workers m -> w ∈ created_workers m)
  /\ (forall w o, w ∈ running_workers m -> workers m !! w = Some o ->
        wc_exception (wc_call Worker.terminate (wc_call Worker.join (Worker.proc o)))
          = None)
  /\ exists m',
       wait_running remove_dups (length (running_workers m)) 0 m = (Return tt, m')
       /\ running_workers m' = odds (running_workers m)
       /\ calls m' =
            calls m ++ (evens (running_workers m) ≫=
                          fun w => [(w, Worker.join); (w, Worker.terminate)])
       /\ (forall w, w ∈ odds (running_workers m) ->
             w ∈ created_workers m' /\ workers m' !! w = workers m !! w).
Proof.
  cbv zeta.
  assert (NoDup (running_workers four_running)) as H1.
  { apply (bool_decide_unpack (NoDup (running_workers four_running))).
    vm_compute. exact I. }
  assert (forall w, w ∈ running_workers four_running -> w ∈ created_workers four_running)
    as H2.
  { apply Forall_forall.
    apply (bool_decide_unpack
             (Forall (fun w => w ∈ created_workers four_running)
                (running_workers four_running))).
    vm_compute. exact I. }
  assert (forall w o, w ∈ running_workers four_running ->
            workers four_running !! w = Some o ->
            wc_exception (wc_call Worker.terminate (wc_call Worker.join (Worker.proc o)))
              = None) as H3.
  { intros w o _ Ho. apply list_elem_of_lookup_2 in Ho.
    revert o Ho. apply Forall_forall.
    apply (bool_decide_unpack
             (Forall (fun o : Worker.obj DummyWorker =>
                        wc_exception (wc_call Worker.terminate
                                        (wc_call Worker.join (Worker.proc o))) = None)
                (workers four_running))).
    vm_compute. exact I. }
  split; [exact H1|]. split; [exact H2|]. split; [exact H3|].
  exact (wait_first_loop_alternates remove_dups four_running H1 H2 H3).
Defined.

Lemma wait_raises_first_running_witness :
  let m := started_and_failed in
  let o := {| Worker.name := "ppm-pyfunceble-process-manager-1";
              Worker.concurrent_workers_names := [];
              Worker.proc := {| d_name := "ppm-pyfunceble-process-manager-1";
                                d_exception :=
                                  Some (RuntimeError "Test exception", "Test Exception");
                                d_calls := [Worker.start] |} |} in
  running_workers m = [0%nat]
  /\ 0%nat ∈ created_workers m
  /\ workers m !! 0%nat = Some o
  /\ wc_exception (wc_call Worker.terminate (wc_call Worker.join (Worker.proc o)))
     = Some (RuntimeError "Test exception", "Test Exception")
  /\ WORKER_CLASS (class_attrs m) = true
  /\ keywords_fit m
  /\ as_int (_max_workers m) = Some 2
  /\ fst (wait remove_dups m) = Raise (RuntimeError "Test exception").
Proof.
  cbv zeta.
  assert (0%nat ∈ created_workers started_and_failed) as H2 by (vm_compute; left).
  assert (keywords_fit started_and_failed) as H6.
  { apply (bool_decide_unpack (keywords_fit started_and_failed)). vm_compute. exact I. }
  split; [reflexivity|]. split; [exact H2|]. split; [reflexivity|].
  split; [reflexivity|]. split; [reflexivity|]. split; [exact H6|]. split; [reflexivity|].
  exact (wait_raises_first_running remove_dups 2 started_and_failed 0%nat [] _
           (RuntimeError "Test exception") "Test Exception"
           eq_refl H2 eq_refl eq_refl eq_refl H6 eq_refl).
Defined.

Lemma wait_raises_first_created_witness :
  let m := created_and_failed in
  let o := {| Worker.name := "ppm-pyfunceble-process-manager-1";
              Worker.concurrent_workers_names := [];
              Worker.proc := {| d_name := "ppm-pyfunceble-process-manager-1";
                                d_exception :=
                                  Some (RuntimeError "Test exception", "Test Exception");
                                d_calls := [] |} |} in
  running_workers m = []
  /\ created_workers m = [0%nat]
  /\ workers m !! 0%nat = Some o
  /\ wc_exception (wc_call Worker.terminate (Worker.proc o))
     = Some (RuntimeError "Test exception", "Test Exception")
  /\ WORKER_CLASS (class_attrs m) = true
  /\ keywords_fit m
  /\ as_int (_max_workers m) = Some 2
  /\ fst (wait remove_dups m) = Raise (RuntimeError "Test exception").
Proof.
  cbv zeta.
  assert (keywords_fit created_and_failed) as H6.
  { apply (bool_decide_unpack (keywords_fit created_and_failed)). vm_compute. exact I. }
  split; [reflexivity|]. split; [reflexivity|]. split; [reflexivity|].
  split; [reflexivity|]. split; [reflexivity|]. split; [exact H6|]. split; [reflexivity|].
  exact (wait_raises_first_created remove_dups 2 created_and_failed 0%nat [] _
           (RuntimeError "Test exception") "Test Exception"
           eq_refl eq_refl eq_refl eq_refl eq_refl H6 eq_refl).
Defined.

Lemma push_single_dispatch_witness :
  let m := three_created in
  let d := VStr "test_data" in
  created_workers m <> []
  /\ (exists m' w,
        push_to_input_queue d None false m = (Return tt, m')
        /\ w ∈ current_workers m
        /\ calls m' =
             calls m ++ [(w, Worker.push_to_input_queue d (or_str None (name m)) None)]
        /\ created_workers m' = created_workers m
        /\ running_workers m' = running_workers m)
  /\ (exists m' w,
        push_to_output_queues d None false m = (Return tt, m')
        /\ w ∈ current_workers m
        /\ calls m' =
             calls m ++ [(w, Worker.push_to_output_queues d (or_str None (name m)) None)]
        /\ created_workers m' = created_workers m
        /\ running_workers m' = running_workers m)
  /\ (exists m' w,
        push_to_configuration_queue d None false m = (Return tt, m')
        /\ w ∈ current_workers m
        /\ calls m' =
             calls m ++ [(w, Worker.push_to_configuration_queue d
                               (or_str None (name m)) None)]
        /\ created_workers m' = created_workers m
        /\ running_workers m' = running_workers m).
Proof.
  cbv zeta.
  assert (created_workers three_created <> []) as H1 by (vm_compute; discriminate).
  split; [exact H1|].
  exact (push_single_dispatch (VStr "test_data") None three_created H1).
Defined.

Lemma start_idle_pool_witness :
  let m := before_test_start in
  WORKER_CLASS (class_attrs m) = true
  /\ created_workers m <> []
  /\ running_workers m = []
  /\ exists m' ins outs,
       start m = (Return tt, m')
       /\ created_workers m' = created_workers m
       /\ running_workers m' = created_workers m
       /\ calls m' =
            calls m ++ ((fun w => (w, Worker.start)) <$> created_workers m)
              ++ ins ++ outs
              ++ (configuration_datasets (class_attrs m) ≫= fun d =>
                    (fun w => (w, Worker.push_to_configuration_queue d "ppm"
                                    (Some (name_of m w)))) <$> created_workers m)
       /\ Forall2 (fun d c => c.2 = Worker.push_to_input_queue d "ppm" None
                              /\ c.1 ∈ created_workers m)
            (input_datasets (class_attrs m)) ins
       /\ Forall2 (fun d c => c.2 = Worker.push_to_output_queues d "ppm" None
                              /\ c.1 ∈ created_workers m)
            (output_datasets (class_attrs m)) outs.
Proof.
  cbv zeta.
  assert (created_workers before_test_start <> []) as H2 by (vm_compute; discriminate).
  split; [reflexivity|]. split; [exact H2|]. split; [reflexivity|].
  exact (start_idle_pool before_test_start eq_refl H2 eq_refl).
Defined.

Lemma start_empty_pool_witness :
  let m := manager_with_extra in
  WORKER_CLASS (class_attrs m) = true
  /\ keywords_fit m
  /\ as_int (_max_workers m) = Some 2
  /\ 1 <= 2
  /\ created_workers m = []
  /\ running_workers m = []
  /\ exists m' pushes,
       start m = (Return tt, m')
       /\ created_workers m' = seq (length (workers m)) (Z.to_nat 2)
       /\ running_workers m' = seq (length (workers m)) (Z.to_nat 2)
       /\ calls m' =
            calls m ++ ((fun w => (w, Worker.start))
                          <$> seq (length (workers m)) (Z.to_nat 2))
              ++ pushes.
Proof.
  cbv zeta.
  assert (keywords_fit manager_with_extra) as H2.
  { apply (bool_decide_unpack (keywords_fit manager_with_extra)). vm_compute. exact I. }
  assert (1 <= 2) as H3 by lia.
  split; [reflexivity|]. split; [exact H2|]. split; [reflexivity|]. split; [exact H3|].
  split; [reflexivity|]. split; [reflexivity|].
  exact (start_empty_pool 2 manager_with_extra eq_refl H2 eq_refl H3 eq_refl eq_refl).
Defined.

Lemma init_supplied_queues_witness :
  (a_input_queue queues_given = Some (GivenQueue 7)
   /\ input_queue (options (__init__ (W:=DummyWorker) (test_class 8) queues_given []))
      = Some (GivenQueue 7))
  /\ (a_configuration_queue queues_given = Some (GivenQueue 7)
      /\ configuration_queue
           (options (__init__ (W:=DummyWorker) (test_class 8) queues_given [])) = None).
Proof.
  split; (split; [reflexivity|]).
  - exact (proj1 (init_supplied_queues (W:=DummyWorker) (test_class 8) queues_given []
                    (GivenQueue 7)) eq_refl).
  - exact (proj2 (init_supplied_queues (W:=DummyWorker) (test_class 8) queues_given []
                    (GivenQueue 7)) eq_refl).
Defined.

Lemma init_output_queues_witness :
  let m := __init__ (W:=DummyWorker) (test_class 8) one_queue_manager [] in
  let q := GivenQueue 5 in
  (output_queues (options m) = Some [q; q; q] /\ [q; q; q] <> [])
  /\ queue_arg_truthy (a_output_queue one_queue_manager) = false
  /\ a_generate_output_queue one_queue_manager = true
  /\ exists qs,
       output_queues (options m) = Some qs
       /\ Z.of_nat (length qs) = Z.max 1 (a_output_queue_count one_queue_manager)
       /\ (forall self_manager,
             manager (options m) = Some self_manager ->
             (forall q, q ∈ qs -> exists n, self_manager n = q)
             /\ ((forall i j, self_manager i = self_manager j -> i = j) -> NoDup qs)
             /\ (forall q, (forall n, self_manager n = q) ->
                    qs = replicate (length qs) q)).
Proof.
  cbv zeta.
  split.
  - split; [reflexivity|].
    exact (proj1 (init_output_queues (W:=DummyWorker) (test_class 8) one_queue_manager [])
             [GivenQueue 5; GivenQueue 5; GivenQueue 5] eq_refl).
  - split; [reflexivity|]. split; [reflexivity|].
    exact (proj2 (init_output_queues (W:=DummyWorker) (test_class 8) one_queue_manager [])
             eq_refl eq_refl).
Defined.

Lemma init_default_max_workers_witness :
  truthy (a_max_workers default_args) = false
  /\ 1 <= AVAILABLE_CPU_COUNT (test_class 8)
  /\ exists z,
       max_workers (__init__ (W:=DummyWorker) (test_class 8) default_args []) = VInt z
       /\ z = cpu_count (__init__ (W:=DummyWorker) (test_class 8) default_args [])
       /\ 1 <= z.
Proof.
  assert (1 <= AVAILABLE_CPU_COUNT (test_class 8)) as H2 by (vm_compute; discriminate).
  split; [reflexivity|]. split; [exact H2|].
  exact (init_default_max_workers (W:=DummyWorker) (test_class 8) default_args []
           eq_refl H2).
Defined.

Lemma nonpositive_max_workers_inert_witness :
  let m := process_manager (VInt (-1)) in
  let d := VStr "test_data" in
  as_int (_max_workers m) = Some (-1)
  /\ -1 <= 0
  /\ created_workers m = []
  /\ running_workers m = []
  /\ spawn_worker false None m = (Return None, m)
  /\ spawn_workers false m = (Return tt, m)
  /\ push_to_input_queue d None false m = (Return tt, m)
  /\ push_to_output_queues d None false m = (Return tt, m)
  /\ push_to_configuration_queue d None false m = (Return tt, m)
  /\ WORKER_CLASS (class_attrs m) = true
  /\ start m = (Return tt, m).
Proof.
  cbv zeta.
  assert (-1 <= 0) as H2 by lia.
  split; [reflexivity|]. split; [exact H2|]. split; [reflexivity|]. split; [reflexivity|].
  destruct (nonpositive_max_workers_inert (VStr "test_data") None false false None (-1)
              (process_manager (VInt (-1))) eq_refl H2 eq_refl eq_refl)
    as (Hs1 & Hs2 & Hp1 & Hp2 & Hp3 & Hst).
  split; [exact Hs1|]. split; [exact Hs2|]. split; [exact Hp1|]. split; [exact Hp2|].
  split; [exact Hp3|]. split; [reflexivity|]. exact (Hst eq_refl).
Defined.
